(** * YT-Script-Optimizer: the script analysis and rewrite engine

    A shallow embedding of [src/index.js] (class [YTScriptOptimizer]): the
    metrics ([analyzeScript], [calculateReadability], [countSyllables]), the
    planner ([generateOptimizations]), the rewriter ([applyOptimizations]),
    the report assembly ([optimizeScript]) and its helpers.

    Conventions of the embedding.
    - A JavaScript string is a sequence of UTF-16 code units.  The embedding
      covers the strings whose code units are all below 256 (ASCII and the
      Latin-1 supplement): a code unit is an [ascii], a string a [string].
      White space, lower-casing and case-insensitive comparison are given
      for that range as ECMAScript defines them.
    - A JavaScript number is an IEEE 754 binary64 value: [spec_float] with
      [prec = 53] and [emax = 1024], computed with the operations of
      [SpecFloat].  The numbers that come from outside (the target
      duration, the random number) are taken in canonical form, as those
      operations return them.
    - What the host supplies at run time is an explicit parameter
      ([Host]): the value drawn by [Math.random], the clock read by
      [new Date()], and the regular-expression engine on the patterns that
      use operators.  Patterns that are plain text, and patterns with a
      dangling quantifier, are decided inside the embedding.
    - A thrown exception is a result [Throw e]; a normal return is [Ok v].
    - [console.log] writes to the process log and returns nothing; it is
      left out. *)

From Stdlib Require Import Bool Arith ZArith Lia List Ascii String QArith Qround Qabs.
From Stdlib Require Import DecimalString.
From Stdlib Require Import Floats.SpecFloat.
Import ListNotations.

Local Close Scope Q_scope.
Local Open Scope string_scope.
Local Open Scope bool_scope.

(** ** Strings *)

Module JSString.

(** Characters that string literals cannot hold directly. *)
Definition LF : ascii := "010"%char.
Definition nl : string := String LF "".
Definition dq : string := String "034"%char "".

Definition code (c : ascii) : N := N_of_ascii c.

Definition in_range (lo hi : N) (c : ascii) : bool :=
  (lo <=? code c)%N && (code c <=? hi)%N.

(** WhiteSpace and LineTerminator code units below 256: TAB, LF, VT, FF, CR,
    SP and NBSP.  This is what [\s] matches and what [trim] strips. *)
Definition isWhiteSpace (c : ascii) : bool :=
  in_range 9 13 c || (code c =? 32)%N || (code c =? 160)%N.

(** The class [[.!?]]. *)
Definition isTerminator (c : ascii) : bool :=
  (c =? ".")%char || (c =? "!")%char || (c =? "?")%char.

Definition isDigit (c : ascii) : bool := in_range 48 57 c.

(** [a-z] *)
Definition isLowerAZ (c : ascii) : bool := in_range 97 122 c.

(** Upper-case letters of the range: A-Z and U+00C0..U+00DE without the
    multiplication sign U+00D7. *)
Definition isUpper (c : ascii) : bool :=
  in_range 65 90 c || (in_range 192 222 c && negb (code c =? 215)%N).

(** Lower-case letters whose upper-case form is again below 256: a-z and
    U+00E0..U+00FE without the division sign U+00F7. *)
Definition isLowerPaired (c : ascii) : bool :=
  in_range 97 122 c || (in_range 224 254 c && negb (code c =? 247)%N).

Definition toLowerChar (c : ascii) : ascii :=
  if isUpper c then ascii_of_N (code c + 32) else c.

(** [Canonicalize] of a case-insensitive, non-unicode regular expression:
    the upper-case form when it is one code unit.  Within the range, the
    letters U+00B5, U+00DF and U+00FF canonicalize to code units that no
    other code unit of the range reaches, so they stay apart here. *)
Definition canonChar (c : ascii) : ascii :=
  if isLowerPaired c then ascii_of_N (code c - 32) else c.

Definition eqChar_ci (a b : ascii) : bool := (canonChar a =? canonChar b)%char.

Fixpoint map_string (f : ascii -> ascii) (s : string) : string :=
  match s with
  | "" => ""
  | String c t => String (f c) (map_string f t)
  end.

Fixpoint filter_string (p : ascii -> bool) (s : string) : string :=
  match s with
  | "" => ""
  | String c t => if p c then String c (filter_string p t) else filter_string p t
  end.

Fixpoint forallb_string (p : ascii -> bool) (s : string) : bool :=
  match s with
  | "" => true
  | String c t => p c && forallb_string p t
  end.

Fixpoint count_char (p : ascii -> bool) (s : string) : nat :=
  match s with
  | "" => 0
  | String c t => (if p c then 1 else 0) + count_char p t
  end.

(** [s.toLowerCase()] on the strings of code units below 256: there the
    upper-case letters are A-Z and U+00C0..U+00DE without U+00D7, each goes
    to the code unit 32 above, and every other code unit stays.  (Above the
    range there are code units that lower-case to a letter a-z or to more
    than one code unit, such as U+212A and U+0130; strings that hold them
    are not strings of the embedding.) *)
Definition toLowerCase (s : string) : string := map_string toLowerChar s.

(** Length of the longest prefix of [s] made of characters in [p]. *)
Fixpoint span_length (p : ascii -> bool) (s : string) : nat :=
  match s with
  | "" => 0
  | String c t => if p c then S (span_length p t) else 0
  end.

Fixpoint drop (n : nat) (s : string) : string :=
  match n, s with
  | 0, _ => s
  | S _, "" => ""
  | S k, String _ t => drop k t
  end.

Fixpoint rev_onto (s acc : string) : string :=
  match s with
  | "" => acc
  | String c t => rev_onto t (String c acc)
  end.

Definition rev (s : string) : string := rev_onto s "".

(** [s.trim()] *)
Definition trimStart (s : string) : string := drop (span_length isWhiteSpace s) s.
Definition trim (s : string) : string := rev (trimStart (rev (trimStart s))).

(** [s.slice(from)] and [s.slice(0, to)] for indices within the string. *)
Definition slice_from (from : nat) (s : string) : string := drop from s.
Definition slice_to (to : nat) (s : string) : string := substring 0 to s.

(** [s.charAt(0)]: the first code unit as a string, the empty string
    when there is none. *)
Definition charAt0 (s : string) : string :=
  match s with
  | "" => ""
  | String c _ => String c ""
  end.

(** Does [needle] match at the start of [s], characters compared by [eqc]? *)
Fixpoint matches_at (eqc : ascii -> ascii -> bool) (needle s : string) : bool :=
  match needle, s with
  | "", _ => true
  | String _ _, "" => false
  | String a n', String b s' => eqc a b && matches_at eqc n' s'
  end.

(** Does [needle] match somewhere in [s]? *)
Fixpoint occurs (eqc : ascii -> ascii -> bool) (needle s : string) : bool :=
  matches_at eqc needle s ||
  match s with
  | "" => false
  | String _ t => occurs eqc needle t
  end.

(** [s.includes(needle)] *)
Definition includes (needle s : string) : bool := occurs Ascii.eqb needle s.

(** [s.endsWith(needle)] *)
Definition endsWith (needle s : string) : bool :=
  matches_at Ascii.eqb (rev needle) (rev s).

(** [s.indexOf(needle, from)] for [from <= s.length]; [None] is [-1]. *)
Definition indexOf (needle : string) (from : nat) (s : string) : option nat :=
  index from needle s.

(** ** [String.prototype.split] with a regular expression

    The separators used by the program never match the empty string, so the
    general algorithm (try the separator at every position [q] from the end
    of the previous match, cut when it matches) reads as one pass over the
    string.  [sep prev rest] is the length of the separator match that
    starts where [rest] starts, 0 when there is none; [prev] is the code
    unit before that position, which a lookbehind inspects.
    [skip] counts the code units of the current match still to pass over,
    [cur] holds, reversed, the piece being collected. *)
Fixpoint split_from (sep : option ascii -> string -> nat)
  (prev : option ascii) (skip : nat) (cur : string) (s : string) : list string :=
  match s with
  | "" => [rev cur]
  | String c t =>
      match skip with
      | S k => split_from sep (Some c) k cur t
      | 0 =>
          match sep prev s with
          | 0 => split_from sep (Some c) 0 (String c cur) t
          | S k => rev cur :: split_from sep (Some c) k "" t
          end
      end
  end.

Definition split (sep : option ascii -> string -> nat) (s : string) : list string :=
  split_from sep None 0 "" s.

(** The separators. *)
(** [/\s+/] *)
Definition sep_ws (_ : option ascii) (s : string) : nat := span_length isWhiteSpace s.
(** [/[.!?]+/] *)
Definition sep_terminators (_ : option ascii) (s : string) : nat := span_length isTerminator s.
(** [/[.!?]/] *)
Definition sep_terminator (_ : option ascii) (s : string) : nat :=
  match s with
  | String c _ => if isTerminator c then 1 else 0
  | "" => 0
  end.
(** [/\n\n/] *)
Definition sep_blank_line (_ : option ascii) (s : string) : nat :=
  if prefix (nl ++ nl) s then 2 else 0.
(** [/\n\n+/] *)
Definition sep_blank_lines (_ : option ascii) (s : string) : nat :=
  if prefix (nl ++ nl) s then span_length (Ascii.eqb LF) s else 0.
(** [/(?<=[.!?])\s+/] *)
Definition sep_after_terminator (prev : option ascii) (s : string) : nat :=
  match prev with
  | Some p => if isTerminator p then span_length isWhiteSpace s else 0
  | None => 0
  end.

(** [arr.join(sep)] *)
Definition join (sep : string) (l : list string) : string := concat sep l.

(** ** Matching a literal text, with flags [g] and [i]

    The number of matches that [s.match(re)] returns for a regular
    expression [re] whose pattern denotes the literal text [lit]: matches
    are taken left to right and do not overlap; the empty text matches once
    at every position, the end included. *)
Fixpoint count_literal_from (lit : string) (skip : nat) (s : string) : nat :=
  match s with
  | "" => 0
  | String _ t =>
      match skip with
      | S k => count_literal_from lit k t
      | 0 =>
          if matches_at eqChar_ci lit s
          then S (count_literal_from lit (Nat.pred (length lit)) t)
          else count_literal_from lit 0 t
      end
  end.

Definition count_literal (lit s : string) : nat :=
  match lit with
  | "" => S (length s)
  | _ => count_literal_from lit 0 s
  end.

(** [/w1|w2|.../i.test(s)] for words without operators. *)
Definition test_words_ci (ws : list string) (s : string) : bool :=
  existsb (fun w => occurs eqChar_ci w s) ws.

End JSString.

(** ** Numbers *)

Module JSNumber.

Import JSString.

Definition number : Type := spec_float.

Definition prec : Z := 53.
Definition emax : Z := 1024.

Definition NaN : number := S754_nan.
Definition Infinity : number := S754_infinity false.
Definition zero : number := S754_zero false.

(** The number that an integer denotes (exact below 2^53 in magnitude). *)
Definition of_Z (z : Z) : number := binary_normalize prec emax z 0 false.
Definition of_nat (n : nat) : number := of_Z (Z.of_nat n).

(** The number nearest to the fraction [n / d]: what a decimal literal such
    as [206.835] (that is [206835 / 1000]) denotes. *)
Definition of_ratio (n : Z) (d : positive) : number :=
  match n with
  | Z0 => S754_zero false
  | Zpos p => SFdiv prec emax (S754_finite false p 0) (S754_finite false d 0)
  | Zneg p => SFdiv prec emax (S754_finite true p 0) (S754_finite false d 0)
  end.

Definition add : number -> number -> number := SFadd prec emax.
Definition sub : number -> number -> number := SFsub prec emax.
Definition mul : number -> number -> number := SFmul prec emax.
Definition div : number -> number -> number := SFdiv prec emax.

(** [x < y], [x <= y], [x > y], [x >= y]: all false when an operand is NaN. *)
Definition lt (x y : number) : bool := SFltb x y.
Definition le (x y : number) : bool := SFleb x y.
Definition gt (x y : number) : bool := SFltb y x.
Definition ge (x y : number) : bool := SFleb y x.

Definition pow2 (e : Z) : Q := Qpower (2 # 1) e.
Definition pow10 (e : Z) : Q := Qpower (10 # 1) e.

(** The magnitude [m * 2^e] of a finite number. *)
Definition magnitude (m : positive) (e : Z) : Q := (inject_Z (Zpos m) * pow2 e)%Q.

Definition signed (s : bool) (z : Z) : Z := if s then (- z)%Z else z.

(** The real that a finite number denotes. *)
Definition real_of (s : bool) (m : positive) (e : Z) : Q :=
  (inject_Z (signed s 1) * magnitude m e)%Q.

(** [Math.floor(x)] *)
Definition Math_floor (x : number) : number :=
  match x with
  | S754_finite s m e =>
      if (0 <=? e)%Z then x
      else let z := Qfloor (real_of s m e) in
           if (z =? 0)%Z then S754_zero false else of_Z z
  | _ => x
  end.

(** [Math.ceil(x)] *)
Definition Math_ceil (x : number) : number :=
  match x with
  | S754_finite s m e =>
      if (0 <=? e)%Z then x
      else let z := Qceiling (real_of s m e) in
           if (z =? 0)%Z then S754_zero s else of_Z z
  | _ => x
  end.

(** [Math.round(x)]: the nearest integer, a tie going up. *)
Definition Math_round (x : number) : number :=
  match x with
  | S754_finite s m e =>
      if (0 <=? e)%Z then x
      else let z := Qfloor (real_of s m e + (1 # 2))%Q in
           if (z =? 0)%Z then S754_zero s else of_Z z
  | _ => x
  end.

(** Decimal digits of a natural number. *)
Definition digits (z : Z) : string := NilZero.string_of_uint (N.to_uint (Z.to_N z)).

Fixpoint zeros (n : nat) : string :=
  match n with
  | 0 => ""
  | S k => String "0" (zeros k)
  end.

(** *** [Number::toString]

    For a positive finite [x = m * 2^e]: the integers [n], [k], [s] with
    [10^(k-1) <= s < 10^k], [s * 10^(n-k)] rounding to [x], [k] least, and
    [s * 10^(n-k)] nearest to [x] (the even [s] on a tie). *)

(** The reals that round to [m * 2^e]: between the midpoints with the
    neighbouring numbers, the midpoints included when [m] is even. *)
Definition rounds_to (m : positive) (e : Z) (c : Q) : bool :=
  let v := magnitude m e in
  let below := if (Zpos m =? 2 ^ 52)%Z && (-1074 <? e)%Z then pow2 (e - 2) else pow2 (e - 1) in
  let lo := (v - below)%Q in
  let hi := (v + pow2 (e - 1))%Q in
  if Z.even (Zpos m)
  then Qle_bool lo c && Qle_bool c hi
  else negb (Qle_bool c lo) && negb (Qle_bool hi c).

(** The [n] with [10^(n-1) <= v < 10^n]. *)
Fixpoint decade (fuel : nat) (v : Q) (n : Z) : Z :=
  match fuel with
  | 0 => n
  | S f =>
      if Qle_bool (pow10 n) v then decade f v (n + 1)%Z
      else if Qle_bool (pow10 (n - 1)) v then n
      else decade f v (n - 1)%Z
  end.

Definition Qdist (a b : Q) : Q := Qabs (a - b).

(** The better of two candidates [(n, s)] for [k] digits. *)
Definition closer (v : Q) (k : Z) (a b : option (Z * Z)) : option (Z * Z) :=
  match a, b with
  | None, _ => b
  | _, None => a
  | Some (na, sa), Some (nb, sb) =>
      let da := Qdist (inject_Z sa * pow10 (na - k)) v in
      let db := Qdist (inject_Z sb * pow10 (nb - k)) v in
      if Qeq_bool da db then (if Z.even sa then a else b)
      else if Qle_bool da db then a else b
  end.

Definition candidate (m : positive) (e : Z) (k n s : Z) : option (Z * Z) :=
  if (10 ^ (k - 1) <=? s)%Z && (s <? 10 ^ k)%Z
     && rounds_to m e (inject_Z s * pow10 (n - k))
  then Some (n, s) else None.

Definition candidates (m : positive) (e : Z) (nv k : Z) : option (Z * Z) :=
  let v := magnitude m e in
  let s1 := Qfloor (v / pow10 (nv - k)) in
  closer v k
    (closer v k (candidate m e k nv s1) (candidate m e k nv (s1 + 1)))
    (candidate m e k (nv + 1) (10 ^ (k - 1))).

(** Least [k] first; 17 digits always identify a number. *)
Fixpoint shortest (fuel : nat) (m : positive) (e : Z) (nv k : Z) : Z * Z * Z :=
  match fuel with
  | 0 => (nv, k, Qfloor (magnitude m e / pow10 (nv - k)))
  | S f =>
      match candidates m e nv k with
      | Some (n, s) => (n, k, s)
      | None => shortest f m e nv (k + 1)%Z
      end
  end.

Definition exponent_part (n : Z) : string :=
  "e" ++ (if (0 <=? n - 1)%Z then "+" else "-") ++ digits (Z.abs (n - 1)).

Definition format_shortest (n k s : Z) : string :=
  let ds := digits s in
  if (k <=? n)%Z && (n <=? 21)%Z then ds ++ zeros (Z.to_nat (n - k))
  else if (0 <? n)%Z && (n <=? 21)%Z
  then substring 0 (Z.to_nat n) ds ++ "." ++ drop (Z.to_nat n) ds
  else if (-6 <? n)%Z && (n <=? 0)%Z then "0." ++ zeros (Z.to_nat (- n)) ++ ds
  else if (k =? 1)%Z then ds ++ exponent_part n
  else substring 0 1 ds ++ "." ++ drop 1 ds ++ exponent_part n.

Definition toString_positive (m : positive) (e : Z) : string :=
  let nv := decade 700 (magnitude m e) 0 in
  let '(n, k, s) := shortest 17 m e nv 1 in
  format_shortest n k s.

(** [String(x)], the conversion that a template literal applies. *)
Definition toString (x : number) : string :=
  match x with
  | S754_nan => "NaN"
  | S754_zero _ => "0"
  | S754_infinity s => if s then "-Infinity" else "Infinity"
  | S754_finite s m e => (if s then "-" else "") ++ toString_positive m e
  end.

(** [x.toFixed(f)]: the integer [n] with [n / 10^f] nearest to [x], the
    larger on a tie, written with [f] digits after the point. *)
Definition toFixed_digits (f : nat) (n : Z) : string :=
  let m := digits n in
  match f with
  | 0 => m
  | _ =>
      let m' := if (length m <=? f)%nat then zeros (S f - length m) ++ m else m in
      let k := length m' in
      substring 0 (k - f) m' ++ "." ++ drop (k - f) m'
  end.

Definition toFixed (f : nat) (x : number) : string :=
  match x with
  | S754_finite s m e =>
      let v := magnitude m e in
      (if s then "-" else "") ++
      (if Qle_bool (pow10 21) v then toString_positive m e
       else toFixed_digits f (Qfloor (v * pow10 (Z.of_nat f) + (1 # 2))%Q))
  | S754_zero _ => toFixed_digits f 0
  | _ => toString x
  end.

(** *** From strings to numbers *)

Definition digit_value (c : ascii) : Z := Z.of_N (code c) - 48.

(** The decimal digits at the start of [s]: their value continuing [acc],
    how many they are, and what follows them. *)
Fixpoint take_digits (s : string) (acc : Z) (count : nat) : Z * nat * string :=
  match s with
  | String c t =>
      if isDigit c then take_digits t (10 * acc + digit_value c)%Z (S count)
      else (acc, count, s)
  | "" => (acc, count, s)
  end.

Definition take_sign (s : string) : bool * string :=
  match s with
  | String "-" t => (true, t)
  | String "+" t => (false, t)
  | _ => (false, s)
  end.

(** [ExponentPart]: the exponent and the rest, when [s] starts with one. *)
Definition take_exponent (s : string) : Z * string :=
  match s with
  | String c t =>
      if (c =? "e")%char || (c =? "E")%char then
        let '(neg, t') := take_sign t in
        let '(v, count, rest) := take_digits t' 0 0 in
        match count with
        | 0 => (0%Z, s)
        | _ => (signed neg v, rest)
        end
      else (0%Z, s)
  | "" => (0%Z, s)
  end.

(** The number nearest to [mant * 10^exp10]. *)
Definition of_decimal (neg : bool) (mant : Z) (exp10 : Z) : number :=
  if (mant =? 0)%Z then S754_zero neg
  else if (0 <=? exp10)%Z then of_ratio (signed neg (mant * 10 ^ exp10)) 1
  else of_ratio (signed neg mant) (Z.to_pos (10 ^ (- exp10))).

(** The longest prefix of [s] that is a [StrDecimalLiteral], as a number,
    with the rest of [s]. *)
Definition take_decimal_literal (s : string) : option (number * string) :=
  let '(neg, s0) := take_sign s in
  if prefix "Infinity" s0 then Some (S754_infinity neg, drop 8 s0)
  else
    let '(i, ni, s1) := take_digits s0 0 0 in
    match s1 with
    | String "." s1' =>
        let '(m, nf, s2) := take_digits s1' i 0 in
        match ni, nf with
        | 0, 0 => None
        | _, _ =>
            let '(ex, s3) := take_exponent s2 in
            Some (of_decimal neg m (ex - Z.of_nat nf), s3)
        end
    | _ =>
        match ni with
        | 0 => None
        | _ =>
            let '(ex, s3) := take_exponent s1 in
            Some (of_decimal neg i ex, s3)
        end
    end.

(** [parseFloat(s)] *)
Definition parseFloat (s : string) : number :=
  match take_decimal_literal (trimStart s) with
  | Some (v, _) => v
  | None => NaN
  end.

(** Digits of a [NonDecimalIntegerLiteral] in base [b]. *)
Definition radix_digit (b : Z) (c : ascii) : option Z :=
  let v :=
    if isDigit c then digit_value c
    else if in_range 97 102 c then (Z.of_N (code c) - 87)%Z
    else if in_range 65 70 c then (Z.of_N (code c) - 55)%Z
    else 99%Z in
  if (v <? b)%Z then Some v else None.

Fixpoint radix_value (b : Z) (s : string) (acc : Z) : option Z :=
  match s with
  | "" => Some acc
  | String c t =>
      match radix_digit b c with
      | Some v => radix_value b t (b * acc + v)%Z
      | None => None
      end
  end.

Definition radix_literal (s : string) : option number :=
  match s with
  | String "0" (String x (String d t)) =>
      let b :=
        if (x =? "x")%char || (x =? "X")%char then 16%Z
        else if (x =? "o")%char || (x =? "O")%char then 8%Z
        else if (x =? "b")%char || (x =? "B")%char then 2%Z
        else 0%Z in
      if (b =? 0)%Z then None
      else option_map (fun z => of_ratio z 1) (radix_value b (String d t) 0)
  | _ => None
  end.

(** [ToNumber] of a string: what [-] applies to a string operand. *)
Definition ToNumber (s : string) : number :=
  let t := trim s in
  match t with
  | "" => zero
  | _ =>
      match radix_literal t with
      | Some v => v
      | None =>
          match take_decimal_literal t with
          | Some (v, "") => v
          | _ => NaN
          end
      end
  end.

End JSNumber.

(** ** Results and exceptions *)

Inductive exception : Type :=
| Error (message : string)
| SyntaxError
| TypeError.

Inductive result (A : Type) : Type :=
| Ok (value : A)
| Throw (e : exception).

Arguments Ok {A} value.
Arguments Throw {A} e.

Definition bind {A B : Type} (r : result A) (k : A -> result B) : result B :=
  match r with
  | Ok a => k a
  | Throw e => Throw e
  end.

Notation "'let*' x ':=' r 'in' k" := (bind r (fun x => k))
  (at level 10, x name, r at level 100, k at level 200).

(** ** The host *)

(** [Math_random]: the value that the call [Math.random()] returns, a
    number in [0, 1).  [Date_toISOString]: what [new Date().toISOString()]
    returns.  [RegExp_operators p]: the host's [new RegExp(p, 'gi')] for a
    pattern [p] that uses operators: [None] when the constructor throws a
    SyntaxError, otherwise the function giving, for a string [s], the
    number of matches in [s.match(re)] (0 when the result is [null]). *)
Record Host : Type := {
  Math_random : JSNumber.number;
  Date_toISOString : string;
  RegExp_operators : string -> option (string -> nat)
}.

(** ** Regular expressions built from keywords *)

Module JSRegExp.

Import JSString.

(** The class [[.*+?^${}()|[\]\\]] of the escaping regular expression. *)
Definition isSyntaxChar (c : ascii) : bool :=
  existsb (Ascii.eqb c)
    ["."; "*"; "+"; "?"; "^"; "$"; "{"; "}"; "("; ")"; "|"; "["; "]"; "\"]%char.

(** [keyword.replace(/[.*+?^${}()|[\]\\]/g, '\\$&')] *)
Fixpoint escapeRegExp (s : string) : string :=
  match s with
  | "" => ""
  | String c t =>
      if isSyntaxChar c then String "\" (String c (escapeRegExp t))
      else String c (escapeRegExp t)
  end.

(** What a pattern is, as far as one pass decides it. *)
Inductive pattern_class : Type :=
| Literal (text : string)   (* the pattern denotes exactly this text *)
| NothingToRepeat           (* a quantifier with no atom before it *)
| Operators.                (* anything else: the host's engine decides *)

(** What comes just before the position read. *)
Inductive before : Type :=
| Start        (* nothing yet *)
| Atom         (* a character, which may take a quantifier *)
| Quantifier   (* a quantifier, which may take the lazy mark [?] *)
| LazyMark.    (* a quantifier with its lazy mark *)

(** One pass, left to right.  A character outside the class above denotes
    itself, and so does a character of the class after a backslash.  The
    quantifiers [*], [+] and [?] need an atom just before them ([?] also
    serves once as lazy mark after a quantifier); found elsewhere while all
    of the pattern before them was read here, they make the pattern
    ill-formed whatever follows.  Any other operator hands the pattern to
    the host.  [text] holds, reversed, the text read; [plain] says that no
    quantifier was met. *)
Fixpoint classify_from (b : before) (plain : bool) (text : string) (p : string)
  : pattern_class :=
  match p with
  | "" => if plain then Literal (rev text) else Operators
  | String c t =>
      if (c =? "\")%char then
        match t with
        | String x t' =>
            if isSyntaxChar x then classify_from Atom plain (String x text) t'
            else Operators
        | "" => Operators
        end
      else if (c =? "*")%char || (c =? "+")%char then
        match b with
        | Atom => classify_from Quantifier false text t
        | _ => NothingToRepeat
        end
      else if (c =? "?")%char then
        match b with
        | Atom => classify_from Quantifier false text t
        | Quantifier => classify_from LazyMark false text t
        | _ => NothingToRepeat
        end
      else if isSyntaxChar c then Operators
      else classify_from Atom plain (String c text) t
  end.

Definition classify (p : string) : pattern_class := classify_from Start true "" p.

(** [new RegExp(pattern, 'gi')], then the number of matches that
    [s.match(re)] finds: the constructor throws a SyntaxError on an
    ill-formed pattern. *)
Definition RegExp_gi (h : Host) (pattern : string) : result (string -> nat) :=
  match classify pattern with
  | Literal text => Ok (count_literal text)
  | NothingToRepeat => Throw SyntaxError
  | Operators =>
      match RegExp_operators h pattern with
      | Some count => Ok count
      | None => Throw SyntaxError
      end
  end.

End JSRegExp.

(** ** Plain objects used as tables *)

Module JSObject.

(** The properties that every plain object inherits from
    [Object.prototype]. *)
Definition Object_prototype_keys : list string :=
  ["constructor"; "hasOwnProperty"; "isPrototypeOf"; "propertyIsEnumerable";
   "toLocaleString"; "toString"; "valueOf"; "__proto__";
   "__defineGetter__"; "__defineSetter__"; "__lookupGetter__"; "__lookupSetter__"].

Definition inherited (k : string) : bool :=
  existsb (String.eqb k) Object_prototype_keys.

(** What [o[k]] finds: an own property, a member inherited from
    [Object.prototype] (a function, or the prototype object itself: truthy,
    not a number, not iterable), or [undefined]. *)
Inductive member (A : Type) : Type :=
| Own (a : A)
| Inherited
| Undefined.

Arguments Own {A} a.
Arguments Inherited {A}.
Arguments Undefined {A}.

Fixpoint own_get {A : Type} (o : list (string * A)) (k : string) : option A :=
  match o with
  | [] => None
  | (k', a) :: o' => if String.eqb k k' then Some a else own_get o' k
  end.

(** [o[k]] for an object literal [o]. *)
Definition get {A : Type} (o : list (string * A)) (k : string) : member A :=
  match own_get o k with
  | Some a => Own a
  | None => if inherited k then Inherited else Undefined
  end.

(** An array index: the canonical decimal text of an integer from 0 to
    2^32 - 2. *)
Definition arrayIndex (k : string) : option N :=
  match NilZero.uint_of_string k with
  | Some d =>
      let n := N.of_uint d in
      if (NilZero.string_of_uint (N.to_uint n) =? k) && (n <? 4294967295)%N
      then Some n
      else None
  | None => None
  end.

(** An object is the list of its own properties in the order in which
    the object lists them ([Object.keys], [JSON.stringify]): the array
    indices in ascending order, then the other names in the order of their
    first assignment. *)

(** Assigning to a property that is there keeps its place. *)
Fixpoint own_update {A : Type} (o : list (string * A)) (k : string) (a : A)
  : list (string * A) :=
  match o with
  | [] => []
  | (k', a') :: o' =>
      if String.eqb k k' then (k', a) :: o' else (k', a') :: own_update o' k a
  end.

(** A new array index goes before the first greater index, or before the
    first name that is no index. *)
Fixpoint own_insert_index {A : Type} (n : N) (k : string) (a : A)
  (o : list (string * A)) : list (string * A) :=
  match o with
  | [] => [(k, a)]
  | (k', a') :: o' =>
      match arrayIndex k' with
      | Some n' =>
          if (n <? n')%N then (k, a) :: o
          else (k', a') :: own_insert_index n k a o'
      | None => (k, a) :: o
      end
  end.

Definition own_insert {A : Type} (o : list (string * A)) (k : string) (a : A)
  : list (string * A) :=
  match arrayIndex k with
  | Some n => own_insert_index n k a o
  | None => (o ++ [(k, a)])%list
  end.

Definition own_set {A : Type} (o : list (string * A)) (k : string) (a : A)
  : list (string * A) :=
  match own_get o k with
  | Some _ => own_update o k a
  | None => own_insert o k a
  end.

(** [o[k] = a] for a number [a].  Assigning a number to [__proto__] runs
    the inherited setter, which ignores it. *)
Definition set {A : Type} (o : list (string * A)) (k : string) (a : A)
  : list (string * A) :=
  if String.eqb k "__proto__" then o else own_set o k a.

(** [Object.keys(o)] *)
Definition keys {A : Type} (o : list (string * A)) : list string := map fst o.

End JSObject.

(** ** The optimizer: data *)

Import JSString JSNumber JSRegExp JSObject.

(** [this.engagementPhrases] *)
Definition engagementPhrases_hook : list string :=
  ["In this video, you'll learn";
   "Have you ever wondered";
   "What if I told you";
   "The biggest mistake people make is";
   "Here's something most people don't know about"].

Definition engagementPhrases_transition : list string :=
  ["Now let's talk about";
   "Moving on to";
   "Here's where it gets interesting";
   "The next important point is";
   "Let me show you"].

Definition engagementPhrases_engagement : list string :=
  ["Let me know in the comments";
   "Drop a like if you agree";
   "Subscribe for more";
   "What do you think about";
   "Share this with someone who needs it"].

Definition engagementPhrases_retention : list string :=
  ["Stay until the end for";
   "I'll reveal the secret at";
   "Keep watching to discover";
   "The best tip is coming up";
   "Don't miss what's next"].

(** The argument of [optimizeScript]: [None] is a field that is absent. *)
Record KeywordEntry : Type := { keyword : string }.

Record Recommended : Type := {
  primary : option (list KeywordEntry);
  secondary : option (list KeywordEntry);
  longTail : option (list KeywordEntry)
}.

Record KeywordsData : Type := { recommended : option Recommended }.

Record Request : Type := {
  req_script : option string;
  req_concept : option string;
  req_keywords : option KeywordsData;
  req_targetDuration : option number;
  req_contentStyle : option string;
  req_optimizationLevel : option string
}.

(** The result of [analyzeScript] *)
Record EngagementElements : Type := {
  hasQuestion : bool;
  hasCallToAction : bool;
  hasHook : bool;
  questionCount : nat
}.

Record Readability : Type := {
  score : number;
  level : string
}.

Record ScriptAnalysis : Type := {
  wordCount : nat;
  sentenceCount : nat;
  paragraphCount : nat;
  averageSentenceLength : number;
  estimatedDuration : string;
  keywordsFound : nat;
  keywordOccurrences : list (string * nat);
  totalKeywordMentions : nat;
  keywordDensity : string;
  engagementElements : EngagementElements;
  readabilityScore : Readability
}.

(** The result of [generateOptimizations] *)
Record OptimizationChange : Type := {
  change_type : string;
  change_location : string;
  change_suggestion : string;
  change_priority : string
}.

Record EngagementPoint : Type := {
  point_type : string;
  point_suggested : bool
}.

Record Optimizations : Type := {
  changes : list OptimizationChange;
  engagementPoints : list EngagementPoint
}.

(** The value of [sections] in a structure recommendation: a list of
    section names, or the member of [Object.prototype] that the lookup of
    the content style found. *)
Inductive Sections : Type :=
| SectionList (names : list string)
| PrototypeMember (name : string).

Record Recommendation : Type := {
  rec_section : string;
  rec_issue : option string;
  rec_suggestion : string;
  rec_sections : option Sections
}.

Record EngagementSuggestion : Type := {
  sugg_type : string;
  sugg_timing : string;
  sugg_suggestion : string;
  sugg_examples : list string
}.

Record KeywordInsertion : Type := {
  ins_keyword : string;
  ins_currentCount : nat;
  ins_recommendedCount : string;
  ins_locations : list string
}.

Record Warning : Type := {
  warning_type : string;
  warning_message : string
}.

Record Analyzed : Type := {
  script : string;
  analysis : ScriptAnalysis
}.

Record Improvements : Type := {
  keywordDensityChange : string;
  keywordsAdded : Z;
  engagementPointsAdded : nat
}.

(** The value that [optimizeScript] returns *)
Record Report : Type := {
  concept : string;
  contentStyle : string;
  targetDuration : number;
  optimizationLevel : string;
  generatedAt : string;
  original : Analyzed;
  optimized : Analyzed;
  improvements : Improvements;
  optimizations : list OptimizationChange;
  structureRecommendations : list Recommendation;
  engagementSuggestions : list EngagementSuggestion;
  keywordInsertions : list KeywordInsertion;
  tips : list string;
  warnings : list Warning
}.

(** ** The optimizer: metrics *)

(** A string is truthy when it is not empty. *)
Definition nonempty (s : string) : bool := negb (s =? "").

(** [script.split(/\s+/).filter(w => w.length > 0)] *)
Definition words_of (script : string) : list string :=
  filter (fun w => (0 <? length w)%nat) (split sep_ws script).

(** [script.split(/[.!?]+/).filter(s => s.trim().length > 0)] *)
Definition sentences_of (script : string) : list string :=
  filter (fun s => (0 <? length (trim s))%nat) (split sep_terminators script).

(** [script.split(/\n\n+/).filter(p => p.trim().length > 0)] *)
Definition paragraphs_of (script : string) : list string :=
  filter (fun p => (0 <? length (trim p))%nat) (split sep_blank_lines script).

Definition isVowel (c : ascii) : bool := includes (String c "") "aeiouy".

(** The loop of [countSyllables]: [count] and [prevWasVowel] are its two
    variables. *)
Fixpoint countVowelGroups (word : string) (count : Z) (prevWasVowel : bool) : Z :=
  match word with
  | "" => count
  | String char rest =>
      countVowelGroups rest
        (if isVowel char && negb prevWasVowel then count + 1 else count)%Z
        (isVowel char)
  end.

Definition countSyllables (word : string) : Z :=
  let word := filter_string isLowerAZ (toLowerCase word) in
  if (length word <=? 3)%nat then 1%Z
  else
    let count := countVowelGroups word 0 false in
    let count := if endsWith "e" word then (count - 1)%Z else count in
    Z.max 1 count.

Definition sumSyllables (words : list string) : Z :=
  fold_left (fun sum word => (sum + countSyllables word)%Z) words 0%Z.

(** The value of [score] in [calculateReadability], before it is rounded. *)
Definition readabilityRawScore (script : string) : number :=
  let words := words_of script in
  let sentences := sentences_of script in
  let avgWordsPerSentence := div (of_nat (List.length words)) (of_nat (List.length sentences)) in
  let avgSyllables := div (of_Z (sumSyllables words)) (of_nat (List.length words)) in
  sub (sub (of_ratio 206835 1000) (mul (of_ratio 1015 1000) avgWordsPerSentence))
      (mul (of_ratio 846 10) avgSyllables).

Definition readabilityLevel (score : number) : string :=
  if ge score (of_Z 80) then "very easy"
  else if ge score (of_Z 60) then "easy"
  else if ge score (of_Z 40) then "moderate"
  else if ge score (of_Z 20) then "difficult"
  else "very difficult".

Definition calculateReadability (script : string) : Readability :=
  let score := readabilityRawScore script in
  {| score := Math_round score; level := readabilityLevel score |}.

(** The body of the [forEach] in [analyzeScript]: [acc] is the pair of
    [keywordCount] and [keywordOccurrences]. *)
Definition countKeyword (h : Host) (script : string)
  (acc : nat * list (string * nat)) (keyword : string)
  : result (nat * list (string * nat)) :=
  let* matches := RegExp_gi h (escapeRegExp keyword) in
  let count := matches script in
  if (0 <? count)%nat
  then Ok (fst acc + count, JSObject.set (snd acc) keyword count)
  else Ok acc.

(** A loop over a list whose body may throw. *)
Fixpoint foldM {A B : Type} (f : A -> B -> result A) (l : list B) (a : A) : result A :=
  match l with
  | [] => Ok a
  | b :: l' => let* a' := f a b in foldM f l' a'
  end.

Definition callToAction4 : list string := ["subscribe"; "like"; "comment"; "share"].
Definition callToAction3 : list string := ["subscribe"; "like"; "comment"].
Definition stepMarkers : list string := ["step"; "first"; "next"; "then"; "finally"].

Definition analyzeScript (h : Host) (script : string) (keywords : list string)
  : result ScriptAnalysis :=
  let words := words_of script in
  let sentences := sentences_of script in
  let paragraphs := paragraphs_of script in
  let* counted := foldM (countKeyword h script) keywords (0, []) in
  let keywordCount := fst counted in
  let keywordOccurrences := snd counted in
  let estimatedDuration := Math_ceil (div (of_nat (List.length words)) (of_Z 150)) in
  let hasQuestion := includes "?" script in
  let hasCallToAction := test_words_ci callToAction4 script in
  let hasHook :=
    match sentences with
    | s :: _ => (length s <? 100)%nat
    | [] => false
    end in
  Ok {| wordCount := List.length words;
        sentenceCount := List.length sentences;
        paragraphCount := List.length paragraphs;
        averageSentenceLength :=
          Math_round (div (of_nat (List.length words)) (of_nat (List.length sentences)));
        estimatedDuration := toString estimatedDuration ++ " minutes";
        keywordsFound := List.length (JSObject.keys keywordOccurrences);
        keywordOccurrences := keywordOccurrences;
        totalKeywordMentions := keywordCount;
        keywordDensity :=
          toFixed 2 (mul (div (of_nat keywordCount) (of_nat (List.length words))) (of_Z 100));
        engagementElements :=
          {| hasQuestion := hasQuestion;
             hasCallToAction := hasCallToAction;
             hasHook := hasHook;
             questionCount := count_char (Ascii.eqb "?") script |};
        readabilityScore := calculateReadability script |}.

(** ** The optimizer: planner *)

(** [{ light: 1, moderate: 2, aggressive: 3 }] *)
Definition intensityTable : list (string * Z) :=
  [("light", 1%Z); ("moderate", 2%Z); ("aggressive", 3%Z)].

(** [{ light: 1, moderate: 2, aggressive: 3 }[level] || 2]: a number, or
    the member of [Object.prototype] that [level] names. *)
Definition intensityOf (level : string) : member Z :=
  match JSObject.get intensityTable level with
  | Own n => if (n =? 0)%Z then Own 2%Z else Own n
  | Inherited => Inherited
  | Undefined => Own 2%Z
  end.

(** [intensity >= 2]: an object that is not a number converts to NaN, and
    the comparison is false. *)
Definition intensityAtLeast2 (intensity : member Z) : bool :=
  match intensity with
  | Own n => (2 <=? n)%Z
  | _ => false
  end.

(** A keyword is truthy when it is present and not empty. *)
Definition truthy (s : option string) : bool :=
  match s with
  | Some s => nonempty s
  | None => false
  end.

(** [script.split(/\s+/).length] *)
Definition plannerWordCount (script : string) : nat :=
  List.length (split sep_ws script).

(** The [reduce] of the density check: [new RegExp(kw, 'gi')] takes the
    keyword as it is. *)
Definition addMentions (h : Host) (script : string) (count : nat) (kw : string)
  : result nat :=
  let* matches := RegExp_gi h kw in
  Ok (count + matches script).

Definition keywordMentions (h : Host) (script : string) (keywords : list string)
  : result nat :=
  foldM (addMentions h script) keywords 0.

Definition plannerDensity (mentions words : nat) : number :=
  mul (div (of_nat mentions) (of_nat words)) (of_Z 100).

Definition change (type location suggestion priority : string) : OptimizationChange :=
  {| change_type := type; change_location := location;
     change_suggestion := suggestion; change_priority := priority |}.

(** [changes.push(c)] when [b] holds. *)
Definition push_if {A : Type} (b : bool) (c : A) (l : list A) : list A :=
  if b then (l ++ [c])%list else l.

Definition generateOptimizations (h : Host) (script : string)
  (keywords : list string) (contentStyle level : string) : result Optimizations :=
  let changes : list OptimizationChange := [] in
  let engagementPoints : list EngagementPoint := [] in
  let intensity := intensityOf level in
  let firstParagraph := hd "" (split sep_blank_line script) in
  let primaryKeyword := hd_error keywords in
  let changes :=
    push_if (truthy primaryKeyword &&
             negb (includes (toLowerCase (match primaryKeyword with Some k => k | None => "" end))
                            (toLowerCase firstParagraph)))
      (change "keyword_insertion" "opening"
         ("Add " ++ dq ++ (match primaryKeyword with Some k => k | None => "" end) ++ dq
          ++ " to your opening to improve SEO")
         "high") changes in
  let noQuestion := negb (includes "?" script) in
  let changes :=
    push_if noQuestion
      (change "engagement" "throughout"
         "Add questions to increase viewer engagement" "medium") changes in
  let engagementPoints :=
    push_if noQuestion
      {| point_type := "question"; point_suggested := true |} engagementPoints in
  let changes :=
    push_if (negb (test_words_ci callToAction3 script))
      (change "cta" "middle and end"
         "Add calls to action (subscribe, like, comment)" "high") changes in
  let words := plannerWordCount script in
  let* keywordMentions := keywordMentions h script keywords in
  let density := plannerDensity keywordMentions words in
  let changes :=
    push_if (lt density (of_Z 1) && intensityAtLeast2 intensity)
      (change "keyword_density" "throughout"
         ("Keyword density is " ++ toFixed 2 density ++ "%. Aim for 1-2%") "medium")
      changes in
  let firstSentence := hd "" (split sep_terminator script) in
  let changes :=
    push_if (nonempty firstSentence && (150 <? length firstSentence)%nat)
      (change "hook" "opening"
         "Shorten your opening hook - aim for under 150 characters" "high") changes in
  let changes :=
    push_if ((contentStyle =? "tutorial") && negb (test_words_ci stepMarkers script))
      (change "structure" "throughout"
         "Add step markers (First, Next, Then, Finally) for tutorials" "medium")
      changes in
  Ok {| changes := changes; engagementPoints := engagementPoints |}.

(** ** The optimizer: rewriter *)

(** [arr[x]] reads an element when the number [x] is an index. *)
Definition to_index (x : number) : option nat :=
  match x with
  | S754_zero _ => Some 0
  | S754_finite false m e =>
      let q := magnitude m e in
      if Qeq_bool (inject_Z (Qfloor q)) q then Some (Z.to_nat (Qfloor q)) else None
  | _ => None
  end.

(** [hookPhrases[Math.floor(Math.random() * hookPhrases.length)]], as the
    template literal prints it. *)
Definition hookPhrase (h : Host) : string :=
  let hookPhrases := engagementPhrases_hook in
  match to_index (Math_floor (mul (Math_random h) (of_nat (List.length hookPhrases)))) with
  | Some i => nth i hookPhrases "undefined"
  | None => "undefined"
  end.

(** [sentences[0]?.length > 150 && primaryKeyword] *)
Definition hookTriggers (script : string) (primaryKeyword : option string) : bool :=
  let sentences := split sep_after_terminator script in
  (150 <? length (hd "" sentences))%nat && truthy primaryKeyword.

(** Step 1: add a hook in front. *)
Definition insertHook (h : Host) (script : string) (primaryKeyword : option string)
  : string :=
  if hookTriggers script primaryKeyword
  then
    let hook := hookPhrase h ++ " "
                ++ (match primaryKeyword with Some k => k | None => "" end) ++ ". " in
    hook ++ script
  else script.

(** Step 2: add the keyword to the first paragraph. *)
Definition injectKeyword (primaryKeyword : option string) (optimizedScript : string)
  : string :=
  let paragraphs := split sep_blank_line optimizedScript in
  match primaryKeyword, paragraphs with
  | Some kw, p0 :: prest =>
      if nonempty kw && nonempty p0
         && negb (includes (toLowerCase kw) (toLowerCase p0))
      then
        match split sep_after_terminator p0 with
        | s0 :: s1 :: srest =>
            let s1' := "When it comes to " ++ kw ++ ", "
                       ++ toLowerCase (charAt0 s1) ++ slice_from 1 s1 in
            join (nl ++ nl) (join " " (s0 :: s1' :: srest) :: prest)
        | _ => optimizedScript
        end
      else optimizedScript
  | _, _ => optimizedScript
  end.

(** The block that step 3 inserts. *)
Definition questionBlock (primaryKeyword : option string) : string :=
  nl ++ nl ++ "What do you think about "
  ++ (if truthy primaryKeyword
      then match primaryKeyword with Some k => k | None => "" end
      else "this")
  ++ "? Let me know in the comments." ++ nl ++ nl.

(** Step 3: add a question after the first full stop at or after the
    middle. *)
Definition injectQuestion (primaryKeyword : option string) (optimizedScript : string)
  : string :=
  if negb (includes "?" optimizedScript) then
    let midPoint := Nat.div (length optimizedScript) 2 in
    match indexOf "." midPoint optimizedScript with
    | Some insertPoint =>
        slice_to (insertPoint + 1) optimizedScript
        ++ questionBlock primaryKeyword
        ++ slice_from (insertPoint + 1) optimizedScript
    | None => optimizedScript
    end
  else optimizedScript.

Definition closingCTA : string :=
  nl ++ nl ++ "If you found this helpful, don't forget to like this video and subscribe for more content like this!".

(** Step 4: add a call to action at the end. *)
Definition appendCTA (optimizedScript : string) : string :=
  if negb (test_words_ci callToAction3 optimizedScript)
  then optimizedScript ++ closingCTA
  else optimizedScript.

(** The script after steps 1 and 2. *)
Definition afterKeywordStep (h : Host) (script : string) (primaryKeywords : list string)
  : string :=
  let primaryKeyword := hd_error primaryKeywords in
  injectKeyword primaryKeyword (insertHook h script primaryKeyword).

Definition applyOptimizations (h : Host) (script : string)
  (optimizations : Optimizations) (primaryKeywords : list string)
  (contentStyle : string) : string :=
  let primaryKeyword := hd_error primaryKeywords in
  let optimizedScript := insertHook h script primaryKeyword in
  let optimizedScript := injectKeyword primaryKeyword optimizedScript in
  let optimizedScript := injectQuestion primaryKeyword optimizedScript in
  appendCTA optimizedScript.

(** ** The optimizer: report *)

Definition structureGuide : list (string * list string) :=
  [("tutorial", ["Introduction"; "Prerequisites/Setup"; "Step-by-step instructions"; "Tips & Tricks"; "Conclusion"]);
   ("review", ["Introduction"; "Overview/Unboxing"; "Features"; "Pros & Cons"; "Verdict"]);
   ("educational", ["Hook"; "Context"; "Main concepts"; "Examples"; "Summary"]);
   ("entertainment", ["Hook"; "Setup"; "Main content"; "Payoff"; "Outro"]);
   ("vlog", ["Intro"; "Main activities"; "Highlights"; "Reflection"; "Outro"])].

(** [structureGuide[contentStyle] || structureGuide.tutorial] *)
Definition structureFor (contentStyle : string) : Sections :=
  match JSObject.get structureGuide contentStyle with
  | Own names => SectionList names
  | Inherited => PrototypeMember contentStyle
  | Undefined =>
      match own_get structureGuide "tutorial" with
      | Some names => SectionList names
      | None => SectionList []
      end
  end.

Definition generateStructureRecommendations (script : string)
  (targetDuration : number) (contentStyle : string) : list Recommendation :=
  let words := plannerWordCount script in
  let estimatedMinutes := Math_ceil (div (of_nat words) (of_Z 150)) in
  let recommendations : list Recommendation := [] in
  let recommendations :=
    if lt estimatedMinutes (mul targetDuration (of_ratio 8 10)) then
      List.app recommendations
      [{| rec_section := "overall";
          rec_issue := Some ("Script is short (" ++ toString estimatedMinutes
                             ++ " min) for " ++ toString targetDuration ++ " min target");
          rec_suggestion := "Add more detail, examples, or sections to reach target duration";
          rec_sections := None |}]
    else if gt estimatedMinutes (mul targetDuration (of_ratio 12 10)) then
      List.app recommendations
      [{| rec_section := "overall";
          rec_issue := Some ("Script is long (" ++ toString estimatedMinutes
                             ++ " min) for " ++ toString targetDuration ++ " min target");
          rec_suggestion := "Trim unnecessary content or split into multiple videos";
          rec_sections := None |}]
    else recommendations in
  List.app recommendations
   [{| rec_section := "structure";
       rec_issue := None;
       rec_suggestion := "Recommended structure for " ++ contentStyle ++ ":";
       rec_sections := Some (structureFor contentStyle) |}].

Definition generateEngagementSuggestions (script contentStyle : string)
  : list EngagementSuggestion :=
  [{| sugg_type := "retention";
      sugg_timing := "30 seconds in";
      sugg_suggestion := "Add a pattern interrupt or tease what's coming ("
                         ++ dq ++ "Stay until the end for..." ++ dq ++ ")";
      sugg_examples := firstn 2 engagementPhrases_retention |};
   {| sugg_type := "engagement";
      sugg_timing := "middle of video";
      sugg_suggestion := "Ask a question or request interaction";
      sugg_examples := firstn 2 engagementPhrases_engagement |};
   {| sugg_type := "transitions";
      sugg_timing := "between sections";
      sugg_suggestion := "Use clear transition phrases to maintain flow";
      sugg_examples := firstn 2 engagementPhrases_transition |};
   {| sugg_type := "hook";
      sugg_timing := "first 15 seconds";
      sugg_suggestion := "Start with a strong hook that creates curiosity";
      sugg_examples := firstn 2 engagementPhrases_hook |}].

(** The body of the two [forEach] of [suggestKeywordInsertions]: a keyword
    found fewer than [least] times is suggested. *)
Definition suggestInsertion (h : Host) (script : string) (least : nat)
  (recommendedCount : string) (locations : list string)
  (suggestions : list KeywordInsertion) (keyword : string)
  : result (list KeywordInsertion) :=
  let* matches := RegExp_gi h keyword in
  let count := matches script in
  if (count <? least)%nat then
    Ok (suggestions ++
        [{| ins_keyword := keyword;
            ins_currentCount := count;
            ins_recommendedCount := recommendedCount;
            ins_locations := locations |}])%list
  else Ok suggestions.

Definition suggestKeywordInsertions (h : Host) (script : string)
  (primaryKeywords secondaryKeywords : list string) : result (list KeywordInsertion) :=
  let suggestions : list KeywordInsertion := [] in
  let* suggestions :=
    foldM (suggestInsertion h script 3 "3-5"
             ["Opening sentence"; "Middle of content"; "Conclusion"])
          primaryKeywords suggestions in
  foldM (suggestInsertion h script 1 "1-2" ["Body content"])
        (firstn 3 secondaryKeywords) suggestions.

Definition commonTips : list string :=
  ["Speak naturally - keyword stuffing sounds robotic";
   "Use keywords in questions to sound more natural";
   "Mention your primary keyword in the first 30 seconds for YouTube SEO";
   "Repeat key points for retention";
   "Use " ++ dq ++ "you" ++ dq ++ " language to connect with viewers"].

Definition styleTips : list (string * list string) :=
  [("tutorial", ["Number your steps clearly"; "Pause after important points"; "Acknowledge common mistakes"]);
   ("review", ["Be honest about drawbacks"; "Compare to alternatives"; "Give a clear recommendation"]);
   ("educational", ["Start with why it matters"; "Use analogies and examples"; "Summarize key takeaways"])].

(** [[...commonTips, ...(styleTips[contentStyle] || [])]]: spreading a
    member of [Object.prototype], which is not iterable, throws a
    TypeError. *)
Definition getScriptTips (contentStyle : string) : result (list string) :=
  match JSObject.get styleTips contentStyle with
  | Own tips => Ok (commonTips ++ tips)%list
  | Inherited => Throw TypeError
  | Undefined => Ok (commonTips ++ [])%list
  end.

Definition generateWarnings (analysis : ScriptAnalysis) : list Warning :=
  let warnings : list Warning := [] in
  let warnings :=
    push_if (gt (parseFloat (keywordDensity analysis)) (of_Z 3))
      {| warning_type := "keyword_stuffing";
         warning_message := "Keyword density (" ++ keywordDensity analysis
                            ++ "%) is too high - may sound unnatural" |} warnings in
  let warnings :=
    push_if (gt (averageSentenceLength analysis) (of_Z 25))
      {| warning_type := "readability";
         warning_message := "Average sentence length is high - consider breaking up long sentences" |}
      warnings in
  let warnings :=
    push_if (negb (hasCallToAction (engagementElements analysis)))
      {| warning_type := "missing_cta";
         warning_message := "No clear call to action found - add subscribe/like reminders" |}
      warnings in
  warnings.

(** [keywords?.recommended?.<tier>?.map(k => k.keyword)]: [None] when a
    link of the chain is absent. *)
Definition keywordTier (keywords : option KeywordsData)
  (tier : Recommended -> option (list KeywordEntry)) : option (list string) :=
  match keywords with
  | Some data =>
      match recommended data with
      | Some r => option_map (map keyword) (tier r)
      | None => None
      end
  | None => None
  end.

(** [a || b] for an array [a] that may be undefined: an array is truthy. *)
Definition orElse {A : Type} (a : option A) (b : A) : A :=
  match a with
  | Some v => v
  | None => b
  end.

Definition validationError : exception := Error "Script and concept are required".

Definition optimizeScript (h : Host) (request : Request) : result Report :=
  let targetDuration := orElse (req_targetDuration request) (of_Z 10) in
  let contentStyle := orElse (req_contentStyle request) "tutorial" in
  let optimizationLevel := orElse (req_optimizationLevel request) "moderate" in
  if negb (truthy (req_script request)) || negb (truthy (req_concept request))
  then Throw validationError
  else
    let script := orElse (req_script request) "" in
    let concept := orElse (req_concept request) "" in
    let keywords := req_keywords request in
    let primaryKeywords := orElse (keywordTier keywords primary) [concept] in
    let secondaryKeywords := orElse (keywordTier keywords secondary) [] in
    let longTailKeywords := orElse (keywordTier keywords longTail) [] in
    let allKeywords := (primaryKeywords ++ secondaryKeywords ++ longTailKeywords)%list in
    let* originalAnalysis := analyzeScript h script allKeywords in
    let* optimizations :=
      generateOptimizations h script allKeywords contentStyle optimizationLevel in
    let optimizedScript :=
      applyOptimizations h script optimizations primaryKeywords contentStyle in
    let* optimizedAnalysis := analyzeScript h optimizedScript allKeywords in
    let structureRecommendations :=
      generateStructureRecommendations script targetDuration contentStyle in
    let engagementSuggestions := generateEngagementSuggestions script contentStyle in
    let generatedAt := Date_toISOString h in
    let keywordDensityChange :=
      toFixed 2 (sub (ToNumber (keywordDensity optimizedAnalysis))
                     (ToNumber (keywordDensity originalAnalysis))) in
    let* keywordInsertions :=
      suggestKeywordInsertions h script primaryKeywords secondaryKeywords in
    let* tips := getScriptTips contentStyle in
    Ok {| concept := concept;
          contentStyle := contentStyle;
          targetDuration := targetDuration;
          optimizationLevel := optimizationLevel;
          generatedAt := generatedAt;
          original := {| script := script; analysis := originalAnalysis |};
          optimized := {| script := optimizedScript; analysis := optimizedAnalysis |};
          improvements :=
            {| keywordDensityChange := keywordDensityChange;
               keywordsAdded := (Z.of_nat (keywordsFound optimizedAnalysis)
                                 - Z.of_nat (keywordsFound originalAnalysis))%Z;
               engagementPointsAdded := List.length (engagementPoints optimizations) |};
          optimizations := changes optimizations;
          structureRecommendations := structureRecommendations;
          engagementSuggestions := engagementSuggestions;
          keywordInsertions := keywordInsertions;
          tips := tips;
          warnings := generateWarnings optimizedAnalysis |}.

(** ** The request dispatch *)

(** A JSON value: the [id] of a request, and the schema that
    [handleToolsList] returns. *)
#[warnings="-register-all"] Inductive json : Type :=
| JNull
| JBool (b : bool)
| JNumber (n : number)
| JString (s : string)
| JArray (items : list json)
| JObject (members : list (string * json)).

(** The [params] of a [tools/call] request; [None] is a member that is
    absent.  The [arguments] are those of [optimizeScript]. *)
Record ToolCall : Type := {
  call_name : option string;
  call_arguments : option Request
}.

(** A parsed request.  [rpc_params] is [None] when the request has no
    [params] (or has [null]). *)
Record RpcRequest : Type := {
  rpc_method : option string;
  rpc_params : option ToolCall;
  rpc_id : option json
}.

(** The [message] of an error response: a text of the program, or the
    [message] of an exception that the host worded. *)
Inductive Message : Type :=
| Text (s : string)
| MessageOf (e : exception).

(** [error.message] *)
Definition errorMessage (e : exception) : Message :=
  match e with
  | Error m => Text m
  | _ => MessageOf e
  end.

Inductive Payload : Type :=
| PingStatus (status agent version timestamp : string)
| Tools (tools : list json)
| Content (content : Report).

(** A response has a [result] or an [error]. *)
Inductive Outcome : Type :=
| Result (r : Payload)
| Failure (code : Z) (message : Message).

Record Response : Type := {
  jsonrpc : string;
  outcome : Outcome;
  resp_id : option json
}.

(** [this.name], [this.version] *)
Definition agentName : string := "YT-Script-Optimizer".
Definition agentVersion : string := "1.0.0".

Definition handlePing (h : Host) (id : option json) : Response :=
  {| jsonrpc := "2.0";
     outcome := Result (PingStatus "ok" agentName agentVersion (Date_toISOString h));
     resp_id := id |}.

Definition stringProperty (description : string) : json :=
  JObject [("type", JString "string"); ("description", JString description)].

(** The one tool of the list, with its input schema. *)
Definition optimizeScriptTool : json :=
  JObject
    [("name", JString "optimizeScript");
     ("description", JString "Optimize a video script for SEO and engagement");
     ("inputSchema",
      JObject
        [("type", JString "object");
         ("properties",
          JObject
            [("script", stringProperty "The video script to optimize");
             ("concept", stringProperty "The video concept/topic");
             ("keywords",
              JObject [("type", JString "object");
                       ("description", JString "Keywords data from analyzer")]);
             ("targetDuration",
              JObject [("type", JString "number");
                       ("description", JString "Target video duration in minutes");
                       ("default", JNumber (of_Z 10))]);
             ("contentStyle",
              JObject [("type", JString "string");
                       ("enum", JArray [JString "tutorial"; JString "review"; JString "vlog";
                                        JString "educational"; JString "entertainment"]);
                       ("description", JString "Style of content")]);
             ("optimizationLevel",
              JObject [("type", JString "string");
                       ("enum", JArray [JString "light"; JString "moderate";
                                        JString "aggressive"]);
                       ("default", JString "moderate");
                       ("description", JString "How much to modify the script")])]);
         ("required", JArray [JString "script"; JString "concept"])])].

Definition handleToolsList (id : option json) : Response :=
  {| jsonrpc := "2.0";
     outcome := Result (Tools [optimizeScriptTool]);
     resp_id := id |}.

(** A value printed by a template literal when it may be undefined. *)
Definition printed (s : option string) : string :=
  match s with
  | Some s => s
  | None => "undefined"
  end.

(** [this.optimizeScript(args)]: destructuring the parameter throws a
    TypeError when [args] is undefined or null. *)
Definition callOptimizeScript (h : Host) (args : option Request) : result Report :=
  match args with
  | Some request => optimizeScript h request
  | None => Throw TypeError
  end.

(** [handleToolCall(params, id)]: destructuring [params] throws a
    TypeError when it is undefined or null; what [optimizeScript] throws is
    caught and answered. *)
Definition handleToolCall (h : Host) (params : option ToolCall) (id : option json)
  : result Response :=
  match params with
  | None => Throw TypeError
  | Some call =>
      let name := call_name call in
      let args := call_arguments call in
      if negb (match name with Some n => n =? "optimizeScript" | None => false end) then
        Ok {| jsonrpc := "2.0";
              outcome := Failure (-32602) (Text ("Unknown tool: " ++ printed name));
              resp_id := id |}
      else
        match callOptimizeScript h args with
        | Ok content =>
            Ok {| jsonrpc := "2.0"; outcome := Result (Content content); resp_id := id |}
        | Throw error =>
            Ok {| jsonrpc := "2.0";
                  outcome := Failure (-32603) (errorMessage error);
                  resp_id := id |}
        end
  end.

Definition handleRequest (h : Host) (request : RpcRequest) : result Response :=
  let method := rpc_method request in
  let params := rpc_params request in
  let id := rpc_id request in
  match method with
  | Some "ping" => Ok (handlePing h id)
  | Some "tools/list" => Ok (handleToolsList id)
  | Some "tools/call" => handleToolCall h params id
  | _ =>
      Ok {| jsonrpc := "2.0";
            outcome := Failure (-32601) (Text ("Method not found: " ++ printed method));
            resp_id := id |}
  end.

Definition parseErrorResponse : Response :=
  {| jsonrpc := "2.0";
     outcome := Failure (-32700) (Text "Parse error");
     resp_id := Some JNull |}.

(** The message handler of [start]: [parsed] is what
    [JSON.parse(message.toString())] gives, an exception or a value, the
    value [null] being [None]; the result is the response handed to
    [ws.send].  Reading [request.method] of [null] throws a TypeError. *)
Definition onMessage (h : Host) (parsed : result (option RpcRequest)) : Response :=
  let handled :=
    let* request := parsed in
    match request with
    | Some request => handleRequest h request
    | None => Throw TypeError
    end in
  match handled with
  | Ok response => response
  | Throw _ => parseErrorResponse
  end.

(** ** Notions used by the statements *)

(** Two hosts for the examples: they draw the same random number and read
    different clocks.  The keywords of the examples are plain text, so the
    engine for patterns with operators is never asked. *)
Definition sampleHost : Host :=
  {| Math_random := of_ratio 1 2;
     Date_toISOString := "2024-01-01T00:00:00.000Z";
     RegExp_operators := fun _ => None |}.

Definition laterHost : Host :=
  {| Math_random := of_ratio 1 2;
     Date_toISOString := "2024-01-01T00:00:01.000Z";
     RegExp_operators := fun _ => None |}.

(** A request that gives only the two required fields. *)
Definition plainRequest (script concept : string) : Request :=
  {| req_script := Some script;
     req_concept := Some concept;
     req_keywords := None;
     req_targetDuration := None;
     req_contentStyle := None;
     req_optimizationLevel := None |}.

Definition noOptimizations : Optimizations :=
  {| changes := []; engagementPoints := [] |}.

(** One sentence of forty-two words of one syllable. *)
Definition fortyTwoWords : string :=
  "a a a a a a a a a a a a a a a a a a a a a a a a a a a a a a a a a a a a a a a a a a".

(** The list of changes holds one of type [t]. *)
Definition hasChange (t : string) (l : list OptimizationChange) : bool :=
  existsb (fun c => change_type c =? t) l.

Definition hasWarning (t : string) (l : list Warning) : bool :=
  existsb (fun w => warning_type w =? t) l.

(** A keyword that [new RegExp(kw, 'gi')] accepts. *)
Definition wellFormed (h : Host) (kw : string) : bool :=
  match RegExp_gi h kw with
  | Ok _ => true
  | Throw _ => false
  end.

(** The keyword lists that [optimizeScript] derives from a request. *)
Definition primaryKeywordsOf (request : Request) : list string :=
  orElse (keywordTier (req_keywords request) primary)
         [orElse (req_concept request) ""].

Definition secondaryKeywordsOf (request : Request) : list string :=
  orElse (keywordTier (req_keywords request) secondary) [].

Definition longTailKeywordsOf (request : Request) : list string :=
  orElse (keywordTier (req_keywords request) longTail) [].

Definition allKeywordsOf (request : Request) : list string :=
  (primaryKeywordsOf request ++ secondaryKeywordsOf request
   ++ longTailKeywordsOf request)%list.

(** A report with its time stamp replaced. *)
Definition stampedAt (t : string) (r : Report) : Report :=
  {| concept := concept r;
     contentStyle := contentStyle r;
     targetDuration := targetDuration r;
     optimizationLevel := optimizationLevel r;
     generatedAt := t;
     original := original r;
     optimized := optimized r;
     improvements := improvements r;
     optimizations := optimizations r;
     structureRecommendations := structureRecommendations r;
     engagementSuggestions := engagementSuggestions r;
     keywordInsertions := keywordInsertions r;
     tips := tips r;
     warnings := warnings r |}.

(** Two results that differ at most in the time stamp of the report. *)
Definition sameButTimeStamp (a b : result Report) : Prop :=
  match a, b with
  | Ok ra, Ok rb => stampedAt "" ra = stampedAt "" rb
  | Throw ea, Throw eb => ea = eb
  | _, _ => False
  end.

(** [l] is [whole] with some elements left out, the order kept. *)
Fixpoint subsequence (l whole : list string) : bool :=
  match l, whole with
  | [], _ => true
  | _ :: _, [] => false
  | x :: l', y :: rest => if x =? y then subsequence l' rest else subsequence l rest
  end.

Definition notWhiteSpace (c : ascii) : bool := negb (isWhiteSpace c).
Definition notTerminator (c : ascii) : bool := negb (isTerminator c).

(** The number of literal matches of every keyword of a list, summed. *)
Definition sumMatches (script : string) (keywords : list string) : nat :=
  list_sum (map (fun k => count_literal k script) keywords).

(** A request for a tool call. *)
Definition toolCallRequest (name : string) (args : option Request) (id : option json)
  : RpcRequest :=
  {| rpc_method := Some "tools/call";
     rpc_params := Some {| call_name := Some name; call_arguments := args |};
     rpc_id := id |}.

(** [(script.match(new RegExp(keyword, 'gi')) || []).length] for a keyword
    that the constructor accepts; 0 stands for the others, for which the
    program throws before it counts. *)
Definition patternMatches (h : Host) (keyword script : string) : nat :=
  match RegExp_gi h keyword with
  | Ok matches => matches script
  | Throw _ => 0
  end.

(** The suggestion that [suggestKeywordInsertions] makes for a keyword. *)
Definition insertionFor (h : Host) (script recommendedCount : string)
  (locations : list string) (keyword : string) : KeywordInsertion :=
  {| ins_keyword := keyword;
     ins_currentCount := patternMatches h keyword script;
     ins_recommendedCount := recommendedCount;
     ins_locations := locations |}.

(** A request that gives an empty list of primary keywords. *)
Definition noKeywordsRequest (script concept : string) : Request :=
  {| req_script := Some script;
     req_concept := Some concept;
     req_keywords :=
       Some {| recommended :=
                 Some {| primary := Some []; secondary := None; longTail := None |} |};
     req_targetDuration := None;
     req_contentStyle := None;
     req_optimizationLevel := None |}.

(** A script whose first sentence has more than 150 characters. *)
Definition longOpening : string :=
  "This opening sentence keeps going and going without any pause so that it grows far beyond the one hundred and fifty characters that the planner and the rewriter allow for the hook of a video. Then it stops.".

(** The number of words of a string, counted at their first code units:
    [afterWhiteSpace] tells whether a word may start at once (at the start
    of a string, or after white space). *)
Fixpoint wordStarts (afterWhiteSpace : bool) (s : string) : nat :=
  match s with
  | "" => 0
  | String c t =>
      if isWhiteSpace c then wordStarts true t
      else (if afterWhiteSpace then 1 else 0) + wordStarts false t
  end.

(** Does a word start afresh after [s]? *)
Fixpoint endsInWhiteSpace (afterWhiteSpace : bool) (s : string) : bool :=
  match s with
  | "" => afterWhiteSpace
  | String c t => endsInWhiteSpace (isWhiteSpace c) t
  end.

(** A string that is empty or starts with white space. *)
Definition startsApart (s : string) : bool :=
  match s with
  | "" => true
  | String c _ => isWhiteSpace c
  end.

(** * Properties *)

(** ** Strings *)

Lemma matches_at_app (eqc : ascii -> ascii -> bool) (needle a b : string) :
  matches_at eqc needle a = true -> matches_at eqc needle (a ++ b) = true.
Proof.
  revert a. induction needle as [|c n IH]; intros a H.
  - destruct a; reflexivity.
  - destruct a as [|x a]; simpl in *; [discriminate|].
    apply andb_true_iff in H as [H1 H2].
    rewrite H1. simpl. apply IH. exact H2.
Qed.

Lemma occurs_cons (eqc : ascii -> ascii -> bool) (needle : string) (x : ascii) (t : string) :
  occurs eqc needle (String x t)
  = matches_at eqc needle (String x t) || occurs eqc needle t.
Proof. reflexivity. Qed.

Lemma occurs_app_l (eqc : ascii -> ascii -> bool) (needle a b : string) :
  occurs eqc needle a = true -> occurs eqc needle (a ++ b) = true.
Proof.
  induction a as [|x a IH]; intros H.
  - simpl in H. rewrite orb_false_r in H.
    destruct needle; [|discriminate].
    destruct b; reflexivity.
  - rewrite occurs_cons in H.
    change (String x a ++ b) with (String x (a ++ b)).
    rewrite occurs_cons.
    apply orb_true_iff in H as [H|H].
    + change (String x (a ++ b)) with (String x a ++ b).
      rewrite (matches_at_app eqc needle (String x a) b H). reflexivity.
    + rewrite (IH H). apply orb_true_r.
Qed.

Lemma occurs_app_r (eqc : ascii -> ascii -> bool) (needle a b : string) :
  occurs eqc needle b = true -> occurs eqc needle (a ++ b) = true.
Proof.
  intros H. induction a as [|x a IH]; [exact H|].
  change (String x a ++ b) with (String x (a ++ b)).
  rewrite occurs_cons, IH. apply orb_true_r.
Qed.

Lemma includes_app_l (needle a b : string) :
  includes needle a = true -> includes needle (a ++ b) = true.
Proof. apply occurs_app_l. Qed.

Lemma includes_app_r (needle a b : string) :
  includes needle b = true -> includes needle (a ++ b) = true.
Proof. apply occurs_app_r. Qed.


Lemma test_words_ci_app_r (ws : list string) (a b : string) :
  test_words_ci ws b = true -> test_words_ci ws (a ++ b) = true.
Proof.
  unfold test_words_ci. rewrite !existsb_exists.
  intros [w [Hin Hw]]. exists w. split; [exact Hin|].
  apply occurs_app_r. exact Hw.
Qed.

(** ** Syllables (C5) *)

(** C5, as the program has it: [countSyllables] gives 1 for "cat" (three
    letters), 3 for "banana" (three vowel groups, no final e) and 1 for
    "simple": its vowel groups are the two groups "i" and "e", and the
    final "e" takes one away. *)
Theorem C5_syllable_examples :
  countSyllables "cat" = 1%Z /\
  countSyllables "banana" = 3%Z /\
  countVowelGroups "simple" 0 false = 2%Z /\
  countSyllables "simple" = 1%Z.
Proof. repeat split; reflexivity. Qed.

(** C5 as the specification words it does not hold: "simple" does not
    count 2, and its vowel groups are not 3. *)
Lemma C5_simple_is_not_two :
  ~ (countSyllables "cat" = 1%Z /\
     countSyllables "banana" = 3%Z /\
     countSyllables "simple" = 2%Z) /\
  countVowelGroups "simple" 0 false <> 3%Z.
Proof.
  split.
  - intros [_ [_ H]]. vm_compute in H. discriminate.
  - vm_compute. discriminate.
Qed.

(** ** Keyword density of the metrics (C7) *)

(** C7: for the keyword list ["x"] and the script "x x x x" the metrics
    count 4 words and 4 mentions, and [keywordDensity] is "100.00". *)
Theorem C7_density_of_four_x (h : Host) :
  exists m : ScriptAnalysis,
    analyzeScript h "x x x x" ["x"] = Ok m /\
    wordCount m = 4 /\
    totalKeywordMentions m = 4 /\
    keywordDensity m = "100.00".
Proof.
  eexists. split; [vm_compute; reflexivity|].
  repeat split; reflexivity.
Qed.

(** ** Readability levels (C8) *)

Lemma SFcompare_antisym (x y : spec_float) (c : comparison) :
  SFcompare x y = Some c -> SFcompare y x = Some (CompOpp c).
Proof.
  destruct x as [sx|sx| |sx mx ex], y as [sy|sy| |sy my ey]; simpl;
    try discriminate;
    try (destruct sx; intros H; inversion H; reflexivity);
    try (destruct sy; intros H; inversion H; reflexivity);
    try (intros H; inversion H; reflexivity).
  - destruct sx, sy; intros H; inversion H; reflexivity.
  - destruct sx, sy; intros H; inversion H; subst c; try reflexivity.
    + rewrite (Z.compare_antisym ex ey).
      destruct (ex ?= ey)%Z; simpl; try reflexivity.
      rewrite (Pos.compare_cont_antisym mx my Eq). reflexivity.
    + rewrite (Z.compare_antisym ex ey).
      destruct (ex ?= ey)%Z; simpl; try reflexivity.
      rewrite (Pos.compare_cont_antisym mx my Eq). reflexivity.
Qed.

(** [b <= x] false for a number [b] while [a <= x] holds (so [x] is a
    number too): [x < b]. *)
Lemma below_of_not_ge (a b x : number) :
  b <> NaN -> ge x a = true -> ge x b = false -> lt x b = true.
Proof.
  unfold ge, lt, SFleb, SFltb. intros Hn Ha Hb.
  destruct (SFcompare b x) as [c|] eqn:Hc.
  - rewrite (SFcompare_antisym b x c Hc).
    destruct c; simpl; try reflexivity; discriminate.
  - destruct x.
    4: destruct b; simpl in Hc; try discriminate; elim Hn; reflexivity.
    1, 2: destruct b; simpl in Hc; try discriminate; elim Hn; reflexivity.
    destruct a; simpl in Ha; discriminate.
Qed.

Lemma not_ge_of_below (b x : number) :
  lt x b = true -> ge x b = false.
Proof.
  unfold ge, lt, SFleb, SFltb. intros H.
  destruct (SFcompare x b) as [c|] eqn:Hc; [|discriminate].
  rewrite (SFcompare_antisym x b c Hc).
  destruct c; simpl; try reflexivity; discriminate.
Qed.

(** C8, as the program has it: the level follows the score before it is
    rounded.  It is "very easy" exactly when that score is at least 80 and
    "easy" exactly when it is at least 60 and below 80; the score 80 is
    "very easy" and the score 79 is "easy"; the reported score is the
    rounded one. *)
Theorem C8_level_follows_raw_score (script : string) :
  let raw := readabilityRawScore script in
  let r := calculateReadability script in
  score r = Math_round raw /\
  (level r = "very easy" <-> ge raw (of_Z 80) = true) /\
  (level r = "easy" <-> ge raw (of_Z 60) = true /\ lt raw (of_Z 80) = true) /\
  readabilityLevel (of_Z 80) = "very easy" /\
  readabilityLevel (of_Z 79) = "easy".
Proof.
  intros raw r. subst r. unfold calculateReadability. cbn [score level].
  fold raw. unfold readabilityLevel.
  split; [reflexivity|].
  split; [|split; [|split; reflexivity]].
  - destruct (ge raw (of_Z 80)); [split; reflexivity|].
    split; [|discriminate].
    destruct (ge raw (of_Z 60)); [discriminate|].
    destruct (ge raw (of_Z 40)); [discriminate|].
    destruct (ge raw (of_Z 20)); discriminate.
  - destruct (ge raw (of_Z 80)) eqn:H80.
    + split; [discriminate|].
      intros [_ Hlt]. apply not_ge_of_below in Hlt. congruence.
    + destruct (ge raw (of_Z 60)) eqn:H60.
      * split; [|reflexivity]. intros _. split; [reflexivity|].
        apply (below_of_not_ge (of_Z 60) (of_Z 80) raw); [discriminate|exact H60|exact H80].
      * split; [|intros [H _]; discriminate].
        destruct (ge raw (of_Z 40)); [discriminate|].
        destruct (ge raw (of_Z 20)); discriminate.
Qed.

(** C8 as the specification words it does not hold: a sentence of
    forty-two one-syllable words scores 79.605 before rounding; the report
    carries the score 80 and the level "easy". *)
Lemma C8_rounded_80_is_easy :
  let r := calculateReadability fortyTwoWords in
  score r = of_Z 80 /\
  ge (score r) (of_Z 80) = true /\
  level r = "easy" /\
  level r <> "very easy" /\
  toString (readabilityRawScore fortyTwoWords) = "79.60500000000002".
Proof.
  vm_compute. repeat split; try reflexivity; discriminate.
Qed.

(** ** The rewriter (C2, C3) *)

Lemma applyOptimizations_steps (h : Host) (script : string) (opts : Optimizations)
  (primaryKeywords : list string) (style : string) :
  applyOptimizations h script opts primaryKeywords style
  = appendCTA (injectQuestion (hd_error primaryKeywords)
                 (afterKeywordStep h script primaryKeywords)).
Proof. reflexivity. Qed.

Lemma questionBlock_has_question (primaryKeyword : option string) :
  includes "?" (questionBlock primaryKeyword) = true.
Proof.
  unfold questionBlock.
  do 3 apply includes_app_r. apply includes_app_r.
  reflexivity.
Qed.

Lemma injectQuestion_noop (primaryKeyword : option string) (t : string) :
  indexOf "." (length t / 2) t = None -> injectQuestion primaryKeyword t = t.
Proof.
  intros H. unfold injectQuestion. rewrite H.
  destruct (negb (includes "?" t)); reflexivity.
Qed.

Lemma injectQuestion_has_question (primaryKeyword : option string) (t : string) :
  indexOf "." (length t / 2) t <> None ->
  includes "?" (injectQuestion primaryKeyword t) = true.
Proof.
  intros H. unfold injectQuestion.
  destruct (includes "?" t) eqn:Hq; cbn [negb]; [exact Hq|].
  destruct (indexOf "." (length t / 2) t) as [insertPoint|]; [|contradiction].
  apply includes_app_r, includes_app_l, questionBlock_has_question.
Qed.

Lemma appendCTA_keeps (needle s : string) :
  includes needle s = true -> includes needle (appendCTA s) = true.
Proof.
  intros H. unfold appendCTA.
  destruct (negb (test_words_ci callToAction3 s)); [|exact H].
  apply includes_app_l. exact H.
Qed.

Lemma appendCTA_calls_to_action (s : string) :
  test_words_ci callToAction3 (appendCTA s) = true.
Proof.
  unfold appendCTA.
  destruct (test_words_ci callToAction3 s) eqn:H; cbn [negb]; [exact H|].
  apply test_words_ci_app_r. reflexivity.
Qed.

(** C2, as the program has it: for a script without "?", the rewritten
    script holds a "?" whenever the script, as it stands after the hook
    and keyword steps, has a "." at or after its middle (index
    [length / 2]); when it has none, the question step changes nothing. *)
Theorem C2_question_after_middle_full_stop (h : Host) (script : string)
  (opts : Optimizations) (primaryKeywords : list string) (style : string) :
  includes "?" script = false ->
  let t := afterKeywordStep h script primaryKeywords in
  (indexOf "." (length t / 2) t <> None ->
   includes "?" (applyOptimizations h script opts primaryKeywords style) = true) /\
  (indexOf "." (length t / 2) t = None ->
   injectQuestion (hd_error primaryKeywords) t = t).
Proof.
  intros _ t. split.
  - intros H. rewrite applyOptimizations_steps.
    apply appendCTA_keeps, injectQuestion_has_question. exact H.
  - apply injectQuestion_noop.
Qed.

Lemma C2_witness :
  includes "?" "This is a basic video. It has no questions or calls to action." = false /\
  includes "?"
    (applyOptimizations sampleHost
       "This is a basic video. It has no questions or calls to action."
       noOptimizations ["gardening tips"] "tutorial") = true.
Proof.
  split; [reflexivity|].
  apply (C2_question_after_middle_full_stop sampleHost
           "This is a basic video. It has no questions or calls to action."
           noOptimizations ["gardening tips"] "tutorial"); [reflexivity|].
  vm_compute. discriminate.
Defined.

(** C2 as the specification words it does not hold: the script
    "x. bcdefgh" has no "?" and has a ".", which lies before the middle;
    rewritten for the keyword "x" it still has no "?". *)
Lemma C2_full_stop_before_middle :
  includes "?" "x. bcdefgh" = false /\
  includes "." "x. bcdefgh" = true /\
  includes "?" (applyOptimizations sampleHost "x. bcdefgh" noOptimizations ["x"] "tutorial")
  = false.
Proof. repeat split; reflexivity. Qed.





(** ** The planner (C6) *)

Lemma hasChange_push_if (t : string) (b : bool) (c : OptimizationChange)
  (l : list OptimizationChange) :
  hasChange t (push_if b c l) = hasChange t l || (b && (change_type c =? t)).
Proof.
  unfold hasChange, push_if. destruct b; simpl.
  - rewrite existsb_app. simpl. rewrite orb_false_r. reflexivity.
  - rewrite orb_false_r. reflexivity.
Qed.

Lemma filter_push_if {A : Type} (p : A -> bool) (b : bool) (c : A) (l : list A) :
  filter p (push_if b c l) = push_if (b && p c) c (filter p l).
Proof.
  unfold push_if. destruct b; simpl; [|reflexivity].
  rewrite filter_app. simpl. destruct (p c); [reflexivity|apply app_nil_r].
Qed.

(** Evaluate the comparisons of change types, which are literals. *)
Ltac eval_type_tests :=
  repeat match goal with
  | |- context [String.eqb (change_type ?c) ?t] =>
      let v := eval lazy in (String.eqb (change_type c) t) in
      change (String.eqb (change_type c) t) with v
  end.

(** The keyword-density suggestion is made exactly when the density that
    the planner computes is below 1 and [intensity >= 2] holds. *)
Lemma keyword_density_suggestion (h : Host) (script : string)
  (keywords : list string) (style level : string) (opts : Optimizations) :
  generateOptimizations h script keywords style level = Ok opts ->
  exists mentions : nat,
    keywordMentions h script keywords = Ok mentions /\
    hasChange "keyword_density" (changes opts)
    = lt (plannerDensity mentions (plannerWordCount script)) (of_Z 1)
      && intensityAtLeast2 (intensityOf level).
Proof.
  unfold generateOptimizations.
  destruct (keywordMentions h script keywords) as [mentions|e]; [|discriminate].
  cbn [bind]. intros H. injection H as <-. exists mentions.
  split; [reflexivity|].
  cbn [changes]. rewrite !hasChange_push_if. eval_type_tests.
  rewrite !andb_false_r, !orb_false_r, andb_true_r. reflexivity.
Qed.

(** The intensity is 1 for "light", 2 for "moderate", 3 for "aggressive",
    and 2 for every other level that is not the name of a member of
    [Object.prototype]. *)
Lemma intensityOf_values (level : string) :
  intensityOf "light" = Own 1%Z /\
  intensityOf "moderate" = Own 2%Z /\
  intensityOf "aggressive" = Own 3%Z /\
  (level <> "light" -> level <> "moderate" -> level <> "aggressive" ->
   inherited level = false -> intensityOf level = Own 2%Z) /\
  (inherited level = true -> intensityOf level = Inherited).
Proof.
  repeat split; try reflexivity.
  - intros H1 H2 H3 Hi. unfold intensityOf, JSObject.get. simpl.
    apply String.eqb_neq in H1, H2, H3. rewrite H1, H2, H3, Hi. reflexivity.
  - intros Hi. unfold intensityOf, JSObject.get. simpl.
    destruct (level =? "light") eqn:E1;
      [apply String.eqb_eq in E1; subst; discriminate|].
    destruct (level =? "moderate") eqn:E2;
      [apply String.eqb_eq in E2; subst; discriminate|].
    destruct (level =? "aggressive") eqn:E3;
      [apply String.eqb_eq in E3; subst; discriminate|].
    rewrite Hi. reflexivity.
Qed.

(** The level "light" never brings the keyword-density suggestion. *)
Lemma light_has_no_density_suggestion (h : Host) (script : string)
  (keywords : list string) (style : string) (opts : Optimizations) :
  generateOptimizations h script keywords style "light" = Ok opts ->
  hasChange "keyword_density" (changes opts) = false.
Proof.
  intros H. destruct (keyword_density_suggestion _ _ _ _ _ _ H) as [m [_ ->]].
  apply andb_false_r.
Qed.

(** The level decides nothing else: two levels give the same engagement
    points and, the keyword-density suggestion apart, the same changes. *)
Lemma level_gates_density_only (h : Host) (script : string)
  (keywords : list string) (style level1 level2 : string) (o1 o2 : Optimizations) :
  generateOptimizations h script keywords style level1 = Ok o1 ->
  generateOptimizations h script keywords style level2 = Ok o2 ->
  engagementPoints o1 = engagementPoints o2 /\
  filter (fun c => negb (change_type c =? "keyword_density")) (changes o1)
  = filter (fun c => negb (change_type c =? "keyword_density")) (changes o2).
Proof.
  unfold generateOptimizations.
  destruct (keywordMentions h script keywords) as [mentions|e]; [|discriminate].
  cbn [bind]. intros H1 H2. injection H1 as <-. injection H2 as <-.
  split; [reflexivity|].
  cbn [changes]. rewrite !filter_push_if. eval_type_tests.
  cbn [negb]. rewrite !andb_false_r. reflexivity.
Qed.

(** C6 fails for a level that names a member of [Object.prototype]: the
    script "Hello world." never mentions the keyword "gardening", so the
    density is 0, below 1.  Under the level "thorough", which the table
    does not know, the intensity is 2 and the suggestion is made; under
    the level "constructor" the lookup finds the inherited member, which
    is no number, and the suggestion is not made. *)
Theorem C6_inherited_level_is_not_two (h : Host) :
  lt (plannerDensity 0 (plannerWordCount "Hello world.")) (of_Z 1) = true /\
  (exists opts,
     generateOptimizations h "Hello world." ["gardening"] "tutorial" "thorough" = Ok opts /\
     hasChange "keyword_density" (changes opts) = true) /\
  (exists opts,
     generateOptimizations h "Hello world." ["gardening"] "tutorial" "constructor" = Ok opts /\
     hasChange "keyword_density" (changes opts) = false) /\
  intensityOf "constructor" = Inherited.
Proof.
  split; [reflexivity|].
  split; [|split; [|reflexivity]].
  - eexists. split; [vm_compute; reflexivity|]. reflexivity.
  - eexists. split; [vm_compute; reflexivity|]. reflexivity.
Qed.

(** ** Regular expressions from keywords *)

Lemma plain_char_tests (c : ascii) :
  isSyntaxChar c = false ->
  (c =? "\")%char = false /\ (c =? "*")%char = false /\
  (c =? "+")%char = false /\ (c =? "?")%char = false.
Proof.
  unfold isSyntaxChar. cbn [existsb]. intros H.
  repeat (apply orb_false_iff in H; destruct H as [? H]).
  repeat split; assumption.
Qed.

(** An escaped keyword is read back as the keyword itself. *)
Lemma classify_from_escape (k : string) (b : before) (text : string) :
  classify_from b true text (escapeRegExp k) = Literal (rev_onto text k).
Proof.
  revert b text. induction k as [|c k IH]; intros b text; [reflexivity|].
  cbn [escapeRegExp]. destruct (isSyntaxChar c) eqn:Hc.
  - cbn [classify_from]. change ("\" =? "\")%char with true. cbv iota.
    rewrite Hc. rewrite IH. reflexivity.
  - destruct (plain_char_tests c Hc) as [H1 [H2 [H3 H4]]].
    cbn [classify_from]. rewrite H1, H2, H3, H4, Hc. cbn [orb].
    rewrite IH. reflexivity.
Qed.

Lemma RegExp_gi_escape (h : Host) (k : string) :
  RegExp_gi h (escapeRegExp k) = Ok (count_literal k).
Proof.
  unfold RegExp_gi, classify. rewrite classify_from_escape. reflexivity.
Qed.

(** The constructor throws nothing but a SyntaxError. *)
Lemma RegExp_gi_throws (h : Host) (p : string) (e : exception) :
  RegExp_gi h p = Throw e -> e = SyntaxError.
Proof.
  unfold RegExp_gi. destruct (classify p); try discriminate.
  - intros H. injection H as <-. reflexivity.
  - destruct (RegExp_operators h p); [discriminate|].
    intros H. injection H as <-. reflexivity.
Qed.

Lemma wellFormed_Ok (h : Host) (kw : string) :
  wellFormed h kw = true -> exists matches, RegExp_gi h kw = Ok matches.
Proof.
  unfold wellFormed. destruct (RegExp_gi h kw) as [m|e]; [|discriminate].
  intros _. exists m. reflexivity.
Qed.

(** ** Loops whose body may throw *)

Lemma foldM_throws {A B : Type} (P : exception -> Prop) (f : A -> B -> result A) :
  (forall a b e, f a b = Throw e -> P e) ->
  forall l a e, foldM f l a = Throw e -> P e.
Proof.
  intros Hf. induction l as [|b l IH]; intros a e H; [discriminate|].
  cbn [foldM] in H. destruct (f a b) as [a'|e'] eqn:Hfab; cbn [bind] in H.
  - exact (IH a' e H).
  - injection H as <-. exact (Hf a b e' Hfab).
Qed.

Lemma foldM_returns {A B : Type} (f : A -> B -> result A) (l : list B) :
  Forall (fun b => forall a, exists a', f a b = Ok a') l ->
  forall a, exists a', foldM f l a = Ok a'.
Proof.
  induction 1 as [|b l Hb _ IH]; intros a.
  - exists a. reflexivity.
  - destruct (Hb a) as [a' Ha']. cbn [foldM]. rewrite Ha'. cbn [bind]. apply IH.
Qed.

(** ** The metrics never throw *)

Lemma countKeyword_returns (h : Host) (script : string)
  (acc : nat * list (string * nat)) (keyword : string) :
  exists acc', countKeyword h script acc keyword = Ok acc'.
Proof.
  unfold countKeyword. rewrite RegExp_gi_escape. cbn [bind].
  destruct (0 <? count_literal keyword script)%nat; eexists; reflexivity.
Qed.

(** What [analyzeScript] returns, field by field, for the fields that the
    statements below use. *)
Lemma analyzeScript_returns (h : Host) (script : string) (keywords : list string) :
  exists a : ScriptAnalysis,
    analyzeScript h script keywords = Ok a /\
    wordCount a = List.length (words_of script) /\
    keywordDensity a
    = toFixed 2 (mul (div (of_nat (totalKeywordMentions a))
                          (of_nat (List.length (words_of script)))) (of_Z 100)) /\
    hasCallToAction (engagementElements a) = test_words_ci callToAction4 script.
Proof.
  unfold analyzeScript.
  destruct (foldM_returns (countKeyword h script) keywords) with (a := (0, @nil (string * nat)))
    as [counted Hc].
  - apply Forall_forall. intros k _ acc. apply countKeyword_returns.
  - rewrite Hc. cbn [bind]. eexists. split; [reflexivity|].
    repeat split; reflexivity.
Qed.

(** ** The planner and the keyword suggestions throw on ill-formed
    keywords only *)

Lemma keywordMentions_throws (h : Host) (script : string) (keywords : list string)
  (e : exception) :
  keywordMentions h script keywords = Throw e -> e = SyntaxError.
Proof.
  unfold keywordMentions.
  apply (foldM_throws (fun e => e = SyntaxError)).
  intros a b e'. unfold addMentions.
  destruct (RegExp_gi h b) as [m|e0] eqn:Hm; cbn [bind]; [discriminate|].
  intros H. injection H as <-. exact (RegExp_gi_throws h b e0 Hm).
Qed.

Lemma keywordMentions_returns (h : Host) (script : string) (keywords : list string) :
  Forall (fun kw => wellFormed h kw = true) keywords ->
  exists n, keywordMentions h script keywords = Ok n.
Proof.
  intros H. unfold keywordMentions. apply foldM_returns.
  apply Forall_forall. intros kw Hin a.
  rewrite Forall_forall in H.
  destruct (wellFormed_Ok h kw (H kw Hin)) as [m Hm].
  unfold addMentions. rewrite Hm. cbn [bind]. eexists. reflexivity.
Qed.

Lemma generateOptimizations_throws (h : Host) (script : string)
  (keywords : list string) (style level : string) (e : exception) :
  generateOptimizations h script keywords style level = Throw e -> e = SyntaxError.
Proof.
  unfold generateOptimizations.
  destruct (keywordMentions h script keywords) as [n|e0] eqn:Hk; cbn [bind];
    [discriminate|].
  intros H. injection H as <-. exact (keywordMentions_throws _ _ _ _ Hk).
Qed.

Lemma generateOptimizations_returns (h : Host) (script : string)
  (keywords : list string) (style level : string) :
  Forall (fun kw => wellFormed h kw = true) keywords ->
  exists opts, generateOptimizations h script keywords style level = Ok opts.
Proof.
  intros H. destruct (keywordMentions_returns h script keywords H) as [n Hn].
  unfold generateOptimizations. rewrite Hn. cbn [bind]. eexists. reflexivity.
Qed.

Lemma suggestInsertion_throws (h : Host) (script : string) (least : nat)
  (rc : string) (locs : list string) (acc : list KeywordInsertion) (kw : string)
  (e : exception) :
  suggestInsertion h script least rc locs acc kw = Throw e -> e = SyntaxError.
Proof.
  unfold suggestInsertion.
  destruct (RegExp_gi h kw) as [m|e0] eqn:Hm; cbn [bind].
  - destruct (m script <? least)%nat; discriminate.
  - intros H. injection H as <-. exact (RegExp_gi_throws h kw e0 Hm).
Qed.

Lemma suggestInsertion_returns (h : Host) (script : string) (least : nat)
  (rc : string) (locs : list string) (acc : list KeywordInsertion) (kw : string) :
  wellFormed h kw = true ->
  exists acc', suggestInsertion h script least rc locs acc kw = Ok acc'.
Proof.
  intros H. destruct (wellFormed_Ok h kw H) as [m Hm].
  unfold suggestInsertion. rewrite Hm. cbn [bind].
  destruct (m script <? least)%nat; eexists; reflexivity.
Qed.

Lemma suggestKeywordInsertions_throws (h : Host) (script : string)
  (pks sks : list string) (e : exception) :
  suggestKeywordInsertions h script pks sks = Throw e -> e = SyntaxError.
Proof.
  unfold suggestKeywordInsertions.
  destruct (foldM _ pks _) as [acc|e0] eqn:H1; cbn [bind].
  - apply (foldM_throws (fun e => e = SyntaxError)).
    intros a b e'. apply suggestInsertion_throws.
  - intros H. injection H as <-. revert H1.
    apply (foldM_throws (fun e => e = SyntaxError)).
    intros a b e'. apply suggestInsertion_throws.
Qed.

Lemma Forall_firstn {A : Type} (P : A -> Prop) (n : nat) (l : list A) :
  Forall P l -> Forall P (firstn n l).
Proof.
  intros H. revert n. induction H as [|x l Hx _ IH]; intros [|n]; simpl;
    constructor; auto.
Qed.

Lemma suggestKeywordInsertions_returns (h : Host) (script : string)
  (pks sks : list string) :
  Forall (fun kw => wellFormed h kw = true) pks ->
  Forall (fun kw => wellFormed h kw = true) sks ->
  exists ins, suggestKeywordInsertions h script pks sks = Ok ins.
Proof.
  intros Hp Hs. unfold suggestKeywordInsertions.
  destruct (foldM_returns
              (suggestInsertion h script 3 "3-5"
                 ["Opening sentence"; "Middle of content"; "Conclusion"]) pks)
    with (a := @nil KeywordInsertion) as [acc Hacc].
  - apply Forall_forall. intros kw Hin a. rewrite Forall_forall in Hp.
    apply suggestInsertion_returns. exact (Hp kw Hin).
  - rewrite Hacc. cbn [bind]. apply foldM_returns.
    apply Forall_forall. intros kw Hin a.
    apply (Forall_firstn _ 3) in Hs. rewrite Forall_forall in Hs.
    apply suggestInsertion_returns. exact (Hs kw Hin).
Qed.

Lemma getScriptTips_throws (style : string) (e : exception) :
  getScriptTips style = Throw e -> e = TypeError.
Proof.
  unfold getScriptTips. destruct (JSObject.get styleTips style); try discriminate.
  intros H. injection H as <-. reflexivity.
Qed.

(** ** [optimizeScript]: when it returns, when it throws *)

(** A returned report comes from a request with both required fields, and
    its parts are those that the steps computed. *)
Lemma optimizeScript_Ok_inv (h : Host) (req : Request) (rep : Report) :
  optimizeScript h req = Ok rep ->
  exists script concept a0 opts a1,
    req_script req = Some script /\ nonempty script = true /\
    req_concept req = Some concept /\ nonempty concept = true /\
    analyzeScript h script (allKeywordsOf req) = Ok a0 /\
    generateOptimizations h script (allKeywordsOf req)
      (orElse (req_contentStyle req) "tutorial")
      (orElse (req_optimizationLevel req) "moderate") = Ok opts /\
    analyzeScript h
      (applyOptimizations h script opts (primaryKeywordsOf req)
         (orElse (req_contentStyle req) "tutorial"))
      (allKeywordsOf req) = Ok a1 /\
    original rep = {| script := script; analysis := a0 |} /\
    optimized rep =
      {| script := applyOptimizations h script opts (primaryKeywordsOf req)
                     (orElse (req_contentStyle req) "tutorial");
         analysis := a1 |} /\
    optimizations rep = changes opts /\
    warnings rep = generateWarnings a1.
Proof.
  unfold optimizeScript, allKeywordsOf, primaryKeywordsOf, secondaryKeywordsOf,
    longTailKeywordsOf.
  destruct (req_script req) as [script|]; [|discriminate].
  destruct (req_concept req) as [concept|];
    [|cbn [truthy negb orb]; rewrite orb_true_r; discriminate].
  cbn [truthy orElse].
  destruct (nonempty script) eqn:Hs; [|discriminate].
  destruct (nonempty concept) eqn:Hc; [|discriminate].
  cbn [negb orb].
  destruct (analyzeScript h script _) as [a0|] eqn:Ha0; [|discriminate].
  cbn [bind].
  destruct (generateOptimizations h script _ _ _) as [opts|] eqn:Ho; [|discriminate].
  cbn [bind].
  destruct (analyzeScript h (applyOptimizations _ _ _ _ _) _) as [a1|] eqn:Ha1; [|discriminate].
  cbn [bind].
  destruct (suggestKeywordInsertions _ _ _ _) as [ins|]; [|discriminate].
  cbn [bind].
  destruct (getScriptTips _) as [tps|]; [|discriminate].
  cbn [bind].
  intros H. injection H as <-.
  exists script, concept, a0, opts, a1.
  repeat split; try reflexivity; assumption.
Qed.

(** Without a script, or without a concept, the request is refused. *)
Lemma optimizeScript_refuses (h : Host) (req : Request) :
  truthy (req_script req) = false \/ truthy (req_concept req) = false ->
  optimizeScript h req = Throw validationError.
Proof.
  unfold optimizeScript. intros [H|H]; rewrite H; cbn [negb orb];
    [|rewrite orb_true_r]; reflexivity.
Qed.

(** Past the check of the two fields, the exceptions are those of the
    regular expressions built from the keywords (SyntaxError) and of the
    style tips (TypeError). *)
Lemma optimizeScript_throws (h : Host) (req : Request) (e : exception) :
  optimizeScript h req = Throw e ->
  (e = validationError /\
   (truthy (req_script req) = false \/ truthy (req_concept req) = false)) \/
  (truthy (req_script req) = true /\ truthy (req_concept req) = true /\
   (e = SyntaxError \/ e = TypeError)).
Proof.
  unfold optimizeScript.
  destruct (truthy (req_script req)) eqn:Hs; cbn [negb orb];
    [|intros H; injection H as <-; left; split; [reflexivity|left; reflexivity]].
  destruct (truthy (req_concept req)) eqn:Hc; cbn [negb orb];
    [|intros H; injection H as <-; left; split; [reflexivity|right; reflexivity]].
  intros H. right. split; [reflexivity|]. split; [reflexivity|].
  revert H.
  match goal with
  | |- context [analyzeScript h ?s ?k] =>
      destruct (analyzeScript_returns h s k) as [a0 [-> _]]
  end.
  cbn [bind].
  match goal with
  | |- context [generateOptimizations h ?s ?k ?st ?lv] =>
      destruct (generateOptimizations h s k st lv) as [opts|e0] eqn:Ho
  end; cbn [bind];
    [|intros H; injection H as <-; left; exact (generateOptimizations_throws _ _ _ _ _ _ Ho)].
  match goal with
  | |- context [analyzeScript h ?s ?k] =>
      destruct (analyzeScript_returns h s k) as [a1 [-> _]]
  end.
  cbn [bind].
  match goal with
  | |- context [suggestKeywordInsertions h ?s ?p ?q] =>
      destruct (suggestKeywordInsertions h s p q) as [ins|e0] eqn:Hi
  end; cbn [bind];
    [|intros H; injection H as <-; left; exact (suggestKeywordInsertions_throws _ _ _ _ _ Hi)].
  match goal with
  | |- context [getScriptTips ?st] =>
      destruct (getScriptTips st) as [tps|e0] eqn:Ht
  end; cbn [bind]; [discriminate|].
  intros H; injection H as <-; right; exact (getScriptTips_throws _ _ Ht).
Qed.

(** The request is refused with the validation error exactly when the
    script or the concept is missing or empty. *)
Lemma validation_exact (h : Host) (req : Request) :
  optimizeScript h req = Throw validationError <->
  truthy (req_script req) = false \/ truthy (req_concept req) = false.
Proof.
  split; [|apply optimizeScript_refuses].
  intros H. apply optimizeScript_throws in H as [[_ H]|[_ [_ [H|H]]]];
    [exact H|discriminate|discriminate].
Qed.

(** With both fields, well-formed keywords and a content style that names
    no member of [Object.prototype], a report is returned. *)
Lemma optimizeScript_returns (h : Host) (req : Request) :
  truthy (req_script req) = true ->
  truthy (req_concept req) = true ->
  Forall (fun kw => wellFormed h kw = true) (allKeywordsOf req) ->
  inherited (orElse (req_contentStyle req) "tutorial") = false ->
  exists rep, optimizeScript h req = Ok rep.
Proof.
  intros Hs Hc Hk Hst. unfold optimizeScript. rewrite Hs, Hc. cbn [negb orb].
  unfold allKeywordsOf, primaryKeywordsOf, secondaryKeywordsOf, longTailKeywordsOf in Hk.
  destruct (req_concept req) as [concept|]; [|discriminate]. cbn [orElse] in *.
  match goal with
  | |- context [analyzeScript h ?s ?k] =>
      destruct (analyzeScript_returns h s k) as [a0 [-> _]]
  end.
  cbn [bind].
  match goal with
  | |- context [generateOptimizations h ?s ?k ?st ?lv] =>
      destruct (generateOptimizations_returns h s k st lv Hk) as [opts ->]
  end.
  cbn [bind].
  match goal with
  | |- context [analyzeScript h ?s ?k] =>
      destruct (analyzeScript_returns h s k) as [a1 [-> _]]
  end.
  cbn [bind].
  apply Forall_app in Hk as [Hp Hk]. apply Forall_app in Hk as [Hsec _].
  match goal with
  | |- context [suggestKeywordInsertions h ?s ?p ?q] =>
      destruct (suggestKeywordInsertions_returns h s p q Hp Hsec) as [ins ->]
  end.
  cbn [bind].
  unfold getScriptTips, JSObject.get. rewrite Hst.
  destruct (own_get styleTips _); cbn [bind]; eexists; reflexivity.
Qed.

Lemma foldM_Ok_each {A B : Type} (f : A -> B -> result A) (l : list B) (a a' : A) :
  foldM f l a = Ok a' -> Forall (fun b => exists x y, f x b = Ok y) l.
Proof.
  revert a. induction l as [|b l IH]; intros a H; [constructor|].
  cbn [foldM] in H. destruct (f a b) as [a1|e] eqn:Hf; cbn [bind] in H; [|discriminate].
  constructor; [exists a, a1; exact Hf|exact (IH a1 H)].
Qed.

Lemma generateOptimizations_Ok_wellFormed (h : Host) (script : string)
  (keywords : list string) (style level : string) (opts : Optimizations) :
  generateOptimizations h script keywords style level = Ok opts ->
  Forall (fun kw => wellFormed h kw = true) keywords.
Proof.
  unfold generateOptimizations, keywordMentions.
  destruct (foldM (addMentions h script) keywords 0) as [n|e] eqn:Hf; [|discriminate].
  intros _. apply foldM_Ok_each in Hf.
  apply Forall_impl with (2 := Hf). intros kw [x [y Hxy]].
  unfold addMentions in Hxy. unfold wellFormed.
  destruct (RegExp_gi h kw); [reflexivity|discriminate].
Qed.

(** A report is returned exactly when the script and the concept are
    present and not empty, every keyword is a pattern that [new RegExp]
    accepts, and the content style names no member of
    [Object.prototype]. *)
Lemma optimizeScript_returns_iff (h : Host) (req : Request) :
  (exists rep, optimizeScript h req = Ok rep) <->
  truthy (req_script req) = true /\
  truthy (req_concept req) = true /\
  Forall (fun kw => wellFormed h kw = true) (allKeywordsOf req) /\
  inherited (orElse (req_contentStyle req) "tutorial") = false.
Proof.
  split.
  - intros [rep H]. pose proof H as H'. unfold optimizeScript in H'.
    destruct (optimizeScript_Ok_inv h req rep H)
      as (script & concept & a0 & opts & a1 & Hs & Hn & Hc & Hnc & _ & Ho & _).
    rewrite Hs, Hc. cbn [truthy]. repeat split; try assumption.
    + exact (generateOptimizations_Ok_wellFormed _ _ _ _ _ _ Ho).
    + rewrite Hs, Hc in H'. cbn [truthy orElse] in H'. rewrite Hn, Hnc in H'.
      cbn [negb orb] in H'. revert H'.
      repeat match goal with
      | |- context [bind ?r _] =>
          match r with
          | getScriptTips _ => fail 1
          | _ => destruct r; cbn [bind]; [|discriminate]
          end
      end.
      unfold getScriptTips, JSObject.get.
      destruct (own_get styleTips _) as [tps|] eqn:Hown.
      * intros _. unfold styleTips in Hown. cbn [own_get] in Hown.
        repeat match type of Hown with
        | (if String.eqb ?a ?b then _ else _) = _ =>
            destruct (String.eqb_spec a b) as [->|_]; [reflexivity|]
        end.
        discriminate.
      * destruct (inherited _); [discriminate|reflexivity].
  - intros (Hs & Hc & Hk & Hst). apply optimizeScript_returns; assumption.
Qed.

(** A content style that names a member of [Object.prototype] makes the
    style tips throw. *)
Lemma inherited_style_throws (h : Host) :
  optimizeScript h
    {| req_script := Some "Hello world.";
       req_concept := Some "gardening";
       req_keywords := None;
       req_targetDuration := None;
       req_contentStyle := Some "constructor";
       req_optimizationLevel := None |}
  = Throw TypeError.
Proof. vm_compute. reflexivity. Qed.

(** ** Validation (C1) *)

(** C1 fails past the validation: the request with the script
    "Learn to code." and the concept "C++" has both fields, and the metrics
    (which escape the keyword) return; the planner hands "C++" to
    [new RegExp] as it is, a pattern with a dangling quantifier, and
    [optimizeScript] throws a SyntaxError. *)
Theorem C1_unescaped_keyword_throws (h : Host) :
  truthy (req_script (plainRequest "Learn to code." "C++")) = true /\
  truthy (req_concept (plainRequest "Learn to code." "C++")) = true /\
  (exists a, analyzeScript h "Learn to code." ["C++"] = Ok a) /\
  generateOptimizations h "Learn to code." ["C++"] "tutorial" "moderate"
  = Throw SyntaxError /\
  optimizeScript h (plainRequest "Learn to code." "C++") = Throw SyntaxError.
Proof.
  split; [reflexivity|]. split; [reflexivity|].
  split; [|split; vm_compute; reflexivity].
  destruct (analyzeScript_returns h "Learn to code." ["C++"]) as [a [Ha _]].
  exists a. exact Ha.
Qed.

(** ** Warnings (C9) *)

Lemma hasWarning_push_if (t : string) (b : bool) (w : Warning) (l : list Warning) :
  hasWarning t (push_if b w l) = hasWarning t l || (b && (warning_type w =? t)).
Proof.
  unfold hasWarning, push_if. destruct b; simpl.
  - rewrite existsb_app. simpl. rewrite orb_false_r. reflexivity.
  - rewrite orb_false_r. reflexivity.
Qed.

(** The missing-CTA warning is given exactly when the flag is false. *)
Lemma missing_cta_warning (a : ScriptAnalysis) :
  hasWarning "missing_cta" (generateWarnings a)
  = negb (hasCallToAction (engagementElements a)).
Proof.
  unfold generateWarnings. rewrite !hasWarning_push_if.
  cbn [warning_type].
  change ("keyword_stuffing" =? "missing_cta") with false.
  change ("readability" =? "missing_cta") with false.
  change ("missing_cta" =? "missing_cta") with true.
  rewrite !andb_false_r, andb_true_r. reflexivity.
Qed.

(** What matches [/subscribe|like|comment/i] matches
    [/subscribe|like|comment|share/i]. *)
Lemma callToAction3_in_4 (s : string) :
  test_words_ci callToAction3 s = true -> test_words_ci callToAction4 s = true.
Proof.
  unfold test_words_ci, callToAction3, callToAction4. cbn [existsb].
  rewrite !orb_false_r. intros H.
  repeat (apply orb_true_iff in H; destruct H as [H|H]);
    rewrite H; rewrite ?orb_true_r; reflexivity.
Qed.

(** C9: in a returned report, the metrics of the rewritten script have the
    call-to-action flag set, and the warnings hold no "missing_cta". *)
Theorem C9_no_missing_cta_warning (h : Host) (req : Request) (rep : Report) :
  optimizeScript h req = Ok rep ->
  hasCallToAction (engagementElements (analysis (optimized rep))) = true /\
  hasWarning "missing_cta" (warnings rep) = false.
Proof.
  intros H.
  destruct (optimizeScript_Ok_inv h req rep H)
    as (script & concept & a0 & opts & a1 & _ & _ & _ & _ & _ & _ & Ha1 & _ & Hopt & _ & Hw).
  assert (Hflag : hasCallToAction (engagementElements a1) = true).
  { match type of Ha1 with
    | analyzeScript h ?s ?k = _ =>
        destruct (analyzeScript_returns h s k) as [a [Ha [_ [_ Hcta]]]]
    end.
    rewrite Ha in Ha1. injection Ha1 as <-. rewrite Hcta.
    apply callToAction3_in_4. rewrite applyOptimizations_steps.
    apply appendCTA_calls_to_action. }
  split.
  - rewrite Hopt. exact Hflag.
  - rewrite Hw, missing_cta_warning, Hflag. reflexivity.
Qed.

Lemma C9_witness :
  match optimizeScript sampleHost
          (plainRequest "This is a basic video. It has no questions or calls to action."
                        "gardening tips") with
  | Ok rep =>
      hasCallToAction (engagementElements (analysis (optimized rep))) = true /\
      hasWarning "missing_cta" (warnings rep) = false
  | Throw _ => False
  end.
Proof.
  destruct (optimizeScript sampleHost
              (plainRequest "This is a basic video. It has no questions or calls to action."
                            "gardening tips")) as [rep|e] eqn:H.
  - exact (C9_no_missing_cta_warning sampleHost _ rep H).
  - vm_compute in H. discriminate.
Defined.

(** ** Numbers of positive integers *)

Lemma shr_1_div2 (r : shr_record) :
  (0 <= shr_m r)%Z -> shr_m (shr_1 r) = Z.shiftr (shr_m r) 1.
Proof.
  destruct r as [m rb sb]. cbn [shr_m]. intros H.
  destruct m as [|[p|p|]|p]; try reflexivity. lia.
Qed.

Lemma iter_shr_1 (p : positive) (r : shr_record) :
  (0 <= shr_m r)%Z ->
  shr_m (iter_pos shr_1 p r) = Z.shiftr (shr_m r) (Zpos p).
Proof.
  revert r. induction p as [p IH|p IH|]; intros r H; cbn [iter_pos].
  - assert (H1 : (0 <= shr_m (shr_1 r))%Z)
      by (rewrite shr_1_div2 by exact H; apply Z.shiftr_nonneg; exact H).
    assert (H2 : (0 <= shr_m (iter_pos shr_1 p (shr_1 r)))%Z)
      by (rewrite IH by exact H1; apply Z.shiftr_nonneg; exact H1).
    rewrite IH by exact H2. rewrite IH by exact H1. rewrite shr_1_div2 by exact H.
    rewrite !Z.shiftr_shiftr by lia. f_equal. lia.
  - assert (H2 : (0 <= shr_m (iter_pos shr_1 p r))%Z)
      by (rewrite IH by exact H; apply Z.shiftr_nonneg; exact H).
    rewrite IH by exact H2. rewrite IH by exact H.
    rewrite Z.shiftr_shiftr by lia. f_equal. lia.
  - apply shr_1_div2. exact H.
Qed.

Lemma digits2_pos_lower (p : positive) :
  (2 ^ (Zpos (digits2_pos p) - 1) <= Zpos p)%Z.
Proof.
  induction p as [p IH|p IH|]; cbn [digits2_pos]; [| |simpl; lia].
  - rewrite Pos2Z.inj_succ.
    replace (Z.succ (Zpos (digits2_pos p)) - 1)%Z
      with (Z.succ (Zpos (digits2_pos p) - 1))%Z by lia.
    rewrite Z.pow_succ_r by lia. lia.
  - rewrite Pos2Z.inj_succ.
    replace (Z.succ (Zpos (digits2_pos p)) - 1)%Z
      with (Z.succ (Zpos (digits2_pos p) - 1))%Z by lia.
    rewrite Z.pow_succ_r by lia. lia.
Qed.

Lemma shr_m_of_loc (m : Z) (l : location) : shr_m (shr_record_of_loc m l) = m.
Proof. destruct l as [|[]]; reflexivity. Qed.

(** Shifting to the working precision keeps a positive mantissa positive
    when the exponent is not below the least one. *)
Lemma shr_fexp_positive (m : positive) (e : Z) (l : location) :
  (SpecFloat.emin prec emax <= e)%Z ->
  (0 < shr_m (fst (shr_fexp prec emax (Zpos m) e l)))%Z /\
  (SpecFloat.emin prec emax <= snd (shr_fexp prec emax (Zpos m) e l))%Z.
Proof.
  intros He. unfold shr_fexp, shr.
  destruct (fexp prec emax (Zdigits2 (Zpos m) + e) - e)%Z as [|n|n] eqn:Hn;
    cbn [fst snd]; rewrite ?shr_m_of_loc; try (split; [lia|exact He]).
  unfold fexp, SpecFloat.emin, prec, emax in *. cbn [Zdigits2] in Hn.
  rewrite iter_shr_1 by (rewrite shr_m_of_loc; lia).
  rewrite shr_m_of_loc. split; [|lia].
  rewrite Z.shiftr_div_pow2 by lia.
  apply Z.div_str_pos. split; [apply Z.pow_pos_nonneg; lia|].
  pose proof (digits2_pos_lower m) as Hd.
  apply Z.le_trans with (2 := Hd).
  apply Z.pow_le_mono_r; lia.
Qed.

Lemma round_nearest_even_ge (m : Z) (l : location) :
  (m <= round_nearest_even m l)%Z.
Proof.
  destruct l as [|[]]; cbn [round_nearest_even]; try lia.
  destruct (Z.even m); lia.
Qed.

Lemma binary_round_aux_positive (sx : bool) (m : positive) (e : Z) (l : location) :
  (SpecFloat.emin prec emax <= e)%Z ->
  (exists m' e', binary_round_aux prec emax sx (Zpos m) e l = S754_finite sx m' e') \/
  binary_round_aux prec emax sx (Zpos m) e l = S754_infinity sx.
Proof.
  intros He. unfold binary_round_aux.
  destruct (shr_fexp_positive m e l He) as [H1 H2].
  destruct (shr_fexp prec emax (Zpos m) e l) as [mrs' e'] eqn:E1. cbn [fst snd] in H1, H2.
  pose proof (round_nearest_even_ge (shr_m mrs') (loc_of_shr_record mrs')) as Hr.
  destruct (round_nearest_even (shr_m mrs') (loc_of_shr_record mrs')) as [|m2|m2] eqn:E2;
    try lia.
  destruct (shr_fexp_positive m2 e' loc_Exact H2) as [H3 _].
  destruct (shr_fexp prec emax (Zpos m2) e' loc_Exact) as [mrs'' e''] eqn:E3.
  cbn [fst] in H3.
  destruct (shr_m mrs'') as [|m3|m3]; try lia.
  destruct (e'' <=? emax - prec)%Z; [left; eauto|right; reflexivity].
Qed.

(** A positive integer is a positive number, or overflows to infinity. *)
Lemma of_Z_positive (p : positive) :
  (exists m e, of_Z (Zpos p) = S754_finite false m e) \/ of_Z (Zpos p) = Infinity.
Proof.
  unfold of_Z, binary_normalize, binary_round, shl_align.
  destruct (fexp prec emax (Zpos (digits2_pos p) + 0) - 0)%Z as [|d|d] eqn:Hd;
    apply binary_round_aux_positive;
    unfold fexp, SpecFloat.emin, prec, emax in *; lia.
Qed.

Lemma div_by_zero (n : nat) :
  (0 < n)%nat -> div (of_nat n) (of_nat 0) = Infinity.
Proof.
  intros H. unfold of_nat. destruct n as [|n]; [lia|].
  rewrite Nat2Z.inj_succ, <- Zpos_P_of_succ_nat.
  change (of_Z (Z.of_nat 0)) with (S754_zero false).
  destruct (of_Z_positive (Pos.of_succ_nat n)) as [[m [e ->]]| ->]; reflexivity.
Qed.

(** ** Scripts of white space (C10) *)

Lemma split_from_skip_rest (sep : option ascii -> string -> nat) (t : string)
  (prev : option ascii) (skip : nat) (cur : string) :
  (length t <= skip)%nat -> split_from sep prev skip cur t = [rev cur].
Proof.
  revert prev skip. induction t as [|c t IH]; intros prev skip H; [reflexivity|].
  cbn [length] in H. destruct skip as [|k]; [lia|].
  cbn [split_from]. apply IH. lia.
Qed.

Lemma span_length_all (p : ascii -> bool) (s : string) :
  forallb_string p s = true -> span_length p s = length s.
Proof.
  induction s as [|c s IH]; [reflexivity|]. cbn [forallb_string span_length length].
  intros H. apply andb_true_iff in H as [-> H]. rewrite (IH H). reflexivity.
Qed.

(** A script of white space has no words. *)
Lemma words_of_whitespace (s : string) :
  forallb_string isWhiteSpace s = true -> words_of s = [].
Proof.
  intros H. unfold words_of, split. destruct s as [|c t]; [reflexivity|].
  cbn [split_from]. unfold sep_ws at 1. rewrite (span_length_all _ _ H).
  cbn [length]. rewrite split_from_skip_rest by lia. reflexivity.
Qed.

(** C10, as the program has it: for a request whose script is not empty
    and all white space, and whose concept is not empty, [optimizeScript]
    does not throw the validation error; it returns a report when the
    keywords are well-formed patterns and the content style names no
    member of [Object.prototype]; and in a returned report the metrics of
    the original script count 0 words, with the keyword density "NaN"
    when no keyword occurs in the script and "Infinity" when one does. *)
Theorem C10_whitespace_script (h : Host) (req : Request) (script concept : string) :
  req_script req = Some script ->
  nonempty script = true ->
  forallb_string isWhiteSpace script = true ->
  req_concept req = Some concept ->
  nonempty concept = true ->
  optimizeScript h req <> Throw validationError /\
  (Forall (fun kw => wellFormed h kw = true) (allKeywordsOf req) ->
   inherited (orElse (req_contentStyle req) "tutorial") = false ->
   exists rep, optimizeScript h req = Ok rep) /\
  (forall rep, optimizeScript h req = Ok rep ->
     let m := analysis (original rep) in
     wordCount m = 0 /\
     (totalKeywordMentions m = 0 -> keywordDensity m = "NaN") /\
     ((0 < totalKeywordMentions m)%nat -> keywordDensity m = "Infinity")).
Proof.
  intros Hs Hn Hw Hc Hnc.
  assert (Ts : truthy (req_script req) = true) by (rewrite Hs; exact Hn).
  assert (Tc : truthy (req_concept req) = true) by (rewrite Hc; exact Hnc).
  split; [|split].
  - intros H. apply validation_exact in H as [H|H]; congruence.
  - apply optimizeScript_returns; assumption.
  - intros rep H.
    destruct (optimizeScript_Ok_inv h req rep H)
      as (script' & concept' & a0 & opts & a1 & Hs' & _ & _ & _ & Ha0 & _ & _ & Ho & _).
    rewrite Hs in Hs'. injection Hs' as <-.
    rewrite Ho. cbn [analysis].
    destruct (analyzeScript_returns h script (allKeywordsOf req)) as [a [Ha [Hwc [Hd _]]]].
    rewrite Ha in Ha0. injection Ha0 as <-.
    rewrite (words_of_whitespace script Hw) in Hwc, Hd. cbn [List.length] in Hwc, Hd.
    split; [exact Hwc|]. split.
    + intros H0. rewrite Hd, H0. reflexivity.
    + intros H0. rewrite Hd, (div_by_zero _ H0). reflexivity.
Qed.

Lemma C10_witness :
  match optimizeScript sampleHost (plainRequest "   " "gardening") with
  | Ok rep =>
      wordCount (analysis (original rep)) = 0 /\
      keywordDensity (analysis (original rep)) = "NaN"
  | Throw _ => False
  end.
Proof.
  destruct (optimizeScript sampleHost (plainRequest "   " "gardening")) as [rep|e] eqn:H.
  - destruct (C10_whitespace_script sampleHost (plainRequest "   " "gardening")
                "   " "gardening" eq_refl eq_refl eq_refl eq_refl eq_refl)
      as [_ [_ Hrep]].
    destruct (Hrep rep H) as [Hw [Hnan _]].
    split; [exact Hw|]. apply Hnan.
    vm_compute in H. injection H as <-. reflexivity.
  - vm_compute in H. discriminate.
Defined.

(** C10 as the specification words it does not hold: for the script of
    three spaces and the concept of one space, the concept occurs three
    times among no words, and the keyword density is "Infinity". *)
Lemma C10_density_is_Infinity :
  exists rep,
    optimizeScript sampleHost (plainRequest "   " " ") = Ok rep /\
    wordCount (analysis (original rep)) = 0 /\
    totalKeywordMentions (analysis (original rep)) = 3 /\
    keywordDensity (analysis (original rep)) = "Infinity" /\
    keywordDensity (analysis (original rep)) <> "NaN".
Proof.
  eexists. split; [vm_compute; reflexivity|].
  repeat split; try reflexivity. discriminate.
Qed.

(** ** What the report depends on (C4) *)

Lemma foldM_ext {A B : Type} (f g : A -> B -> result A) (l : list B) (a : A) :
  (forall a b, f a b = g a b) -> foldM f l a = foldM g l a.
Proof.
  intros H. revert a. induction l as [|b l IH]; intros a; [reflexivity|].
  cbn [foldM]. rewrite H. destruct (g a b); cbn [bind]; [apply IH|reflexivity].
Qed.

(** Two hosts with the same regular-expression engine. *)
Section SameEngine.

Variables h1 h2 : Host.
Hypothesis same_engine : RegExp_operators h1 = RegExp_operators h2.

Lemma RegExp_gi_same_engine (p : string) : RegExp_gi h1 p = RegExp_gi h2 p.
Proof. unfold RegExp_gi. rewrite same_engine. reflexivity. Qed.

Lemma generateOptimizations_same_engine (script : string)
  (keywords : list string) (style level : string) :
  generateOptimizations h1 script keywords style level
  = generateOptimizations h2 script keywords style level.
Proof.
  unfold generateOptimizations, keywordMentions.
  rewrite (foldM_ext (addMentions h1 script) (addMentions h2 script)); [reflexivity|].
  intros a b. unfold addMentions. rewrite (RegExp_gi_same_engine b). reflexivity.
Qed.

Lemma suggestKeywordInsertions_same_engine (script : string) (pks sks : list string) :
  suggestKeywordInsertions h1 script pks sks = suggestKeywordInsertions h2 script pks sks.
Proof.
  unfold suggestKeywordInsertions.
  assert (E : forall least rc locs a b,
             suggestInsertion h1 script least rc locs a b
             = suggestInsertion h2 script least rc locs a b).
  { intros. unfold suggestInsertion. rewrite (RegExp_gi_same_engine b). reflexivity. }
  rewrite (foldM_ext _ _ pks [] (E 3 "3-5" _)).
  destruct (foldM _ pks []); cbn [bind]; [|reflexivity].
  apply foldM_ext. apply E.
Qed.

End SameEngine.

(** The metrics do not depend on the host at all. *)
Lemma analyzeScript_any_host (h1 h2 : Host) (script : string) (keywords : list string) :
  analyzeScript h1 script keywords = analyzeScript h2 script keywords.
Proof.
  unfold analyzeScript.
  rewrite (foldM_ext (countKeyword h1 script) (countKeyword h2 script)); [reflexivity|].
  intros a b. unfold countKeyword. rewrite !RegExp_gi_escape. reflexivity.
Qed.

(** The rewriter reads the host in the hook step only. *)
Lemma applyOptimizations_same_hook (h1 h2 : Host) (script : string)
  (opts : Optimizations) (pks : list string) (style : string) :
  hookTriggers script (hd_error pks) = false \/ hookPhrase h1 = hookPhrase h2 ->
  applyOptimizations h1 script opts pks style = applyOptimizations h2 script opts pks style.
Proof.
  intros H. unfold applyOptimizations, insertHook.
  destruct H as [H|H]; [rewrite H|rewrite H]; reflexivity.
Qed.

(** C4, as the program has it: two calls on the same request, answered by
    the same regular-expression engine, in which the hook step does not
    trigger or picks the same phrase, end alike: with the same exception,
    or with reports that agree in every field but [generatedAt], which
    holds the time of the call. *)
Theorem C4_same_report_but_time_stamp (h1 h2 : Host) (req : Request) :
  RegExp_operators h1 = RegExp_operators h2 ->
  hookTriggers (orElse (req_script req) "") (hd_error (primaryKeywordsOf req)) = false
  \/ hookPhrase h1 = hookPhrase h2 ->
  sameButTimeStamp (optimizeScript h1 req) (optimizeScript h2 req).
Proof.
  intros He Hh. unfold optimizeScript.
  destruct (negb (truthy (req_script req)) || negb (truthy (req_concept req)));
    [reflexivity|].
  unfold primaryKeywordsOf in Hh.
  rewrite (analyzeScript_any_host h1 h2).
  match goal with
  | |- context [analyzeScript h2 ?s ?k] => destruct (analyzeScript h2 s k) as [a0|e0]
  end; cbn [bind]; [|reflexivity].
  rewrite (generateOptimizations_same_engine h1 h2 He).
  match goal with
  | |- context [generateOptimizations h2 ?s ?k ?st ?lv] =>
      destruct (generateOptimizations h2 s k st lv) as [opts|e1]
  end; cbn [bind]; [|reflexivity].
  rewrite (applyOptimizations_same_hook h1 h2 _ opts _ _ Hh).
  rewrite (analyzeScript_any_host h1 h2).
  match goal with
  | |- context [analyzeScript h2 ?s ?k] => destruct (analyzeScript h2 s k) as [a1|e2]
  end; cbn [bind]; [|reflexivity].
  rewrite (suggestKeywordInsertions_same_engine h1 h2 He).
  match goal with
  | |- context [suggestKeywordInsertions h2 ?s ?p ?q] =>
      destruct (suggestKeywordInsertions h2 s p q) as [ins|e3]
  end; cbn [bind]; [|reflexivity].
  match goal with
  | |- context [getScriptTips ?st] => destruct (getScriptTips st) as [tps|e4]
  end; cbn [bind]; reflexivity.
Qed.

Lemma C4_witness :
  sameButTimeStamp
    (optimizeScript sampleHost (plainRequest "Hello world." "gardening"))
    (optimizeScript laterHost (plainRequest "Hello world." "gardening")).
Proof.
  apply C4_same_report_but_time_stamp; [reflexivity|].
  left. reflexivity.
Defined.

(** C4 as the specification words it does not hold: the two hosts draw
    the same random number and differ in the clock; the hook step does not
    trigger; the two reports differ, in [generatedAt]. *)
Lemma C4_reports_differ_in_time_stamp :
  Math_random sampleHost = Math_random laterHost /\
  hookTriggers "Hello world." (Some "gardening") = false /\
  optimizeScript sampleHost (plainRequest "Hello world." "gardening")
  <> optimizeScript laterHost (plainRequest "Hello world." "gardening").
Proof.
  split; [reflexivity|]. split; [reflexivity|].
  intros H.
  assert (E : match optimizeScript sampleHost (plainRequest "Hello world." "gardening") with
              | Ok r => generatedAt r
              | Throw _ => ""
              end
              = match optimizeScript laterHost (plainRequest "Hello world." "gardening") with
                | Ok r => generatedAt r
                | Throw _ => ""
                end) by (rewrite H; reflexivity).
  vm_compute in E. discriminate.
Qed.

(** * Further properties *)

(** ** Strings, again *)

Lemma str_append_empty_r (s : string) : s ++ "" = s.
Proof. induction s as [|c s IH]; [reflexivity|]. cbn [append]. rewrite IH. reflexivity. Qed.

Lemma str_append_assoc (a b c : string) : (a ++ b) ++ c = a ++ (b ++ c).
Proof. induction a as [|x a IH]; [reflexivity|]. cbn [append]. rewrite IH. reflexivity. Qed.

Lemma rev_onto_append (s acc : string) : rev_onto s acc = rev s ++ acc.
Proof.
  unfold rev. revert acc. induction s as [|c s IH]; intros acc; [reflexivity|].
  cbn [rev_onto]. rewrite (IH (String c acc)), (IH (String c "")).
  rewrite str_append_assoc. reflexivity.
Qed.

Lemma rev_cons (c : ascii) (s : string) : rev (String c s) = rev s ++ String c "".
Proof. unfold rev at 1. cbn [rev_onto]. apply rev_onto_append. Qed.

Lemma str_length_append (a b : string) : length (a ++ b) = length a + length b.
Proof. induction a as [|x a IH]; [reflexivity|]. cbn [append length]. rewrite IH. reflexivity. Qed.

Lemma length_rev (s : string) : length (rev s) = length s.
Proof.
  induction s as [|c s IH]; [reflexivity|].
  rewrite rev_cons, str_length_append, IH. cbn [length]. lia.
Qed.

Lemma forallb_string_append (p : ascii -> bool) (a b : string) :
  forallb_string p (a ++ b) = forallb_string p a && forallb_string p b.
Proof.
  induction a as [|x a IH]; [reflexivity|]. cbn [append forallb_string].
  rewrite IH. apply andb_assoc.
Qed.

Lemma forallb_string_rev (p : ascii -> bool) (s : string) :
  forallb_string p (rev s) = forallb_string p s.
Proof.
  induction s as [|c s IH]; [reflexivity|].
  rewrite rev_cons, forallb_string_append, IH. cbn [forallb_string].
  rewrite andb_true_r. apply andb_comm.
Qed.

Lemma filter_string_append (p : ascii -> bool) (a b : string) :
  filter_string p (a ++ b) = filter_string p a ++ filter_string p b.
Proof.
  induction a as [|x a IH]; [reflexivity|]. cbn [append filter_string].
  destruct (p x); cbn [append]; rewrite IH; reflexivity.
Qed.

Lemma filter_string_all (p : ascii -> bool) (s : string) :
  forallb_string p s = true -> filter_string p s = s.
Proof.
  induction s as [|c s IH]; [reflexivity|]. cbn [forallb_string filter_string].
  intros H. apply andb_true_iff in H as [-> H]. rewrite (IH H). reflexivity.
Qed.

Lemma filter_string_none (p : ascii -> bool) (s : string) :
  filter_string p s = "" <-> forallb_string (fun c => negb (p c)) s = true.
Proof.
  induction s as [|c s IH]; [split; reflexivity|]. cbn [forallb_string filter_string].
  destruct (p c); cbn [negb andb]; [split; discriminate|exact IH].
Qed.

Lemma forallb_filter_string (p : ascii -> bool) (s : string) :
  forallb_string p (filter_string p s) = true.
Proof.
  induction s as [|c s IH]; [reflexivity|]. cbn [filter_string].
  destruct (p c) eqn:H; [cbn [forallb_string]; rewrite H; exact IH|exact IH].
Qed.

Lemma slice_rejoin (n : nat) (s : string) : slice_to n s ++ slice_from n s = s.
Proof.
  unfold slice_to, slice_from. revert n. induction s as [|c s IH]; intros [|n]; try reflexivity.
  cbn [substring drop append]. rewrite IH. reflexivity.
Qed.

Lemma drop_all (s : string) : drop (length s) s = "".
Proof. induction s as [|c s IH]; [reflexivity|exact IH]. Qed.

(** [join] with the empty separator is concatenation. *)
Lemma join_empty_cons (x : string) (l : list string) :
  join "" (x :: l) = x ++ join "" l.
Proof.
  unfold join. destruct l as [|y l]; [cbn [concat]; rewrite str_append_empty_r; reflexivity|].
  reflexivity.
Qed.

(** ** Words (lines 289, 316) *)

Lemma span_length_head (p : ascii -> bool) (c : ascii) (t : string) (k : nat) :
  span_length p (String c t) = S k -> p c = true /\ span_length p t = k.
Proof.
  cbn [span_length]. destruct (p c); [|discriminate].
  intros H. injection H as <-. split; reflexivity.
Qed.

(** Splitting at white space: the pieces hold no white space, and put
    together they are the string without its white space.  [skip] counts
    white space still to pass over; [cur] holds no white space. *)
Lemma split_ws_pieces (s : string) (prev : option ascii) (skip : nat) (cur : string) :
  skip <= span_length isWhiteSpace s ->
  forallb_string notWhiteSpace cur = true ->
  join "" (split_from sep_ws prev skip cur s) = rev cur ++ filter_string notWhiteSpace s /\
  Forall (fun w => forallb_string notWhiteSpace w = true) (split_from sep_ws prev skip cur s).
Proof.
  revert prev skip cur. induction s as [|c t IH]; intros prev skip cur Hskip Hcur.
  - cbn [split_from]. split.
    + unfold join. cbn [concat filter_string]. rewrite str_append_empty_r. reflexivity.
    + constructor; [|constructor]. rewrite forallb_string_rev. exact Hcur.
  - cbn [split_from]. destruct skip as [|k].
    + change (sep_ws prev (String c t)) with (span_length isWhiteSpace (String c t)).
      destruct (span_length isWhiteSpace (String c t)) as [|k] eqn:Hspan.
      * cbn [span_length] in Hspan. destruct (isWhiteSpace c) eqn:Hc; [discriminate|].
        destruct (IH (Some c) 0 (String c cur)) as [H1 H2]; [lia| |].
        { cbn [forallb_string]. unfold notWhiteSpace at 1. rewrite Hc. exact Hcur. }
        split; [|exact H2].
        rewrite H1, rev_cons, str_append_assoc. cbn [filter_string].
        unfold notWhiteSpace at 2. rewrite Hc. reflexivity.
      * apply span_length_head in Hspan as [Hc Hk].
        destruct (IH (Some c) k "") as [H1 H2]; [lia|reflexivity|].
        split.
        -- rewrite join_empty_cons, H1. cbn [filter_string].
           unfold notWhiteSpace at 2. rewrite Hc. reflexivity.
        -- constructor; [|exact H2]. rewrite forallb_string_rev. exact Hcur.
    + destruct (span_length isWhiteSpace (String c t)) as [|k'] eqn:Hspan; [lia|].
      apply span_length_head in Hspan as [Hc Hk].
      destruct (IH (Some c) k cur) as [H1 H2]; [lia|exact Hcur|].
      split; [|exact H2].
      rewrite H1. cbn [filter_string]. unfold notWhiteSpace at 2. rewrite Hc. reflexivity.
Qed.

Lemma join_empty_filter (l : list string) :
  join "" (filter (fun w => (0 <? length w)%nat) l) = join "" l.
Proof.
  induction l as [|x l IH]; [reflexivity|]. cbn [filter].
  destruct (0 <? length x)%nat eqn:E.
  - rewrite !join_empty_cons, IH. reflexivity.
  - destruct x; [|discriminate]. rewrite join_empty_cons. exact IH.
Qed.

(** X1: the words of a script are not empty and hold no white space; put
    together they are the script without its white space; and there is no
    word exactly when the script is all white space (the empty script
    included). *)
Theorem X1_words_of_script (script : string) :
  Forall (fun w => w <> "" /\ forallb_string notWhiteSpace w = true) (words_of script) /\
  join "" (words_of script) = filter_string notWhiteSpace script /\
  (List.length (words_of script) = 0 <-> forallb_string isWhiteSpace script = true).
Proof.
  destruct (split_ws_pieces script None 0 "") as [Hjoin Hpieces]; [lia|reflexivity|].
  assert (J : join "" (words_of script) = filter_string notWhiteSpace script).
  { unfold words_of. rewrite join_empty_filter. exact Hjoin. }
  split; [|split; [exact J|]].
  - unfold words_of, split. apply Forall_forall. intros w Hw.
    apply filter_In in Hw as [Hin Hlen]. rewrite Forall_forall in Hpieces.
    split; [|exact (Hpieces w Hin)].
    intros ->. discriminate.
  - split.
    + intros H. destruct (words_of script); [|discriminate].
      symmetry in J. cbn in J. apply filter_string_none in J.
      rewrite <- J. clear. induction script as [|c s IH]; [reflexivity|].
      cbn [forallb_string]. unfold notWhiteSpace at 1. rewrite negb_involutive, IH.
      reflexivity.
    + intros H. rewrite (words_of_whitespace script H). reflexivity.
Qed.

(** ** Metrics of a script without words (lines 288-333, 335-353) *)

(** The pieces of a split are made of characters of the string. *)
Lemma split_pieces_of (p : ascii -> bool) (sep : option ascii -> string -> nat)
  (s : string) (prev : option ascii) (skip : nat) (cur : string) :
  forallb_string p s = true ->
  forallb_string p cur = true ->
  Forall (fun x => forallb_string p x = true) (split_from sep prev skip cur s).
Proof.
  revert prev skip cur. induction s as [|c t IH]; intros prev skip cur Hs Hcur.
  - constructor; [|constructor]. rewrite forallb_string_rev. exact Hcur.
  - cbn [forallb_string] in Hs. apply andb_true_iff in Hs as [Hc Ht].
    cbn [split_from]. destruct skip as [|k]; [|apply IH; assumption].
    destruct (sep prev (String c t)) as [|k].
    + apply IH; [exact Ht|]. cbn [forallb_string]. rewrite Hc. exact Hcur.
    + constructor; [rewrite forallb_string_rev; exact Hcur|].
      apply IH; [exact Ht|reflexivity].
Qed.

Lemma trim_whitespace (s : string) :
  forallb_string isWhiteSpace s = true -> trim s = "".
Proof.
  intros H. unfold trim, trimStart.
  rewrite (span_length_all _ _ H), drop_all. reflexivity.
Qed.

Lemma filter_trimmed_whitespace (l : list string) :
  Forall (fun x => forallb_string isWhiteSpace x = true) l ->
  filter (fun s => (0 <? length (trim s))%nat) l = [].
Proof.
  induction 1 as [|x l Hx _ IH]; [reflexivity|].
  cbn [filter]. rewrite (trim_whitespace x Hx). exact IH.
Qed.

(** All the fields of the metrics. *)
Lemma analyzeScript_fields (h : Host) (script : string) (keywords : list string) :
  exists counted : nat * list (string * nat),
    foldM (countKeyword h script) keywords (0, []) = Ok counted /\
    analyzeScript h script keywords
    = Ok {| wordCount := List.length (words_of script);
            sentenceCount := List.length (sentences_of script);
            paragraphCount := List.length (paragraphs_of script);
            averageSentenceLength :=
              Math_round (div (of_nat (List.length (words_of script)))
                              (of_nat (List.length (sentences_of script))));
            estimatedDuration :=
              toString (Math_ceil (div (of_nat (List.length (words_of script))) (of_Z 150)))
              ++ " minutes";
            keywordsFound := List.length (JSObject.keys (snd counted));
            keywordOccurrences := snd counted;
            totalKeywordMentions := fst counted;
            keywordDensity :=
              toFixed 2 (mul (div (of_nat (fst counted))
                                  (of_nat (List.length (words_of script)))) (of_Z 100));
            engagementElements :=
              {| hasQuestion := includes "?" script;
                 hasCallToAction := test_words_ci callToAction4 script;
                 hasHook := match sentences_of script with
                            | s :: _ => (length s <? 100)%nat
                            | [] => false
                            end;
                 questionCount := count_char (Ascii.eqb "?") script |};
            readabilityScore := calculateReadability script |}.
Proof.
  unfold analyzeScript.
  destruct (foldM_returns (countKeyword h script) keywords) with (a := (0, @nil (string * nat)))
    as [counted Hc].
  - apply Forall_forall. intros k _ acc. apply countKeyword_returns.
  - exists counted. rewrite Hc. split; reflexivity.
Qed.

(** X2: for a script of white space (the empty script included) the
    metrics count no word, no sentence and no paragraph; the divisions by
    these counts give NaN: the average sentence length and the readability
    score are NaN, the level is "very difficult", the duration is
    "0 minutes", and no hook is seen. *)
Theorem X2_metrics_of_whitespace (h : Host) (script : string) (keywords : list string) :
  forallb_string isWhiteSpace script = true ->
  exists m,
    analyzeScript h script keywords = Ok m /\
    wordCount m = 0 /\ sentenceCount m = 0 /\ paragraphCount m = 0 /\
    averageSentenceLength m = NaN /\
    estimatedDuration m = "0 minutes" /\
    hasHook (engagementElements m) = false /\
    readabilityScore m = {| score := NaN; level := "very difficult" |}.
Proof.
  intros H.
  assert (Hw : words_of script = []) by exact (words_of_whitespace script H).
  assert (Hs : sentences_of script = []).
  { unfold sentences_of, split. apply filter_trimmed_whitespace.
    apply split_pieces_of; [exact H|reflexivity]. }
  assert (Hp : paragraphs_of script = []).
  { unfold paragraphs_of, split. apply filter_trimmed_whitespace.
    apply split_pieces_of; [exact H|reflexivity]. }
  destruct (analyzeScript_fields h script keywords) as [counted [_ Ha]].
  eexists. split; [exact Ha|].
  cbn [wordCount sentenceCount paragraphCount averageSentenceLength estimatedDuration
       engagementElements hasHook readabilityScore].
  unfold calculateReadability, readabilityRawScore.
  rewrite Hw, Hs, Hp. repeat split; reflexivity.
Qed.

Lemma X2_witness :
  exists m,
    analyzeScript sampleHost "   " ["gardening"] = Ok m /\
    wordCount m = 0 /\ sentenceCount m = 0 /\ paragraphCount m = 0 /\
    averageSentenceLength m = NaN /\
    estimatedDuration m = "0 minutes" /\
    hasHook (engagementElements m) = false /\
    readabilityScore m = {| score := NaN; level := "very difficult" |}.
Proof.
  apply (X2_metrics_of_whitespace sampleHost "   " ["gardening"]). reflexivity.
Defined.

(** ** Keyword occurrences (lines 293-305, 321-324) *)

Lemma own_get_None {A : Type} (o : list (string * A)) (k : string) :
  own_get o k = None <-> ~ In k (keys o).
Proof.
  unfold keys. induction o as [|[k0 a0] o IH]; cbn [own_get map In fst].
  - tauto.
  - destruct (String.eqb_spec k k0) as [->|Hk].
    + split; [discriminate|]. intros H. exfalso. apply H. left. reflexivity.
    + rewrite IH. split; [intros H [E|E]; [congruence|exact (H E)]|tauto].
Qed.

Lemma own_get_own_update {A : Type} (o : list (string * A)) (k k' : string) (a : A) :
  own_get o k <> None ->
  own_get (own_update o k a) k' = if k' =? k then Some a else own_get o k'.
Proof.
  induction o as [|[k0 a0] o IH]; cbn [own_update own_get]; [congruence|].
  destruct (String.eqb_spec k k0) as [->|Hk]; intros H; cbn [own_get].
  - destruct (k' =? k0); reflexivity.
  - rewrite (IH H). destruct (String.eqb_spec k' k0) as [->|Hk'].
    + destruct (String.eqb_spec k0 k) as [E|_]; [congruence|reflexivity].
    + reflexivity.
Qed.

Lemma keys_own_update {A : Type} (o : list (string * A)) (k : string) (a : A) :
  keys (own_update o k a) = keys o.
Proof.
  unfold keys. induction o as [|[k0 a0] o IH]; cbn [own_update map fst]; [reflexivity|].
  destruct (k =? k0); cbn [map fst]; [reflexivity|]. rewrite IH. reflexivity.
Qed.

Lemma own_get_app {A : Type} (o o' : list (string * A)) (k : string) :
  own_get (o ++ o') k
  = match own_get o k with Some a => Some a | None => own_get o' k end.
Proof.
  induction o as [|[k0 a0] o IH]; cbn [app own_get]; [reflexivity|].
  destruct (k =? k0); [reflexivity|exact IH].
Qed.

Lemma own_get_own_insert {A : Type} (o : list (string * A)) (k k' : string) (a : A) :
  own_get o k = None ->
  own_get (own_insert o k a) k' = if k' =? k then Some a else own_get o k'.
Proof.
  intros Hk. unfold own_insert. destruct (arrayIndex k) as [n|].
  - induction o as [|[k0 a0] o IH]; cbn [own_insert_index own_get]; [reflexivity|].
    cbn [own_get] in Hk. destruct (String.eqb_spec k k0) as [->|Hk0]; [discriminate|].
    destruct (arrayIndex k0) as [n0|]; [destruct (n <? n0)%N|]; cbn [own_get];
      try reflexivity.
    rewrite (IH Hk). destruct (String.eqb_spec k' k0) as [->|_]; [|reflexivity].
    destruct (String.eqb_spec k0 k) as [E|_]; [congruence|reflexivity].
  - rewrite own_get_app. cbn [own_get].
    destruct (String.eqb_spec k' k) as [->|_]; [rewrite Hk; reflexivity|].
    destruct (own_get o k'); reflexivity.
Qed.

Lemma own_get_own_set {A : Type} (o : list (string * A)) (k k' : string) (a : A) :
  own_get (own_set o k a) k' = if k' =? k then Some a else own_get o k'.
Proof.
  unfold own_set. destruct (own_get o k) eqn:Hk.
  - apply own_get_own_update. congruence.
  - apply own_get_own_insert, Hk.
Qed.

Lemma In_keys_own_insert {A : Type} (o : list (string * A)) (k x : string) (a : A) :
  In x (keys (own_insert o k a)) <-> In x (keys o) \/ x = k.
Proof.
  unfold own_insert, keys. destruct (arrayIndex k) as [n|].
  - induction o as [|[k0 a0] o IH]; cbn [own_insert_index map In fst].
    + intuition congruence.
    + destruct (arrayIndex k0) as [n0|]; [destruct (n <? n0)%N|];
        cbn [map In fst]; try rewrite IH; intuition congruence.
  - rewrite map_app, in_app_iff. cbn [map In fst]. intuition congruence.
Qed.

Lemma In_keys_own_set {A : Type} (o : list (string * A)) (k x : string) (a : A) :
  In x (keys (own_set o k a)) <-> In x (keys o) \/ x = k.
Proof.
  unfold own_set. destruct (own_get o k) eqn:Hk.
  - rewrite keys_own_update. split; [tauto|]. intros [H| ->]; [exact H|].
    destruct (in_dec string_dec k (keys o)) as [Hin|Hn]; [exact Hin|].
    apply own_get_None in Hn. congruence.
  - apply In_keys_own_insert.
Qed.

Lemma NoDup_keys_own_insert {A : Type} (o : list (string * A)) (k : string) (a : A) :
  ~ In k (keys o) -> NoDup (keys o) -> NoDup (keys (own_insert o k a)).
Proof.
  intros Hk Hnd. assert (Hin := fun x => In_keys_own_insert o k x a).
  revert Hin. unfold own_insert, keys in *. destruct (arrayIndex k) as [n|].
  - intros _. induction o as [|[k0 a0] o IH]; cbn [own_insert_index map fst].
    + constructor; [intros []|constructor].
    + cbn [map fst In] in Hk, Hnd. inversion Hnd as [|? ? Hnotin Hnd']; subst.
      destruct (arrayIndex k0) as [n0|]; [destruct (n <? n0)%N|]; cbn [map fst];
        try (constructor; [exact Hk|exact Hnd]).
      constructor; [|apply IH; [tauto|exact Hnd']].
      intros Hin.
      assert (H : In k0 (map fst o) \/ k0 = k).
      { clear -Hin. induction o as [|[k1 a1] o IH]; cbn [own_insert_index map In fst] in *.
        - intuition congruence.
        - destruct (arrayIndex k1) as [n1|]; [destruct (n <? n1)%N|];
            cbn [map In fst] in Hin; intuition congruence. }
      destruct H as [H|H]; [exact (Hnotin H)|]. apply Hk. left. congruence.
  - intros _. rewrite map_app. cbn [map fst].
    apply NoDup_rev in Hnd. rewrite <- (rev_involutive (map fst o ++ [k])).
    apply NoDup_rev. rewrite rev_app_distr. cbn [rev app].
    constructor; [rewrite <- in_rev; exact Hk|exact Hnd].
Qed.

Lemma NoDup_keys_own_set {A : Type} (o : list (string * A)) (k : string) (a : A) :
  NoDup (keys o) -> NoDup (keys (own_set o k a)).
Proof.
  unfold own_set. destruct (own_get o k) eqn:Hk.
  - rewrite keys_own_update. tauto.
  - apply NoDup_keys_own_insert, own_get_None, Hk.
Qed.

Lemma length_keys_own_set {A : Type} (o : list (string * A)) (k : string) (a : A) :
  List.length (keys (own_set o k a)) <= S (List.length (keys o)).
Proof.
  unfold own_set. destruct (own_get o k).
  - rewrite keys_own_update. lia.
  - unfold own_insert, keys. destruct (arrayIndex k) as [n|].
    + induction o as [|[k0 a0] o IH]; cbn [own_insert_index map List.length]; [lia|].
      destruct (arrayIndex k0) as [n0|]; [destruct (n <? n0)%N|];
        cbn [map List.length] in *; lia.
    + rewrite map_app, length_app. cbn. lia.
Qed.

(** One pass of the loop over the keywords, without the exception that
    never comes. *)
Lemma countKeyword_value (h : Host) (script : string)
  (acc : nat * list (string * nat)) (keyword : string) :
  countKeyword h script acc keyword
  = Ok (if (0 <? count_literal keyword script)%nat
        then (fst acc + count_literal keyword script,
              JSObject.set (snd acc) keyword (count_literal keyword script))
        else acc).
Proof.
  unfold countKeyword. rewrite RegExp_gi_escape. cbn [bind].
  destruct (0 <? count_literal keyword script)%nat; reflexivity.
Qed.

(** What the loop keeps: the sum of the counts, and a table that holds,
    for the keywords met and found, their counts. *)
Lemma countKeywords_invariant (h : Host) (script : string) (keywords : list string) :
  forall acc res,
    foldM (countKeyword h script) keywords acc = Ok res ->
    fst res = fst acc + sumMatches script keywords /\
    (forall k n, own_get (snd res) k = Some n ->
       own_get (snd acc) k = Some n \/
       (In k keywords /\ k <> "__proto__" /\ n = count_literal k script /\ 0 < n)) /\
    (forall k,
       own_get (snd acc) k = Some (count_literal k script) \/
       (In k keywords /\ k <> "__proto__" /\ 0 < count_literal k script) ->
       own_get (snd res) k = Some (count_literal k script)) /\
    (NoDup (keys (snd acc)) -> NoDup (keys (snd res))) /\
    List.length (keys (snd res)) <= List.length (keys (snd acc)) + List.length keywords.
Proof.
  unfold sumMatches, list_sum.
  induction keywords as [|kw keywords IH]; intros acc res H.
  - cbn [foldM] in H. injection H as <-. cbn [map fold_right List.length In].
    split; [lia|]. split; [intros k n Hk; left; exact Hk|].
    split; [intros k [Hk|[[] _]]; exact Hk|]. split; [tauto|lia].
  - cbn [foldM] in H. rewrite countKeyword_value in H. cbn [bind] in H.
    apply IH in H as (H1 & H2 & H3 & H4 & H5). clear IH.
    cbn [map fold_right List.length In].
    destruct (Nat.ltb_spec 0 (count_literal kw script)) as [Hpos|Hzero];
      cbn [fst snd] in *.
    + unfold JSObject.set in *.
      destruct (String.eqb_spec kw "__proto__") as [Hproto|Hproto].
      * split; [lia|]. split; [|split; [|split; [exact H4|lia]]].
        -- intros k n Hk. destruct (H2 k n Hk) as [Ha|Hb]; [left; exact Ha|].
           right. tauto.
        -- intros k [Ha|(Hin & Hnp & Hc)]; [apply H3; left; exact Ha|].
           apply H3. destruct Hin as [->|Hin]; [congruence|]. right. tauto.
      * split; [lia|]. split; [|split; [|split]].
        -- intros k n Hk. destruct (H2 k n Hk) as [Ha|Hb]; [|right; tauto].
           rewrite own_get_own_set in Ha.
           destruct (String.eqb_spec k kw) as [->|Hne]; [|left; exact Ha].
           injection Ha as <-. right. tauto.
        -- intros k Hk. apply H3. rewrite own_get_own_set.
           destruct (String.eqb_spec k kw) as [->|Hne]; [left; reflexivity|].
           destruct Hk as [Ha|(Hin & Hnp & Hc)]; [left; exact Ha|].
           destruct Hin as [Heq|Hin]; [congruence|]. right. tauto.
        -- intros Hnd. apply H4, NoDup_keys_own_set, Hnd.
        -- pose proof (length_keys_own_set (snd acc) kw (count_literal kw script)). lia.
    + split; [lia|]. split; [|split; [|split; [exact H4|lia]]].
      * intros k n Hk. destruct (H2 k n Hk) as [Ha|Hb]; [left; exact Ha|right; tauto].
      * intros k [Ha|(Hin & Hnp & Hc)]; [apply H3; left; exact Ha|].
        apply H3. destruct Hin as [->|Hin]; [lia|]. right. tauto.
Qed.

(** X3: the metrics return for every script and every list of keywords,
    whatever characters the keywords hold: each keyword is escaped and so
    matched as plain text.  The total of mentions is the sum, over the
    list, of the matches of each keyword as text, a keyword listed twice
    being counted twice. *)
Theorem X3_mentions_are_text_matches (h : Host) (script : string) (keywords : list string) :
  exists m,
    analyzeScript h script keywords = Ok m /\
    totalKeywordMentions m = sumMatches script keywords.
Proof.
  destruct (analyzeScript_fields h script keywords) as [counted [Hc Ha]].
  eexists. split; [exact Ha|]. cbn [totalKeywordMentions].
  apply countKeywords_invariant in Hc as [H _]. exact H.
Qed.

(** X4: the table of occurrences holds exactly the keywords of the list
    that are found in the script, each once, with its number of matches;
    a keyword that is not found has no entry, and the keyword "__proto__"
    never has one (the assignment sets no property).  [keywordsFound] is
    the number of entries, at most the number of keywords. *)
Theorem X4_occurrences_table (h : Host) (script : string) (keywords : list string) :
  exists m,
    analyzeScript h script keywords = Ok m /\
    (forall k n,
       own_get (keywordOccurrences m) k = Some n <->
       In k keywords /\ k <> "__proto__" /\ n = count_literal k script /\ 0 < n) /\
    NoDup (keys (keywordOccurrences m)) /\
    keywordsFound m = List.length (keys (keywordOccurrences m)) /\
    keywordsFound m <= List.length keywords.
Proof.
  destruct (analyzeScript_fields h script keywords) as [counted [Hc Ha]].
  eexists. split; [exact Ha|]. cbn [keywordOccurrences keywordsFound].
  apply countKeywords_invariant in Hc as (_ & H2 & H3 & H4 & H5). cbn [fst snd] in *.
  split; [|split; [apply H4; constructor|split; [reflexivity|exact H5]]].
  intros k n. split.
  - intros Hk. destruct (H2 k n Hk) as [Ha'|Hb]; [discriminate|exact Hb].
  - intros (Hin & Hnp & -> & Hpos). apply H3. right. tauto.
Qed.

(** ** Syllables (lines 355-372) *)

Lemma toLowerChar_idempotent (c : ascii) : toLowerChar (toLowerChar c) = toLowerChar c.
Proof. destruct c as [[] [] [] [] [] [] [] []]; reflexivity. Qed.

Lemma toLowerChar_letter (c : ascii) : isLowerAZ c = true -> toLowerChar c = c.
Proof. destruct c as [[] [] [] [] [] [] [] []]; intros H; try reflexivity; discriminate H. Qed.

Lemma toLowerCase_idempotent (s : string) : toLowerCase (toLowerCase s) = toLowerCase s.
Proof.
  unfold toLowerCase. induction s as [|c s IH]; [reflexivity|].
  cbn [map_string]. rewrite toLowerChar_idempotent, IH. reflexivity.
Qed.

Lemma toLowerCase_letters (s : string) :
  forallb_string isLowerAZ s = true -> toLowerCase s = s.
Proof.
  unfold toLowerCase. induction s as [|c s IH]; [reflexivity|].
  cbn [forallb_string map_string]. intros H. apply andb_true_iff in H as [Hc Hs].
  rewrite (toLowerChar_letter c Hc), (IH Hs). reflexivity.
Qed.

Lemma toLowerCase_append (a b : string) :
  toLowerCase (a ++ b) = toLowerCase a ++ toLowerCase b.
Proof.
  unfold toLowerCase. induction a as [|c a IH]; [reflexivity|].
  cbn [append map_string]. rewrite IH. reflexivity.
Qed.

(** X5: the syllable count is at least 1, and it is the count of the
    lower-cased word and of the letters a to z that the lower-cased word
    holds: only the code units that lower-case to one of a to z are read.
    So putting into a word, at any place, a code unit that does not
    lower-case to one of them (among the code units below 256 that strings
    hold here: a digit, a punctuation mark, white space, an accented
    letter) does not change the count. *)
Theorem X5_syllables_read_letters_only (word : string) :
  (1 <= countSyllables word)%Z /\
  countSyllables (toLowerCase word) = countSyllables word /\
  countSyllables (filter_string isLowerAZ (toLowerCase word)) = countSyllables word /\
  (forall (before after : string) (c : ascii),
     word = before ++ after ->
     isLowerAZ (toLowerChar c) = false ->
     countSyllables (before ++ String c after) = countSyllables word).
Proof.
  split; [|split; [|split]].
  - unfold countSyllables.
    destruct (length (filter_string isLowerAZ (toLowerCase word)) <=? 3)%nat; lia.
  - unfold countSyllables. rewrite toLowerCase_idempotent. reflexivity.
  - unfold countSyllables.
    rewrite (toLowerCase_letters (filter_string isLowerAZ (toLowerCase word)))
      by apply forallb_filter_string.
    rewrite (filter_string_all isLowerAZ (filter_string isLowerAZ (toLowerCase word)))
      by apply forallb_filter_string.
    reflexivity.
  - intros before after c -> Hc. unfold countSyllables.
    rewrite !toLowerCase_append, !filter_string_append.
    change (toLowerCase (String c after))
      with (String (toLowerChar c) (toLowerCase after)).
    cbn [filter_string]. rewrite Hc. reflexivity.
Qed.

(** ** The order of the suggestions (lines 374-454) *)

Lemma hasChange_nil (t : string) : hasChange t [] = false.
Proof. reflexivity. Qed.

Lemma map_push_if {A B : Type} (f : A -> B) (b : bool) (c : A) (l : list A) :
  map f (push_if b c l) = push_if b (f c) (map f l).
Proof. unfold push_if. destruct b; [apply map_app|reflexivity]. Qed.

(** The engagement point and the engagement suggestion go with the
    missing "?". *)
Lemma engagement_goes_with_question (h : Host) (script : string)
  (keywords : list string) (style level : string) (opts : Optimizations) :
  generateOptimizations h script keywords style level = Ok opts ->
  List.length (engagementPoints opts) = (if includes "?" script then 0 else 1) /\
  hasChange "engagement" (changes opts) = negb (includes "?" script).
Proof.
  unfold generateOptimizations.
  destruct (keywordMentions h script keywords) as [mentions|e]; [|discriminate].
  cbn [bind]. intros H. injection H as <-. cbn [changes engagementPoints].
  split.
  - destruct (includes "?" script); reflexivity.
  - rewrite !hasChange_push_if. eval_type_tests.
    rewrite !andb_false_r, !orb_false_r, andb_true_r. reflexivity.
Qed.

(** X6: the suggestions of the planner come in one fixed order, each type
    at most once: keyword_insertion, engagement, cta, keyword_density,
    hook, structure. *)
Theorem X6_suggestions_in_fixed_order (h : Host) (script : string)
  (keywords : list string) (style level : string) (opts : Optimizations) :
  generateOptimizations h script keywords style level = Ok opts ->
  subsequence (map change_type (changes opts))
    ["keyword_insertion"; "engagement"; "cta"; "keyword_density"; "hook"; "structure"]
  = true.
Proof.
  unfold generateOptimizations.
  destruct (keywordMentions h script keywords) as [mentions|e]; [|discriminate].
  cbn [bind]. intros H. injection H as <-. cbn [changes].
  rewrite !map_push_if. cbn [map change change_type].
  unfold push_if.
  repeat match goal with
  | |- context [if ?b then _ else _] => destruct b
  end; reflexivity.
Qed.

Lemma X6_witness :
  match generateOptimizations sampleHost
          "This is a basic video. It has no questions or calls to action."
          ["gardening tips"] "tutorial" "moderate" with
  | Ok opts =>
      map change_type (changes opts)
      = ["keyword_insertion"; "engagement"; "cta"; "keyword_density"; "structure"] /\
      subsequence (map change_type (changes opts))
        ["keyword_insertion"; "engagement"; "cta"; "keyword_density"; "hook"; "structure"]
      = true
  | Throw _ => False
  end.
Proof.
  destruct (generateOptimizations sampleHost
              "This is a basic video. It has no questions or calls to action."
              ["gardening tips"] "tutorial" "moderate") as [opts|e] eqn:H.
  - split; [|exact (X6_suggestions_in_fixed_order _ _ _ _ _ _ H)].
    vm_compute in H. injection H as <-. reflexivity.
  - vm_compute in H. discriminate.
Defined.

(** ** The two readings of the first sentence (lines 432-441, 461-467) *)

(** The first piece of a split is at least what was collected. *)
Lemma first_piece_grows (sep : option ascii -> string -> nat) (s : string)
  (prev : option ascii) (cur : string) :
  length cur <= length (hd "" (split_from sep prev 0 cur s)).
Proof.
  revert prev cur. induction s as [|c t IH]; intros prev cur.
  - cbn [split_from hd]. rewrite length_rev. lia.
  - cbn [split_from]. destruct (sep prev (String c t)) as [|k].
    + specialize (IH (Some c) (String c cur)). cbn [length] in IH. lia.
    + cbn [hd]. rewrite length_rev. lia.
Qed.

(** Split at every terminator: the first piece ends before the first
    terminator. *)
Lemma first_piece_at_terminator (s : string) (prev : option ascii) (cur : string) :
  length (hd "" (split_from sep_terminator prev 0 cur s))
  = length cur + span_length notTerminator s.
Proof.
  revert prev cur. induction s as [|c t IH]; intros prev cur.
  - cbn [split_from hd span_length]. rewrite length_rev. lia.
  - cbn [split_from sep_terminator span_length]. unfold notTerminator at 1.
    destruct (isTerminator c); cbn [negb hd].
    + rewrite length_rev. lia.
    + rewrite IH. cbn [length]. lia.
Qed.

(** Split at white space after a terminator: the first piece reaches at
    least the first terminator. *)
Lemma first_piece_after_terminator (s : string) (prev : option ascii) (cur : string) :
  match prev with Some p => isTerminator p = false | None => True end ->
  length cur + span_length notTerminator s
  <= length (hd "" (split_from sep_after_terminator prev 0 cur s)).
Proof.
  revert prev cur. induction s as [|c t IH]; intros prev cur Hprev.
  - cbn [split_from hd span_length]. rewrite length_rev. lia.
  - cbn [split_from].
    assert (Hsep : sep_after_terminator prev (String c t) = 0).
    { unfold sep_after_terminator. destruct prev as [p|]; [rewrite Hprev|]; reflexivity. }
    rewrite Hsep. cbn [span_length]. unfold notTerminator at 1.
    destruct (isTerminator c) eqn:Hc; cbn [negb].
    + pose proof (first_piece_grows sep_after_terminator t (Some c) (String c cur)) as H.
      cbn [length] in H. lia.
    + specialize (IH (Some c) (String c cur) Hc). cbn [length] in IH. lia.
Qed.

(** X7: the planner measures the opening up to the first of ".", "!" and
    "?"; the rewriter measures it up to the first white space that follows
    one of them, which is at least as far.  So whenever the planner
    suggests to shorten the hook and there is a primary keyword, the hook
    step of the rewriter triggers and puts a hook phrase in front. *)
Theorem X7_hook_suggestion_triggers_hook_step (h : Host) (script : string)
  (keywords : list string) (style level : string) (opts : Optimizations)
  (primaryKeyword : string) :
  generateOptimizations h script keywords style level = Ok opts ->
  hasChange "hook" (changes opts) = true ->
  nonempty primaryKeyword = true ->
  hookTriggers script (Some primaryKeyword) = true /\
  insertHook h script (Some primaryKeyword)
  = hookPhrase h ++ " " ++ primaryKeyword ++ ". " ++ script.
Proof.
  intros Hopts Hhook Hkw.
  assert (Ht : hookTriggers script (Some primaryKeyword) = true).
  { revert Hopts Hhook. unfold generateOptimizations.
    destruct (keywordMentions h script keywords) as [mentions|e]; [|discriminate].
    cbn [bind]. intros H. injection H as <-. cbn [changes].
    rewrite !hasChange_push_if. eval_type_tests.
    rewrite !andb_false_r, !orb_false_r, andb_true_r. rewrite !hasChange_nil. cbn [orb].
    intros H. apply andb_true_iff in H as [_ H]. apply Nat.ltb_lt in H.
    unfold hookTriggers. cbn [truthy]. rewrite Hkw, andb_true_r.
    apply Nat.ltb_lt. unfold split in *.
    rewrite first_piece_at_terminator in H.
    pose proof (first_piece_after_terminator script None "" I) as H'. lia. }
  split; [exact Ht|].
  unfold insertHook. rewrite Ht. rewrite !str_append_assoc. reflexivity.
Qed.

Lemma X7_witness :
  match generateOptimizations sampleHost longOpening ["gardening"] "tutorial" "moderate" with
  | Ok opts =>
      hasChange "hook" (changes opts) = true /\
      hookTriggers longOpening (Some "gardening") = true
  | Throw _ => False
  end.
Proof.
  destruct (generateOptimizations sampleHost longOpening ["gardening"] "tutorial" "moderate")
    as [opts|e] eqn:H.
  - assert (Hh : hasChange "hook" (changes opts) = true)
      by (vm_compute in H; injection H as <-; reflexivity).
    split; [exact Hh|].
    exact (proj1 (X7_hook_suggestion_triggers_hook_step sampleHost longOpening
                    ["gardening"] "tutorial" "moderate" opts "gardening" H Hh eq_refl)).
  - vm_compute in H. discriminate.
Defined.

(** ** What the rewriter leaves alone (lines 456-496) *)

(** X8: the planner and the rewriter agree on a script that needs
    nothing: when the planner, given the primary keywords, suggests no
    keyword insertion, no engagement and no call to action, and the hook
    step does not trigger, the rewriter returns the script as it is. *)
Theorem X8_nothing_suggested_nothing_rewritten (h : Host) (script : string)
  (primaryKeywords : list string) (style level : string) (opts : Optimizations) :
  generateOptimizations h script primaryKeywords style level = Ok opts ->
  hasChange "keyword_insertion" (changes opts) = false ->
  hasChange "engagement" (changes opts) = false ->
  hasChange "cta" (changes opts) = false ->
  hookTriggers script (hd_error primaryKeywords) = false ->
  applyOptimizations h script opts primaryKeywords style = script.
Proof.
  unfold generateOptimizations.
  destruct (keywordMentions h script primaryKeywords) as [mentions|e]; [|discriminate].
  cbn [bind]. intros H. injection H as <-. cbn [changes].
  rewrite !hasChange_push_if. eval_type_tests.
  rewrite !andb_false_r, !orb_false_r, !andb_true_r. rewrite !hasChange_nil. cbn [orb].
  intros Hkw Hq Hcta Hhook.
  apply negb_false_iff in Hq, Hcta.
  assert (Hcta' : test_words_ci callToAction3 script = true)
    by (unfold test_words_ci, callToAction3; cbn [existsb]; rewrite orb_false_r; exact Hcta).
  unfold applyOptimizations, insertHook. rewrite Hhook.
  assert (Hstep2 : injectKeyword (hd_error primaryKeywords) script = script).
  { unfold injectKeyword. destruct (hd_error primaryKeywords) as [kw|]; [|reflexivity].
    destruct (split sep_blank_line script) as [|p0 prest]; [reflexivity|].
    cbn [truthy hd] in Hkw.
    destruct (nonempty kw); [|reflexivity]. cbn [andb] in *.
    rewrite Hkw, andb_false_r. reflexivity. }
  rewrite Hstep2. unfold injectQuestion. rewrite Hq. cbn [negb].
  unfold appendCTA. rewrite Hcta'. reflexivity.
Qed.

Lemma X8_witness :
  match generateOptimizations sampleHost
          "Do you like gardening? First, subscribe." ["gardening"] "tutorial" "moderate" with
  | Ok opts =>
      applyOptimizations sampleHost "Do you like gardening? First, subscribe." opts
        ["gardening"] "tutorial"
      = "Do you like gardening? First, subscribe."
  | Throw _ => False
  end.
Proof.
  destruct (generateOptimizations sampleHost
              "Do you like gardening? First, subscribe." ["gardening"] "tutorial" "moderate")
    as [opts|e] eqn:H.
  - apply (X8_nothing_suggested_nothing_rewritten sampleHost _ _ "tutorial" "moderate" opts H);
      try reflexivity; vm_compute in H; injection H as <-; reflexivity.
  - vm_compute in H. discriminate.
Defined.

(** X9: the question step and the call-to-action step only insert: the
    rewritten script is the script as it stands after the hook and keyword
    steps, with the question block put in at one place or not at all, and
    the closing paragraph put at the end or not at all. *)
Theorem X9_last_steps_only_insert (h : Host) (script : string) (opts : Optimizations)
  (primaryKeywords : list string) (style : string) :
  exists before after question closing,
    applyOptimizations h script opts primaryKeywords style
    = before ++ question ++ after ++ closing /\
    before ++ after = afterKeywordStep h script primaryKeywords /\
    (question = "" \/ question = questionBlock (hd_error primaryKeywords)) /\
    (closing = "" \/ closing = closingCTA).
Proof.
  rewrite applyOptimizations_steps.
  set (t := afterKeywordStep h script primaryKeywords).
  set (kw := hd_error primaryKeywords).
  assert (Hq : exists before after question,
             injectQuestion kw t = before ++ question ++ after /\
             before ++ after = t /\ (question = "" \/ question = questionBlock kw)).
  { unfold injectQuestion.
    destruct (negb (includes "?" t)).
    - destruct (indexOf "." (length t / 2) t) as [insertPoint|].
      + exists (slice_to (insertPoint + 1) t), (slice_from (insertPoint + 1) t),
          (questionBlock kw).
        split; [reflexivity|]. split; [apply slice_rejoin|right; reflexivity].
      + exists t, "", "". rewrite !str_append_empty_r. auto.
    - exists t, "", "". rewrite !str_append_empty_r. auto. }
  destruct Hq as (before & after & question & Hq & Hba & Hquestion).
  exists before, after, question.
  unfold appendCTA. destruct (negb (test_words_ci callToAction3 (injectQuestion kw t))).
  - exists closingCTA. rewrite Hq, !str_append_assoc. auto.
  - exists "". rewrite Hq, !str_append_empty_r. auto.
Qed.

(** ** The report and its parts (lines 205-286) *)

(** A returned report, in full. *)
Lemma optimizeScript_report (h : Host) (req : Request) (rep : Report) :
  optimizeScript h req = Ok rep ->
  exists script concept a0 opts a1 ins tps,
    req_script req = Some script /\ req_concept req = Some concept /\
    analyzeScript h script (allKeywordsOf req) = Ok a0 /\
    generateOptimizations h script (allKeywordsOf req)
      (orElse (req_contentStyle req) "tutorial")
      (orElse (req_optimizationLevel req) "moderate") = Ok opts /\
    analyzeScript h
      (applyOptimizations h script opts (primaryKeywordsOf req)
         (orElse (req_contentStyle req) "tutorial"))
      (allKeywordsOf req) = Ok a1 /\
    suggestKeywordInsertions h script (primaryKeywordsOf req) (secondaryKeywordsOf req)
    = Ok ins /\
    getScriptTips (orElse (req_contentStyle req) "tutorial") = Ok tps /\
    rep = {| concept := concept;
             contentStyle := orElse (req_contentStyle req) "tutorial";
             targetDuration := orElse (req_targetDuration req) (of_Z 10);
             optimizationLevel := orElse (req_optimizationLevel req) "moderate";
             generatedAt := Date_toISOString h;
             original := {| script := script; analysis := a0 |};
             optimized :=
               {| script := applyOptimizations h script opts (primaryKeywordsOf req)
                              (orElse (req_contentStyle req) "tutorial");
                  analysis := a1 |};
             improvements :=
               {| keywordDensityChange :=
                    toFixed 2 (sub (ToNumber (keywordDensity a1))
                                   (ToNumber (keywordDensity a0)));
                  keywordsAdded :=
                    (Z.of_nat (keywordsFound a1) - Z.of_nat (keywordsFound a0))%Z;
                  engagementPointsAdded := List.length (engagementPoints opts) |};
             optimizations := changes opts;
             structureRecommendations :=
               generateStructureRecommendations script
                 (orElse (req_targetDuration req) (of_Z 10))
                 (orElse (req_contentStyle req) "tutorial");
             engagementSuggestions :=
               generateEngagementSuggestions script
                 (orElse (req_contentStyle req) "tutorial");
             keywordInsertions := ins;
             tips := tps;
             warnings := generateWarnings a1 |}.
Proof.
  unfold optimizeScript, allKeywordsOf, primaryKeywordsOf, secondaryKeywordsOf,
    longTailKeywordsOf.
  destruct (req_script req) as [script|]; [|discriminate].
  destruct (req_concept req) as [concept|];
    [|cbn [truthy negb orb]; rewrite orb_true_r; discriminate].
  cbn [truthy orElse].
  destruct (nonempty script); [|discriminate].
  destruct (nonempty concept); [|discriminate].
  cbn [negb orb].
  destruct (analyzeScript h script _) as [a0|] eqn:Ha0; [|discriminate].
  cbn [bind].
  destruct (generateOptimizations h script _ _ _) as [opts|] eqn:Ho; [|discriminate].
  cbn [bind].
  destruct (analyzeScript h (applyOptimizations _ _ _ _ _) _) as [a1|] eqn:Ha1; [|discriminate].
  cbn [bind].
  destruct (suggestKeywordInsertions _ _ _ _) as [ins|] eqn:Hi; [|discriminate].
  cbn [bind].
  destruct (getScriptTips _) as [tps|] eqn:Ht; [|discriminate].
  cbn [bind].
  intros H. injection H as <-.
  exists script, concept, a0, opts, a1, ins, tps.
  repeat split; try reflexivity; assumption.
Qed.

(** ** The rewriter keeps the words (lines 456-496) *)

Lemma split_from_not_empty (sep : option ascii -> string -> nat) (s : string)
  (prev : option ascii) (skip : nat) (cur : string) :
  0 < List.length (split_from sep prev skip cur s).
Proof.
  revert prev skip cur. induction s as [|c t IH]; intros prev skip cur.
  - cbn. lia.
  - cbn [split_from]. destruct skip as [|k]; [|apply IH].
    destruct (sep prev (String c t)); [apply IH|cbn [List.length]; lia].
Qed.

Lemma wordStarts_append (b : bool) (x y : string) :
  wordStarts b (x ++ y) = wordStarts b x + wordStarts (endsInWhiteSpace b x) y.
Proof.
  revert b. induction x as [|c x IH]; intros b; [reflexivity|].
  cbn [append wordStarts endsInWhiteSpace].
  destruct (isWhiteSpace c); rewrite IH; lia.
Qed.

Lemma endsInWhiteSpace_append (b : bool) (x y : string) :
  endsInWhiteSpace b (x ++ y) = endsInWhiteSpace (endsInWhiteSpace b x) y.
Proof.
  revert b. induction x as [|c x IH]; intros b; [reflexivity|].
  cbn [append endsInWhiteSpace]. apply IH.
Qed.

Lemma wordStarts_le (b : bool) (s : string) : wordStarts b s <= wordStarts true s.
Proof.
  destruct s as [|c t]; [reflexivity|]. cbn [wordStarts].
  destruct (isWhiteSpace c), b; lia.
Qed.

Lemma wordStarts_apart (b : bool) (s : string) :
  startsApart s = true -> wordStarts b s = wordStarts true s.
Proof.
  destruct s as [|c t]; [reflexivity|]. cbn [startsApart wordStarts].
  intros ->. reflexivity.
Qed.

Lemma wordStarts_drop (k : nat) (s : string) :
  k <= span_length isWhiteSpace s -> wordStarts true (drop k s) = wordStarts true s.
Proof.
  revert k. induction s as [|c t IH]; intros [|k]; try reflexivity.
  cbn [span_length drop wordStarts]. destruct (isWhiteSpace c); [|lia].
  intros H. apply IH. lia.
Qed.

Lemma wordStarts_white_space (b : bool) (c : ascii) (t : string) :
  isWhiteSpace c = true -> wordStarts b (String c t) = wordStarts true t.
Proof. cbn [wordStarts]. intros ->. reflexivity. Qed.

Lemma wordStarts_space (b : bool) (s : string) :
  wordStarts b (" " ++ s) = wordStarts true s.
Proof. reflexivity. Qed.

(** A string that ends inside a word holds a word. *)
Lemma wordStarts_positive (b : bool) (s : string) :
  endsInWhiteSpace b s = false -> b = true -> 1 <= wordStarts b s.
Proof.
  revert b. induction s as [|c t IH]; intros b; cbn [endsInWhiteSpace wordStarts].
  - congruence.
  - intros H ->. destruct (isWhiteSpace c); [apply IH; [exact H|reflexivity]|lia].
Qed.

(** The words are counted at their first code units. *)
Lemma words_of_split (s : string) (prev : option ascii) (skip : nat) (cur : string) :
  skip = 0 \/ cur = "" ->
  skip <= span_length isWhiteSpace s ->
  List.length (filter (fun w => (0 <? length w)%nat) (split_from sep_ws prev skip cur s))
  = (if (0 <? length cur)%nat then 1 else 0)
    + wordStarts (negb (0 <? length cur)%nat) s.
Proof.
  revert prev skip cur. induction s as [|c t IH]; intros prev skip cur Hmode Hskip.
  - cbn [split_from filter wordStarts]. rewrite length_rev.
    destruct (0 <? length cur)%nat; cbn [List.length]; lia.
  - cbn [split_from]. destruct skip as [|k].
    + change (sep_ws prev (String c t)) with (span_length isWhiteSpace (String c t)).
      destruct (span_length isWhiteSpace (String c t)) as [|k] eqn:Hspan.
      * assert (Hc : isWhiteSpace c = false).
        { cbn [span_length] in Hspan. destruct (isWhiteSpace c); [discriminate|reflexivity]. }
        rewrite (IH (Some c) 0 (String c cur)) by (try (left; reflexivity); lia).
        cbn [length wordStarts Nat.ltb Nat.leb negb]. rewrite Hc.
        destruct (length cur); cbn [negb]; lia.
      * apply span_length_head in Hspan as [Hc Hk].
        cbn [filter wordStarts]. rewrite length_rev, Hc.
        destruct (0 <? length cur)%nat; cbn [List.length];
          rewrite (IH (Some c) k "") by (try (right; reflexivity); lia);
          reflexivity.
    + destruct Hmode as [Hmode| ->]; [discriminate|].
      cbn [span_length] in Hskip. destruct (isWhiteSpace c) eqn:Hc; [|lia].
      rewrite (IH (Some c) k "") by (try (right; reflexivity); lia).
      cbn [length wordStarts Nat.ltb Nat.leb negb]. rewrite Hc. reflexivity.
Qed.

Lemma words_of_count (s : string) : List.length (words_of s) = wordStarts true s.
Proof.
  unfold words_of, split.
  rewrite words_of_split by (try (left; reflexivity); lia). reflexivity.
Qed.

(** [join] puts the separator between the pieces. *)
Lemma join_cons (sep x : string) (l : list string) :
  0 < List.length l -> join sep (x :: l) = x ++ sep ++ join sep l.
Proof. destruct l as [|y l]; [cbn; lia|reflexivity]. Qed.

Lemma drop_empty (k : nat) : drop k "" = "".
Proof. destruct k; reflexivity. Qed.

(** Splitting at [/\n\n/] and joining again with two line feeds gives the
    string back. *)
Lemma join_split_blank_line (s : string) (prev : option ascii) (skip : nat) (cur : string) :
  join (nl ++ nl) (split_from sep_blank_line prev skip cur s) = rev cur ++ drop skip s.
Proof.
  revert prev skip cur. induction s as [|c t IH]; intros prev skip cur.
  - cbn [split_from]. rewrite drop_empty. unfold join. cbn [concat].
    rewrite str_append_empty_r. reflexivity.
  - cbn [split_from]. destruct skip as [|k]; [|apply IH].
    unfold sep_blank_line at 1.
    destruct (prefix (nl ++ nl) (String c t)) eqn:Hp.
    + rewrite join_cons by apply split_from_not_empty. rewrite IH.
      cbn [drop rev rev_onto append]. f_equal.
      apply prefix_correct in Hp.
      destruct t as [|c' t']; [discriminate Hp|].
      change (String c (String c' (substring 0 0 t')) = String LF (String LF "")) in Hp.
      injection Hp as -> -> _. reflexivity.
    + rewrite IH, rev_cons, str_append_assoc. reflexivity.
Qed.

(** Splitting at the white space after a terminator and joining with one
    space keeps the words apart as they were. *)
Lemma join_split_after_terminator (s : string) (prev : option ascii) (skip : nat)
  (cur : string) (b : bool) :
  skip <= span_length isWhiteSpace s ->
  (0 < skip -> b = true /\ cur = "") ->
  wordStarts b (join " " (split_from sep_after_terminator prev skip cur s))
  = wordStarts b (rev cur ++ s).
Proof.
  revert prev skip cur b. induction s as [|c t IH]; intros prev skip cur b Hskip Hmode.
  - cbn [split_from]. unfold join. cbn [concat].
    rewrite str_append_empty_r. reflexivity.
  - cbn [split_from]. destruct skip as [|k].
    + destruct (sep_after_terminator prev (String c t)) as [|k] eqn:Hsep.
      * rewrite IH by (cbn [span_length]; lia).
        rewrite rev_cons, str_append_assoc. reflexivity.
      * assert (Hspan : span_length isWhiteSpace (String c t) = S k).
        { unfold sep_after_terminator in Hsep. destruct prev as [p|]; [|discriminate].
          destruct (isTerminator p); [exact Hsep|discriminate]. }
        apply span_length_head in Hspan as [Hc Hk].
        rewrite join_cons by apply split_from_not_empty.
        rewrite wordStarts_append, wordStarts_space.
        rewrite wordStarts_append, (wordStarts_white_space _ c t Hc).
        rewrite (IH (Some c) k "" true) by (try lia; intros _; split; reflexivity).
        reflexivity.
    + destruct (Hmode ltac:(lia)) as [-> ->]. cbn [span_length] in Hskip.
      destruct (isWhiteSpace c) eqn:Hc; [|lia].
      rewrite (IH (Some c) k "" true) by (try lia; intros _; split; reflexivity).
      change (rev "" ++ String c t) with (String c t).
      rewrite (wordStarts_white_space _ c t Hc). reflexivity.
Qed.

(** What [join] puts after the first piece does not depend on it: nothing,
    or the separator and more. *)
Lemma join_first (sep : string) (l : list string) :
  exists rest,
    (rest = "" \/ exists more, rest = sep ++ more) /\
    forall x, join sep (x :: l) = x ++ rest.
Proof.
  destruct l as [|y l].
  - exists "". split; [left; reflexivity|].
    intros x. unfold join. cbn [concat]. rewrite str_append_empty_r. reflexivity.
  - exists (sep ++ join sep (y :: l)). split; [right; eauto|]. reflexivity.
Qed.

Lemma toLowerChar_white_space (c : ascii) :
  isWhiteSpace (toLowerChar c) = isWhiteSpace c.
Proof. destruct c as [[] [] [] [] [] [] [] []]; reflexivity. Qed.

(** Lower-casing the first code unit moves no word. *)
Lemma wordStarts_lower_first (b : bool) (s rest : string) :
  wordStarts b (toLowerCase (charAt0 s) ++ slice_from 1 s ++ rest)
  = wordStarts b (s ++ rest).
Proof.
  destruct s as [|c t]; [reflexivity|].
  change (toLowerCase (charAt0 (String c t)) ++ slice_from 1 (String c t) ++ rest)
    with (String (toLowerChar c) (t ++ rest)).
  cbn [append wordStarts]. rewrite toLowerChar_white_space. reflexivity.
Qed.

(** Each step of the rewriter leaves the script as it is or adds a
    word. *)
Lemma insertHook_adds_words (h : Host) (script : string) (primaryKeyword : option string) :
  insertHook h script primaryKeyword = script \/
  wordStarts true script < wordStarts true (insertHook h script primaryKeyword).
Proof.
  unfold insertHook. destruct (hookTriggers script primaryKeyword); [right|left; reflexivity].
  set (k := match primaryKeyword with Some k => k | None => "" end).
  rewrite wordStarts_append, !endsInWhiteSpace_append.
  change (endsInWhiteSpace _ ". ") with true.
  rewrite (wordStarts_append true (hookPhrase h)), wordStarts_space.
  rewrite (wordStarts_append true k).
  destruct (endsInWhiteSpace true k) eqn:Hk.
  - change (wordStarts true ". ") with 1. lia.
  - pose proof (wordStarts_positive true k Hk eq_refl). lia.
Qed.

Lemma injectKeyword_adds_words (primaryKeyword : option string) (script : string) :
  injectKeyword primaryKeyword script = script \/
  wordStarts true script < wordStarts true (injectKeyword primaryKeyword script).
Proof.
  unfold injectKeyword.
  destruct primaryKeyword as [kw|]; [|left; reflexivity].
  destruct (split sep_blank_line script) as [|p0 prest] eqn:Hparagraphs; [left; reflexivity|].
  destruct (nonempty kw && nonempty p0 && negb (includes (toLowerCase kw) (toLowerCase p0)));
    [|left; reflexivity].
  destruct (split sep_after_terminator p0) as [|s0 [|s1 srest]] eqn:Hsentences;
    try (left; reflexivity).
  right.
  pose proof (join_split_blank_line script None 0 "") as Hscript.
  fold (split sep_blank_line script) in Hscript. rewrite Hparagraphs in Hscript.
  change (rev "" ++ drop 0 script) with script in Hscript.
  rewrite <- Hscript at 1.
  destruct (join_first (nl ++ nl) prest) as (rest & Hrest & Hjoin).
  rewrite !Hjoin, !wordStarts_append.
  assert (Happart : forall b, wordStarts b rest = wordStarts true rest).
  { intros b. apply wordStarts_apart. destruct Hrest as [->|[more ->]]; reflexivity. }
  rewrite !Happart.
  pose proof (join_split_after_terminator p0 None 0 "" true (Nat.le_0_l _)) as Hp0.
  fold (split sep_after_terminator p0) in Hp0. rewrite Hsentences in Hp0.
  change (rev "" ++ p0) with p0 in Hp0.
  rewrite <- Hp0 by (intros H; inversion H).
  rewrite !(join_cons " " s0) by (cbn [List.length]; lia).
  destruct (join_first " " srest) as (rest2 & _ & Hjoin2).
  rewrite !Hjoin2, !(wordStarts_append true s0), !wordStarts_space.
  rewrite !str_append_assoc.
  rewrite (wordStarts_append true "When it comes to ").
  change (endsInWhiteSpace true "When it comes to ") with true.
  change (wordStarts true "When it comes to ") with 4.
  rewrite (wordStarts_append true kw), (wordStarts_append _ ", ").
  change (endsInWhiteSpace (endsInWhiteSpace true kw) ", ") with true.
  rewrite wordStarts_lower_first.
  rewrite (Happart (endsInWhiteSpace true _)). lia.
Qed.

Lemma endsInWhiteSpace_nl (b : bool) : endsInWhiteSpace b nl = true.
Proof. reflexivity. Qed.

Lemma wordStarts_nl (b : bool) (s : string) : wordStarts b (nl ++ s) = wordStarts true s.
Proof. reflexivity. Qed.

Lemma questionBlock_words (primaryKeyword : option string) (b : bool) :
  startsApart (questionBlock primaryKeyword) = true /\
  endsInWhiteSpace b (questionBlock primaryKeyword) = true /\
  1 <= wordStarts true (questionBlock primaryKeyword).
Proof.
  split; [reflexivity|]. unfold questionBlock. split.
  - rewrite !endsInWhiteSpace_append. apply endsInWhiteSpace_nl.
  - rewrite !wordStarts_nl, wordStarts_append.
    assert (H : wordStarts true "What do you think about " = 5) by reflexivity.
    rewrite H. lia.
Qed.

Lemma injectQuestion_adds_words (primaryKeyword : option string) (script : string) :
  injectQuestion primaryKeyword script = script \/
  wordStarts true script < wordStarts true (injectQuestion primaryKeyword script).
Proof.
  unfold injectQuestion.
  destruct (negb (includes "?" script)); [|left; reflexivity].
  destruct (indexOf "." (length script / 2) script) as [insertPoint|]; [|left; reflexivity].
  right.
  rewrite <- (slice_rejoin (insertPoint + 1) script) at 1.
  destruct (questionBlock_words primaryKeyword
              (endsInWhiteSpace true (slice_to (insertPoint + 1) script)))
    as (Hstart & _ & Hwords).
  rewrite !wordStarts_append.
  destruct (questionBlock_words primaryKeyword
              (endsInWhiteSpace true (slice_to (insertPoint + 1) script)))
    as (_ & -> & _).
  rewrite (wordStarts_apart _ _ Hstart).
  pose proof (wordStarts_le
                (endsInWhiteSpace true (slice_to (insertPoint + 1) script))
                (slice_from (insertPoint + 1) script)).
  lia.
Qed.

Lemma appendCTA_adds_words (script : string) :
  appendCTA script = script \/
  wordStarts true script < wordStarts true (appendCTA script).
Proof.
  unfold appendCTA. destruct (negb (test_words_ci callToAction3 script));
    [right|left; reflexivity].
  rewrite wordStarts_append.
  rewrite (wordStarts_apart _ closingCTA eq_refl).
  change (wordStarts true closingCTA) with 18. lia.
Qed.

Lemma applyOptimizations_adds_words (h : Host) (script : string) (opts : Optimizations)
  (primaryKeywords : list string) (style : string) :
  applyOptimizations h script opts primaryKeywords style = script \/
  wordStarts true script
  < wordStarts true (applyOptimizations h script opts primaryKeywords style).
Proof.
  unfold applyOptimizations.
  set (kw := hd_error primaryKeywords).
  destruct (insertHook_adds_words h script kw) as [H1|H1];
    destruct (injectKeyword_adds_words kw (insertHook h script kw)) as [H2|H2];
    destruct (injectQuestion_adds_words kw (injectKeyword kw (insertHook h script kw)))
      as [H3|H3];
    destruct (appendCTA_adds_words
                (injectQuestion kw (injectKeyword kw (insertHook h script kw))))
      as [H4|H4];
    try (left; congruence);
    right;
    repeat match goal with
    | H : _ = _ |- _ => rewrite H in *
    end; lia.
Qed.

(** X10: the rewriter removes no word.  The rewritten script is the
    script as given, or it has more words than the script: each of the
    four steps leaves the script as it is or adds at least one word (the
    keyword step may replace white space between sentences by one space
    and lower-case a letter, the question block may cut a word in two).  So
    in a returned report the optimized script and its metrics are those of
    the original, or [wordCount] has grown. *)
Theorem X10_rewriter_adds_words (h : Host) :
  (forall (script : string) (opts : Optimizations) (primaryKeywords : list string)
          (style : string),
     let optimizedScript := applyOptimizations h script opts primaryKeywords style in
     optimizedScript = script \/
     List.length (words_of script) < List.length (words_of optimizedScript)) /\
  (forall (req : Request) (rep : Report),
     optimizeScript h req = Ok rep ->
     optimized rep = original rep \/
     wordCount (analysis (original rep)) < wordCount (analysis (optimized rep))).
Proof.
  split.
  - intros script opts primaryKeywords style optimizedScript. subst optimizedScript.
    rewrite !words_of_count. apply applyOptimizations_adds_words.
  - intros req rep H.
    destruct (optimizeScript_report h req rep H)
      as (scr & con & a0 & opts & a1 & ins & tps
          & _ & _ & Ha0 & _ & Ha1 & _ & _ & ->).
    cbn [original optimized analysis].
    destruct (applyOptimizations_adds_words h scr opts (primaryKeywordsOf req)
                (orElse (req_contentStyle req) "tutorial")) as [Hsame|Hmore].
    + left. rewrite Hsame in Ha1 |- *. rewrite Ha0 in Ha1. injection Ha1 as <-.
      reflexivity.
    + right.
      destruct (analyzeScript_fields h scr (allKeywordsOf req)) as [c0 [_ H0]].
      rewrite H0 in Ha0. injection Ha0 as <-.
      match type of Ha1 with
      | analyzeScript h ?s ?k = _ =>
          destruct (analyzeScript_fields h s k) as [c1 [_ H1]]
      end.
      rewrite H1 in Ha1. injection Ha1 as <-.
      cbn [wordCount]. rewrite !words_of_count. exact Hmore.
Qed.

Lemma X10_witness :
  match optimizeScript sampleHost (plainRequest "Hello world." "gardening") with
  | Ok rep =>
      wordCount (analysis (original rep)) = 2 /\
      wordCount (analysis (original rep)) < wordCount (analysis (optimized rep))
  | Throw _ => False
  end.
Proof.
  destruct (optimizeScript sampleHost (plainRequest "Hello world." "gardening"))
    as [rep|e] eqn:H.
  - destruct (proj2 (X10_rewriter_adds_words sampleHost) _ rep H) as [Hsame|Hmore].
    + exfalso. apply (f_equal script) in Hsame. revert Hsame.
      vm_compute in H. injection H as <-. discriminate.
    + split; [|exact Hmore]. vm_compute in H. injection H as <-. reflexivity.
  - vm_compute in H. discriminate.
Defined.

(** X11: the report counts one engagement point added exactly when the
    original script has no "?", and then lists the engagement suggestion;
    the count does not look at the rewritten script.  The flag
    [hasQuestion] of the original metrics and their [questionCount] agree. *)
Theorem X11_engagement_points (h : Host) (req : Request) (rep : Report) :
  optimizeScript h req = Ok rep ->
  let m := analysis (original rep) in
  hasQuestion (engagementElements m) = (0 <? questionCount (engagementElements m))%nat /\
  engagementPointsAdded (improvements rep)
  = (if hasQuestion (engagementElements m) then 0 else 1) /\
  hasChange "engagement" (optimizations rep) = negb (hasQuestion (engagementElements m)).
Proof.
  intros H.
  destruct (optimizeScript_report h req rep H)
    as (scr & con & a0 & opts & a1 & ins & tps
        & Hs & Hc & Ha0 & Ho & Ha1 & _ & _ & ->).
  cbn [original analysis improvements engagementPointsAdded optimizations].
  destruct (analyzeScript_fields h scr (allKeywordsOf req)) as [counted [_ Ha]].
  rewrite Ha in Ha0. injection Ha0 as <-.
  cbn [engagementElements hasQuestion questionCount].
  destruct (engagement_goes_with_question h scr (allKeywordsOf req) _ _ opts Ho) as [Hlen Hch].
  split; [|split; [exact Hlen|exact Hch]].
  clear. unfold includes. induction scr as [|c s IH]; [reflexivity|].
  rewrite occurs_cons, IH. cbn [matches_at count_char].
  destruct (Ascii.eqb "?" c); reflexivity.
Qed.

Lemma X11_witness :
  match optimizeScript sampleHost (plainRequest "x. bcdefgh" "x") with
  | Ok rep =>
      engagementPointsAdded (improvements rep) = 1 /\
      hasQuestion (engagementElements (analysis (optimized rep))) = false
  | Throw _ => False
  end.
Proof.
  destruct (optimizeScript sampleHost (plainRequest "x. bcdefgh" "x")) as [rep|e] eqn:H.
  - destruct (X11_engagement_points sampleHost _ rep H) as (_ & Hp & _).
    rewrite Hp. vm_compute in H. injection H as <-. split; reflexivity.
  - vm_compute in H. discriminate.
Defined.

(** ** The exceptions of [optimizeScript] (lines 205-286, 416-420, 643) *)

Lemma foldM_throws_at {A B : Type} (f : A -> B -> result A) (e : exception) (l : list B) :
  (forall a b, (exists a', f a b = Ok a') \/ f a b = Throw e) ->
  (exists b, In b l /\ forall a, f a b = Throw e) ->
  forall a, foldM f l a = Throw e.
Proof.
  intros Hf. induction l as [|b l IH]; intros [b0 [Hin Hb0]] a; [destruct Hin|].
  cbn [foldM]. destruct (Hf a b) as [[a' Ha']|Ha']; rewrite Ha'; cbn [bind]; [|reflexivity].
  destruct Hin as [->|Hin]; [rewrite Hb0 in Ha'; discriminate|].
  apply IH. exists b0. split; assumption.
Qed.

Lemma addMentions_cases (h : Host) (script : string) (count : nat) (kw : string) :
  (exists n, addMentions h script count kw = Ok n) \/
  addMentions h script count kw = Throw SyntaxError.
Proof.
  unfold addMentions. destruct (RegExp_gi h kw) as [m|e] eqn:Hm; cbn [bind].
  - left. eexists. reflexivity.
  - right. rewrite (RegExp_gi_throws h kw e Hm). reflexivity.
Qed.

(** The planner throws when a keyword is no pattern. *)
Lemma generateOptimizations_ill_formed (h : Host) (script : string)
  (keywords : list string) (style level : string) :
  forallb (wellFormed h) keywords = false ->
  generateOptimizations h script keywords style level = Throw SyntaxError.
Proof.
  intros H. unfold generateOptimizations, keywordMentions.
  rewrite (foldM_throws_at (addMentions h script) SyntaxError keywords); [reflexivity| |].
  - intros a b. apply addMentions_cases.
  - assert (Hex : exists kw, In kw keywords /\ wellFormed h kw = false).
    { clear -H. induction keywords as [|k l IH]; [discriminate|].
      cbn [forallb] in H. destruct (wellFormed h k) eqn:Hk.
      - destruct (IH H) as [kw [Hin Hkw]]. exists kw. split; [right; exact Hin|exact Hkw].
      - exists k. split; [left; reflexivity|exact Hk]. }
    destruct Hex as [kw [Hin Hkw]]. exists kw. split; [exact Hin|].
    intros a. unfold addMentions. unfold wellFormed in Hkw.
    destruct (RegExp_gi h kw) as [m|e] eqn:Hm; [discriminate|]. cbn [bind].
    rewrite (RegExp_gi_throws h kw e Hm). reflexivity.
Qed.

Lemma Forall_forallb_wellFormed (h : Host) (l : list string) :
  forallb (wellFormed h) l = true <-> Forall (fun kw => wellFormed h kw = true) l.
Proof. rewrite forallb_forall, Forall_forall. reflexivity. Qed.

Lemma own_style_not_inherited (style : string) (tps : list string) :
  own_get styleTips style = Some tps -> inherited style = false.
Proof.
  unfold styleTips. cbn [own_get]. intros Hown.
  repeat match type of Hown with
  | (if String.eqb ?a ?b then _ else _) = _ =>
      destruct (String.eqb_spec a b) as [->|_]; [reflexivity|]
  end.
  discriminate.
Qed.

(** What [optimizeScript] does, by cases on the request. *)
Lemma optimizeScript_outcome (h : Host) (req : Request) :
  if negb (truthy (req_script req) && truthy (req_concept req))
  then optimizeScript h req = Throw validationError
  else if negb (forallb (wellFormed h) (allKeywordsOf req))
  then optimizeScript h req = Throw SyntaxError
  else if inherited (orElse (req_contentStyle req) "tutorial")
  then optimizeScript h req = Throw TypeError
  else exists rep, optimizeScript h req = Ok rep.
Proof.
  destruct (truthy (req_script req)) eqn:Hs; cbn [andb negb];
    [|apply optimizeScript_refuses; left; exact Hs].
  destruct (truthy (req_concept req)) eqn:Hc; cbn [negb];
    [|apply optimizeScript_refuses; right; exact Hc].
  destruct (forallb (wellFormed h) (allKeywordsOf req)) eqn:Hk; cbn [negb].
  - apply Forall_forallb_wellFormed in Hk.
    destruct (inherited (orElse (req_contentStyle req) "tutorial")) eqn:Hst;
      [|apply optimizeScript_returns; assumption].
    unfold optimizeScript. rewrite Hs, Hc. cbn [negb orb].
    unfold allKeywordsOf, primaryKeywordsOf, secondaryKeywordsOf, longTailKeywordsOf in Hk.
    destruct (req_concept req) as [con|]; [|discriminate]. cbn [orElse] in *.
    match goal with
    | |- context [analyzeScript h ?s ?k] =>
        destruct (analyzeScript_returns h s k) as [a0 [-> _]]
    end.
    cbn [bind].
    match goal with
    | |- context [generateOptimizations h ?s ?k ?st ?lv] =>
        destruct (generateOptimizations_returns h s k st lv Hk) as [opts ->]
    end.
    cbn [bind].
    match goal with
    | |- context [analyzeScript h ?s ?k] =>
        destruct (analyzeScript_returns h s k) as [a1 [-> _]]
    end.
    cbn [bind].
    apply Forall_app in Hk as [Hp Hk]. apply Forall_app in Hk as [Hsec _].
    match goal with
    | |- context [suggestKeywordInsertions h ?s ?p ?q] =>
        destruct (suggestKeywordInsertions_returns h s p q Hp Hsec) as [ins ->]
    end.
    cbn [bind].
    unfold getScriptTips, JSObject.get.
    destruct (own_get styleTips _) as [tps|] eqn:Hown.
    + rewrite (own_style_not_inherited _ _ Hown) in Hst. discriminate.
    + rewrite Hst. reflexivity.
  - unfold optimizeScript. rewrite Hs, Hc. cbn [negb orb].
    unfold allKeywordsOf, primaryKeywordsOf, secondaryKeywordsOf, longTailKeywordsOf in Hk.
    destruct (req_concept req) as [con|]; [|discriminate]. cbn [orElse] in *.
    match goal with
    | |- context [analyzeScript h ?s ?k] =>
        destruct (analyzeScript_returns h s k) as [a0 [-> _]]
    end.
    cbn [bind].
    rewrite (generateOptimizations_ill_formed _ _ _ _ _ Hk). reflexivity.
Qed.

(** X12: the exceptions of [optimizeScript] are three, and the request
    decides which: the validation error when the script or the concept is
    missing or empty; else a SyntaxError exactly when some keyword is a
    pattern that [new RegExp] refuses; else a TypeError exactly when the
    content style names a member of [Object.prototype].  Neither the
    script nor the clock nor the random number has a part in it. *)
Theorem X12_exceptions_of_optimizeScript (h : Host) (req : Request) :
  (forall e, optimizeScript h req = Throw e ->
     e = validationError \/ e = SyntaxError \/ e = TypeError) /\
  (optimizeScript h req = Throw SyntaxError <->
   truthy (req_script req) = true /\ truthy (req_concept req) = true /\
   forallb (wellFormed h) (allKeywordsOf req) = false) /\
  (optimizeScript h req = Throw TypeError <->
   truthy (req_script req) = true /\ truthy (req_concept req) = true /\
   forallb (wellFormed h) (allKeywordsOf req) = true /\
   inherited (orElse (req_contentStyle req) "tutorial") = true).
Proof.
  pose proof (optimizeScript_outcome h req) as H.
  destruct (truthy (req_script req)), (truthy (req_concept req));
    cbn [andb negb] in H;
    try (rewrite H; split; [intros e He; injection He as <-; auto|];
         split; split; try discriminate; intros (? & ? & ?); discriminate).
  destruct (forallb (wellFormed h) (allKeywordsOf req)); cbn [negb] in H.
  - destruct (inherited (orElse (req_contentStyle req) "tutorial")).
    + rewrite H. split; [intros e He; injection He as <-; auto|].
      split; split; try discriminate; auto.
      intros (_ & _ & ?); discriminate.
    + destruct H as [rep ->]. split; [intros e He; discriminate|].
      split; split; try discriminate.
      * intros (_ & _ & ?); discriminate.
      * intros (_ & _ & _ & ?); discriminate.
  - rewrite H. split; [intros e He; injection He as <-; auto|].
    split; split; try discriminate; auto.
    intros (_ & _ & ? & _); discriminate.
Qed.

(** ** A request with no keyword at all (lines 220-223) *)

(** No mention among at least one word: the density is 0, below 1. *)
Lemma density_of_no_mention (words : nat) :
  0 < words -> lt (plannerDensity 0 words) (of_Z 1) = true.
Proof.
  intros H. unfold plannerDensity, of_nat. destruct words as [|n]; [lia|].
  rewrite Nat2Z.inj_succ, <- Zpos_P_of_succ_nat.
  change (of_Z (Z.of_nat 0)) with (S754_zero false).
  destruct (of_Z_positive (Pos.of_succ_nat n)) as [[m [e ->]]| ->]; reflexivity.
Qed.

(** [intensity >= 2] by the level: it fails for "light" and for the names
    of the members of [Object.prototype], and holds for every other
    level. *)
Lemma intensity_at_least_2 (level : string) :
  intensityAtLeast2 (intensityOf level)
  = negb (level =? "light") && negb (inherited level).
Proof.
  destruct (String.eqb_spec level "light") as [->|H1]; [reflexivity|].
  destruct (String.eqb_spec level "moderate") as [->|H2]; [reflexivity|].
  destruct (String.eqb_spec level "aggressive") as [->|H3]; [reflexivity|].
  destruct (intensityOf_values level) as (_ & _ & _ & Hother & Hinh).
  destruct (inherited level) eqn:Hi.
  - rewrite (Hinh eq_refl). reflexivity.
  - rewrite (Hother H1 H2 H3 eq_refl). reflexivity.
Qed.

(** X13: an empty list of primary keywords is not replaced by the
    concept.  When the request gives no keyword in any tier, a report is
    still returned: it finds no keyword and suggests no insertion; the
    planner sees the density 0 and makes the keyword-density suggestion
    exactly when the level is neither "light" nor the name of a member of
    [Object.prototype] (such as "constructor"); and the rewriter, having no
    primary keyword, adds no hook and no keyword and asks about "this". *)
Theorem X13_no_keyword_at_all (h : Host) (req : Request) :
  truthy (req_script req) = true ->
  truthy (req_concept req) = true ->
  allKeywordsOf req = [] ->
  inherited (orElse (req_contentStyle req) "tutorial") = false ->
  let level := orElse (req_optimizationLevel req) "moderate" in
  exists rep,
    optimizeScript h req = Ok rep /\
    keywordOccurrences (analysis (original rep)) = [] /\
    totalKeywordMentions (analysis (original rep)) = 0 /\
    keywordInsertions rep = [] /\
    hasChange "keyword_insertion" (optimizations rep) = false /\
    hasChange "keyword_density" (optimizations rep)
    = negb (level =? "light") && negb (inherited level) /\
    script (optimized rep)
    = appendCTA (injectQuestion None (script (original rep))).
Proof.
  intros Hs Hc Hk Hst level.
  destruct (optimizeScript_returns h req Hs Hc) as [rep Hrep];
    [rewrite Hk; constructor|exact Hst|].
  exists rep. split; [exact Hrep|].
  destruct (optimizeScript_report h req rep Hrep)
    as (scr & con & a0 & opts & a1 & ins & tps
        & _ & _ & Ha0 & Ho & _ & Hi & _ & ->).
  assert (Hp : primaryKeywordsOf req = [] /\ secondaryKeywordsOf req = []).
  { unfold allKeywordsOf in Hk. apply app_eq_nil in Hk as [Hp Hk].
    apply app_eq_nil in Hk as [Hsec _]. split; assumption. }
  destruct Hp as [Hp Hsec]. rewrite Hk in Ha0, Ho. rewrite Hp, Hsec in Hi.
  cbn in Hi. injection Hi as <-.
  destruct (analyzeScript_fields h scr []) as [counted [Hcount Ha]].
  cbn [foldM] in Hcount. injection Hcount as <-.
  rewrite Ha in Ha0. injection Ha0 as <-.
  cbn [original optimized analysis script keywordOccurrences totalKeywordMentions
       keywordInsertions optimizations optimizationLevel snd fst].
  split; [reflexivity|]. split; [reflexivity|]. split; [reflexivity|].
  revert Ho. unfold generateOptimizations, keywordMentions. cbn [foldM bind].
  intros Ho. injection Ho as <-. cbn [changes].
  rewrite !hasChange_push_if. eval_type_tests.
  rewrite !andb_false_r, !orb_false_r, !andb_true_r, !hasChange_nil. cbn [orb hd_error truthy andb].
  split; [reflexivity|]. split.
  - rewrite density_of_no_mention;
      [|unfold plannerWordCount, split; apply split_from_not_empty].
    cbn [andb]. apply intensity_at_least_2.
  - rewrite Hp. unfold applyOptimizations, insertHook, hookTriggers.
    cbn [hd_error truthy]. rewrite andb_false_r. reflexivity.
Qed.

Lemma X13_witness :
  exists rep,
    optimizeScript sampleHost (noKeywordsRequest "Hello world." "gardening") = Ok rep /\
    keywordOccurrences (analysis (original rep)) = [] /\
    totalKeywordMentions (analysis (original rep)) = 0 /\
    keywordInsertions rep = [] /\
    hasChange "keyword_insertion" (optimizations rep) = false /\
    hasChange "keyword_density" (optimizations rep) = true /\
    script (optimized rep)
    = appendCTA (injectQuestion None (script (original rep))).
Proof.
  apply (X13_no_keyword_at_all sampleHost (noKeywordsRequest "Hello world." "gardening"));
    reflexivity.
Defined.

(** ** Structure recommendations and tips (lines 498-535, 616-644) *)

Lemma lt_NaN_r (x : number) : lt x NaN = false.
Proof. destruct x; reflexivity. Qed.

Lemma gt_NaN_r (x : number) : gt x NaN = false.
Proof. destruct x; reflexivity. Qed.

(** X14: the structure recommendations end with the recommendation of
    sections, after at most one remark on the length ("overall").  The
    sections are those of the content style when it is one of the five
    known styles, and those of "tutorial" for any other style that names no
    member of [Object.prototype].  A target duration that is NaN draws no
    remark on the length. *)
Theorem X14_structure_recommendations (script : string) (target : number) (style : string) :
  let recs := generateStructureRecommendations script target style in
  (exists remarks,
     recs = (remarks ++
             [{| rec_section := "structure";
                 rec_issue := None;
                 rec_suggestion := "Recommended structure for " ++ style ++ ":";
                 rec_sections := Some (structureFor style) |}])%list /\
     List.length remarks <= 1 /\
     Forall (fun r => rec_section r = "overall" /\ rec_sections r = None) remarks /\
     (target = NaN -> remarks = [])) /\
  (forall names, own_get structureGuide style = Some names ->
     structureFor style = SectionList names) /\
  (own_get structureGuide style = None -> inherited style = false ->
   structureFor style = structureFor "tutorial").
Proof.
  intros recs. subst recs. unfold generateStructureRecommendations. split; [|split].
  - destruct (lt _ (mul target (of_ratio 8 10))) eqn:Hshort.
    + eexists. split; [reflexivity|]. cbn [List.length app]. split; [lia|]. split.
      * constructor; [split; reflexivity|constructor].
      * intros ->. change (mul NaN (of_ratio 8 10)) with NaN in Hshort.
        rewrite lt_NaN_r in Hshort. discriminate.
    + destruct (gt _ (mul target (of_ratio 12 10))) eqn:Hlong.
      * eexists. split; [reflexivity|]. cbn [List.length app]. split; [lia|]. split.
        -- constructor; [split; reflexivity|constructor].
        -- intros ->. change (mul NaN (of_ratio 12 10)) with NaN in Hlong.
           rewrite gt_NaN_r in Hlong. discriminate.
      * exists []. split; [reflexivity|]. cbn [List.length]. split; [lia|].
        split; [constructor|reflexivity].
  - intros names H. unfold structureFor, JSObject.get. rewrite H. reflexivity.
  - intros H Hi. unfold structureFor, JSObject.get. rewrite H, Hi. reflexivity.
Qed.

(** X15: the script tips are the five common tips, followed by the three
    tips of the style for "tutorial", "review" and "educational" and by
    nothing for any other style; a style that names a member of
    [Object.prototype] makes the function throw a TypeError, and nothing
    else does. *)
Theorem X15_script_tips (style : string) :
  (getScriptTips style = Throw TypeError <->
   own_get styleTips style = None /\ inherited style = true) /\
  (forall tips, getScriptTips style = Ok tips ->
     firstn 5 tips = commonTips /\
     (List.length tips = 8 /\
      (style = "tutorial" \/ style = "review" \/ style = "educational")
      \/ tips = commonTips /\
         style <> "tutorial" /\ style <> "review" /\ style <> "educational")).
Proof.
  unfold getScriptTips, JSObject.get. split.
  - destruct (own_get styleTips style) as [tps|].
    + split; [discriminate|intros [? _]; discriminate].
    + destruct (inherited style); split; try discriminate; auto.
      intros [_ ?]; discriminate.
  - intros tips. unfold styleTips. cbn [own_get].
    destruct (String.eqb_spec style "tutorial") as [->|H1].
    { intros H. injection H as <-. split; [reflexivity|]. left. auto. }
    destruct (String.eqb_spec style "review") as [->|H2].
    { intros H. injection H as <-. split; [reflexivity|]. left. auto. }
    destruct (String.eqb_spec style "educational") as [->|H3].
    { intros H. injection H as <-. split; [reflexivity|]. left. auto. }
    destruct (inherited style); [discriminate|].
    intros H. injection H as <-. split; [reflexivity|]. right. auto.
Qed.

(** ** Keyword insertion suggestions (lines 575-614) *)

(** One loop of [suggestKeywordInsertions]: it returns exactly when every
    keyword is accepted as a pattern, and then it has pushed, in the order
    of the list, one suggestion for each keyword matched fewer than
    [least] times. *)
Lemma suggestInsertion_loop (h : Host) (script : string) (least : nat)
  (rc : string) (locs : list string) (l : list string) :
  forall acc res,
    foldM (suggestInsertion h script least rc locs) l acc = Ok res <->
    forallb (wellFormed h) l = true /\
    res = (acc ++ map (insertionFor h script rc locs)
                    (filter (fun k => patternMatches h k script <? least)%nat l))%list.
Proof.
  induction l as [|kw l IH]; intros acc res.
  - cbn [foldM forallb filter map]. rewrite app_nil_r. split.
    + intros H. injection H as <-. split; reflexivity.
    + intros [_ ->]. reflexivity.
  - cbn [foldM forallb filter].
    assert (Hs : suggestInsertion h script least rc locs acc kw
                 = if wellFormed h kw
                   then Ok (if (patternMatches h kw script <? least)%nat
                            then acc ++ [insertionFor h script rc locs kw]
                            else acc)%list
                   else Throw SyntaxError).
    { unfold suggestInsertion, wellFormed, insertionFor, patternMatches.
      destruct (RegExp_gi h kw) as [matches|e] eqn:Hm; cbn [bind].
      - destruct (matches script <? least)%nat; reflexivity.
      - rewrite (RegExp_gi_throws h kw e Hm). reflexivity. }
    rewrite Hs. destruct (wellFormed h kw); cbn [bind andb].
    + destruct (patternMatches h kw script <? least)%nat; cbn [map];
        rewrite IH; [rewrite <- app_assoc|]; reflexivity.
    + split; [discriminate|]. intros [H _]. discriminate.
Qed.

(** X16: [suggestKeywordInsertions] returns exactly when every primary
    keyword and each of the first three secondary keywords is accepted as
    a pattern (a fourth secondary keyword is not read).  What it returns is
    then fixed: one "3-5" suggestion for each primary keyword that the
    script matches fewer than 3 times, in the order of the list, followed
    by one "1-2" suggestion for each of the first three secondary keywords
    that the script does not match; each carries the number of matches of
    its keyword, taken as a pattern. *)
Theorem X16_keyword_insertions (h : Host) (script : string)
  (primaryKeywords secondaryKeywords : list string) (ins : list KeywordInsertion) :
  suggestKeywordInsertions h script primaryKeywords secondaryKeywords = Ok ins <->
  forallb (wellFormed h) (primaryKeywords ++ firstn 3 secondaryKeywords) = true /\
  ins = (map (insertionFor h script "3-5"
                ["Opening sentence"; "Middle of content"; "Conclusion"])
           (filter (fun k => patternMatches h k script <? 3)%nat primaryKeywords)
         ++ map (insertionFor h script "1-2" ["Body content"])
              (filter (fun k => patternMatches h k script <? 1)%nat
                 (firstn 3 secondaryKeywords)))%list.
Proof.
  unfold suggestKeywordInsertions. rewrite forallb_app, andb_true_iff.
  destruct (foldM _ primaryKeywords []) as [acc|e] eqn:H1; cbn [bind].
  - apply suggestInsertion_loop in H1 as [Hp ->]. cbn [app].
    rewrite suggestInsertion_loop. rewrite Hp. tauto.
  - split; [discriminate|]. intros [[Hp _] _].
    assert (H : exists res,
               foldM (suggestInsertion h script 3 "3-5"
                        ["Opening sentence"; "Middle of content"; "Conclusion"])
                     primaryKeywords [] = Ok res).
    { eexists. apply suggestInsertion_loop. split; [exact Hp|reflexivity]. }
    destruct H as [res H]. rewrite H in H1. discriminate.
Qed.

Lemma X16_witness :
  suggestKeywordInsertions sampleHost "Hello world. Hello. Hello!"
    ["world"; "hello"] ["a"; "b"; "l"; "(d"]
  = Ok [insertionFor sampleHost "Hello world. Hello. Hello!" "3-5"
          ["Opening sentence"; "Middle of content"; "Conclusion"] "world";
        insertionFor sampleHost "Hello world. Hello. Hello!" "1-2" ["Body content"] "a";
        insertionFor sampleHost "Hello world. Hello. Hello!" "1-2" ["Body content"] "b"].
Proof.
  apply (proj2 (X16_keyword_insertions sampleHost "Hello world. Hello. Hello!"
                  ["world"; "hello"] ["a"; "b"; "l"; "(d"] _)).
  split; reflexivity.
Defined.

(** ** The request dispatch (lines 61-125, 176-203) *)

(** The [switch] of [handleRequest] by comparisons of strings. *)
Lemma method_cases {A : Type} (m : string) (a b c d : A) :
  match m with
  | "ping" => a
  | "tools/list" => b
  | "tools/call" => c
  | _ => d
  end =
  if m =? "ping" then a
  else if m =? "tools/list" then b
  else if m =? "tools/call" then c
  else d.
Proof.
  repeat (try reflexivity;
          destruct m as [|[[] [] [] [] [] [] [] []] m]; try reflexivity).
Qed.

Lemma handleRequest_cases (h : Host) (request : RpcRequest) :
  handleRequest h request =
  match rpc_method request with
  | Some m =>
      if m =? "ping" then Ok (handlePing h (rpc_id request))
      else if m =? "tools/list" then Ok (handleToolsList (rpc_id request))
      else if m =? "tools/call"
      then handleToolCall h (rpc_params request) (rpc_id request)
      else Ok {| jsonrpc := "2.0";
                 outcome := Failure (-32601) (Text ("Method not found: " ++ m));
                 resp_id := rpc_id request |}
  | None =>
      Ok {| jsonrpc := "2.0";
            outcome := Failure (-32601) (Text "Method not found: undefined");
            resp_id := rpc_id request |}
  end.
Proof.
  unfold handleRequest. destruct (rpc_method request) as [m|]; [|reflexivity].
  exact (method_cases m _ _ _ _).
Qed.

(** A tool call with [params] is always answered. *)
Lemma handleToolCall_answers (h : Host) (call : ToolCall) (id : option json) :
  exists response,
    handleToolCall h (Some call) id = Ok response /\
    jsonrpc response = "2.0" /\ resp_id response = id /\
    outcome response =
      if match call_name call with Some n => n =? "optimizeScript" | None => false end
      then match callOptimizeScript h (call_arguments call) with
           | Ok content => Result (Content content)
           | Throw error => Failure (-32603) (errorMessage error)
           end
      else Failure (-32602) (Text ("Unknown tool: " ++ printed (call_name call))).
Proof.
  unfold handleToolCall.
  destruct (match call_name call with Some n => n =? "optimizeScript" | None => false end);
    cbn [negb].
  - destruct (callOptimizeScript h (call_arguments call));
      eexists; (split; [reflexivity|]); cbn [jsonrpc resp_id outcome]; auto.
  - eexists; (split; [reflexivity|]); cbn [jsonrpc resp_id outcome]; auto.
Qed.

(** X17: [handleRequest] throws only a TypeError, and only for a
    [tools/call] request without [params]; any other request is answered
    with [jsonrpc] 2.0 and its own [id].  The answer tells the method: the
    status with the time of the clock for [ping], the tools for [tools/list],
    a report or the error -32602 or -32603 for [tools/call], and the error
    -32601 that names the method for every other method or none. *)
Theorem X17_dispatch_by_method (h : Host) (request : RpcRequest) :
  let method := rpc_method request in
  match handleRequest h request with
  | Throw e =>
      e = TypeError /\ method = Some "tools/call" /\ rpc_params request = None
  | Ok response =>
      jsonrpc response = "2.0" /\ resp_id response = rpc_id request /\
      ~ (method = Some "tools/call" /\ rpc_params request = None) /\
      match outcome response with
      | Result (PingStatus status agent version timestamp) =>
          method = Some "ping" /\ status = "ok" /\ agent = agentName /\
          version = agentVersion /\ timestamp = Date_toISOString h
      | Result (Tools tools) => method = Some "tools/list" /\ tools = [optimizeScriptTool]
      | Result (Content _) => method = Some "tools/call"
      | Failure code message =>
          if (code =? -32601)%Z
          then method <> Some "ping" /\ method <> Some "tools/list" /\
               method <> Some "tools/call" /\
               message = Text ("Method not found: " ++ printed method)
          else method = Some "tools/call" /\ (code = -32602 \/ code = -32603)%Z
      end
  end.
Proof.
  intros method. subst method. rewrite handleRequest_cases.
  destruct (rpc_method request) as [m|].
  2: { cbn. repeat split; solve [discriminate | intros [? _]; discriminate]. }
  destruct (String.eqb_spec m "ping") as [->|Hping].
  { cbn. repeat split; solve [discriminate | intros [? _]; discriminate]. }
  destruct (String.eqb_spec m "tools/list") as [->|Hlist].
  { cbn. repeat split; solve [discriminate | intros [? _]; discriminate]. }
  destruct (String.eqb_spec m "tools/call") as [->|Hcall].
  - destruct (rpc_params request) as [call|].
    + destruct (handleToolCall_answers h call (rpc_id request))
        as (response & -> & Hj & Hi & Ho).
      split; [exact Hj|]. split; [exact Hi|].
      split; [intros [_ ?]; discriminate|]. rewrite Ho.
      destruct (match call_name call with Some n => n =? "optimizeScript" | None => false end).
      * destruct (callOptimizeScript h (call_arguments call)).
        -- reflexivity.
        -- cbn. split; [reflexivity|]. right. reflexivity.
      * cbn. split; [reflexivity|]. left. reflexivity.
    + cbn. repeat split.
  - cbn [jsonrpc resp_id outcome printed]. change (-32601 =? -32601)%Z with true. cbv iota.
    repeat split; try congruence.
    intros [H _]. congruence.
Qed.

(** X18: a [tools/call] with [params] never throws: it is answered with
    [jsonrpc] 2.0 and the [id] given.  Any name but [optimizeScript], or
    none, gives the error -32602 that names it, and the arguments are not
    looked at.  For [optimizeScript] the answer is the report exactly when
    [optimizeScript] returns one; otherwise it is the error -32603, with
    the message of the validation when the script or the concept is missing
    or empty, and with the message of the TypeError or SyntaxError thrown
    otherwise (a TypeError when there are no arguments at all). *)
Theorem X18_tool_call_is_answered (h : Host) (call : ToolCall) (id : option json) :
  exists response,
    handleToolCall h (Some call) id = Ok response /\
    jsonrpc response = "2.0" /\ resp_id response = id /\
    match outcome response with
    | Result (Content content) =>
        call_name call = Some "optimizeScript" /\
        exists req, call_arguments call = Some req /\ optimizeScript h req = Ok content
    | Result _ => False
    | Failure code message =>
        (code = -32602 /\ call_name call <> Some "optimizeScript" /\
         message = Text ("Unknown tool: " ++ printed (call_name call)))%Z \/
        (code = -32603 /\ call_name call = Some "optimizeScript" /\
         match call_arguments call with
         | None => message = MessageOf TypeError
         | Some req =>
             if negb (truthy (req_script req) && truthy (req_concept req))
             then message = Text "Script and concept are required"
             else if negb (forallb (wellFormed h) (allKeywordsOf req))
             then message = MessageOf SyntaxError
             else inherited (orElse (req_contentStyle req) "tutorial") = true /\
                  message = MessageOf TypeError
         end)%Z
    end.
Proof.
  destruct (handleToolCall_answers h call id) as (response & Hr & Hj & Hi & Ho).
  exists response. split; [exact Hr|]. split; [exact Hj|]. split; [exact Hi|].
  rewrite Ho. clear Hr Hj Hi Ho.
  destruct (call_name call) as [n|].
  2: { left. split; [reflexivity|]. split; [discriminate|reflexivity]. }
  destruct (String.eqb_spec n "optimizeScript") as [->|Hn].
  2: { left. split; [reflexivity|]. split; [congruence|reflexivity]. }
  destruct (call_arguments call) as [req|]; cbn [callOptimizeScript].
  2: { right. split; [reflexivity|]. split; reflexivity. }
  pose proof (optimizeScript_outcome h req) as H.
  destruct (negb (truthy (req_script req) && truthy (req_concept req))).
  { rewrite H. right. split; [reflexivity|]. split; reflexivity. }
  destruct (negb (forallb (wellFormed h) (allKeywordsOf req))).
  { rewrite H. right. split; [reflexivity|]. split; reflexivity. }
  destruct (inherited (orElse (req_contentStyle req) "tutorial")).
  { rewrite H. right. split; [reflexivity|]. split; [reflexivity|].
    split; reflexivity. }
  destruct H as [rep Hrep]. rewrite Hrep. split; [reflexivity|].
  exists req. split; [reflexivity|exact Hrep].
Qed.

(** A response of [handleRequest] never carries the code of a parse
    error. *)
Lemma handleRequest_no_parse_error (h : Host) (request : RpcRequest) (response : Response)
  (message : Message) :
  handleRequest h request = Ok response ->
  outcome response <> Failure (-32700) message.
Proof.
  rewrite handleRequest_cases. intros H Ho.
  destruct (rpc_method request) as [m|].
  2: { injection H as <-. discriminate. }
  destruct (m =? "ping"); [injection H as <-; discriminate|].
  destruct (m =? "tools/list"); [injection H as <-; discriminate|].
  destruct (m =? "tools/call"); [|injection H as <-; discriminate].
  destruct (rpc_params request) as [call|]; [|discriminate].
  destruct (handleToolCall_answers h call (rpc_id request)) as (r & Hr & _ & _ & Hr').
  rewrite Hr in H. injection H as <-. rewrite Hr' in Ho.
  destruct (match call_name call with Some n => n =? "optimizeScript" | None => false end);
    [|discriminate].
  destruct (callOptimizeScript h (call_arguments call)); discriminate.
Qed.

Lemma handleRequest_throws (h : Host) (request : RpcRequest) :
  (exists e, handleRequest h request = Throw e) <->
  rpc_method request = Some "tools/call" /\ rpc_params request = None.
Proof.
  rewrite handleRequest_cases. split.
  - intros [e H]. destruct (rpc_method request) as [m|]; [|discriminate].
    destruct (m =? "ping"); [discriminate|].
    destruct (m =? "tools/list"); [discriminate|].
    destruct (String.eqb_spec m "tools/call") as [Hm|]; [|discriminate].
    split; [rewrite Hm; reflexivity|].
    destruct (rpc_params request) as [call|]; [|reflexivity].
    destruct (handleToolCall_answers h call (rpc_id request)) as (r & Hr & _).
    rewrite Hr in H. discriminate.
  - intros [-> ->]. exists TypeError. reflexivity.
Qed.

(** X19: the message handler answers "Parse error" (-32700, [id] null)
    in three cases only: the message is not JSON, it is the JSON [null], or
    it is a [tools/call] request without [params], which did parse.  A
    message that parsed to anything else gets the response of
    [handleRequest], with the [id] of the request. *)
Theorem X19_parse_error_answers (h : Host) (parsed : result (option RpcRequest)) :
  (onMessage h parsed = parseErrorResponse <->
   (exists e, parsed = Throw e) \/ parsed = Ok None \/
   exists request, parsed = Ok (Some request) /\
                   rpc_method request = Some "tools/call" /\
                   rpc_params request = None) /\
  (forall request,
     parsed = Ok (Some request) ->
     ~ (rpc_method request = Some "tools/call" /\ rpc_params request = None) ->
     handleRequest h request = Ok (onMessage h parsed) /\
     resp_id (onMessage h parsed) = rpc_id request).
Proof.
  split.
  - split.
    + intros H. destruct parsed as [[request|]|e]; [|right; left; reflexivity|left; eauto].
      right. right. exists request. split; [reflexivity|].
      apply (proj1 (handleRequest_throws h request)).
      unfold onMessage in H. cbn [bind] in H.
      destruct (handleRequest h request) as [response|e] eqn:Hr; [|eauto].
      exfalso. apply (handleRequest_no_parse_error _ _ _ (Text "Parse error") Hr).
      rewrite H. reflexivity.
    + intros [[e ->]|[->|(request & -> & Hm & Hp)]]; [reflexivity|reflexivity|].
      unfold onMessage. cbn [bind].
      destruct (proj2 (handleRequest_throws h request) (conj Hm Hp)) as [e ->].
      reflexivity.
  - intros request -> Hn. unfold onMessage. cbn [bind].
    destruct (handleRequest h request) as [response|e] eqn:Hr.
    + split; [reflexivity|].
      pose proof (Hcases := handleRequest_cases h request).
      rewrite Hr in Hcases.
      destruct (rpc_method request) as [m|].
      2: { injection Hcases as ->. reflexivity. }
      destruct (m =? "ping"); [injection Hcases as ->; reflexivity|].
      destruct (m =? "tools/list"); [injection Hcases as ->; reflexivity|].
      destruct (m =? "tools/call"); [|injection Hcases as ->; reflexivity].
      destruct (rpc_params request) as [call|]; [|discriminate].
      destruct (handleToolCall_answers h call (rpc_id request)) as (r & Hr' & _ & Hi & _).
      rewrite Hr' in Hcases. injection Hcases as ->. exact Hi.
    + exfalso. apply Hn. apply (proj1 (handleRequest_throws h request)). eauto.
Qed.
